(** * GridBridge UK: the geospatial overlay engine

    A shallow embedding of the overlay components of the dashboard
    (GridSimulator.jsx, GridSimulatorMap.jsx and its variant with static
    fallbacks, GridMapOverlay.jsx and the two static-data maps) together
    with the properties the specification states about them.

    Conventions of the embedding:
    - a field of a feed object is [option]: [None] is JavaScript's
      [undefined] (the property is absent);
    - numbers received from the feed are JSON numbers, i.e. finite decimal
      literals, and are modelled as rationals [Q]; values computed by the
      components live in [JS.number], which adds [NaN] and the two
      infinities.  Arithmetic is exact: the rounding of IEEE doubles is not
      modelled, and zero carries no sign;
    - a React component is the function from its props to the element it
      returns; [None] stands for a component that returns [null];
    - an object literal used as a table ([FUEL_CONFIG], [CARBON_LEVELS],
      ...) is a finite map.  The two answer alike for every key but the
      names of the members of [Object.prototype]; statements about a
      looked-up colour or label are made for the other keys ([plain_key]),
      and the panels of the opportunities are modelled with the inherited
      members ([Objects.get]). *)

From Stdlib Require Import QArith Qabs Qminmax Qround Lqa.
From stdpp Require Import base option list strings gmap.

Local Open Scope Q_scope.

(** ** JavaScript numbers and the operators the components use *)

Module JS.

Inductive number : Type :=
| NaN
| NegInf
| Fin (q : Q)
| PosInf.

Definition Qltb (a b : Q) : bool := negb (Qle_bool b a).

(** [a < b]; any comparison with [NaN] is false. *)
Definition lt (a b : number) : bool :=
  match a, b with
  | NaN, _ | _, NaN => false
  | _, NegInf => false
  | NegInf, _ => true
  | PosInf, _ => false
  | Fin _, PosInf => true
  | Fin x, Fin y => Qltb x y
  end.

Definition gt (a b : number) : bool := lt b a.

(** [a <= b]. *)
Definition le (a b : number) : bool :=
  match a, b with
  | NaN, _ | _, NaN => false
  | _, _ => negb (lt b a)
  end.

Definition ge (a b : number) : bool := le b a.

(** [a === 0] on numbers. *)
Definition is_zero (a : number) : bool :=
  match a with Fin q => Qeq_bool q 0 | _ => false end.

(** ToNumber of a numeric property that may be absent:
    [undefined] converts to [NaN]. *)
Definition of_field (f : option Q) : number :=
  match f with Some q => Fin q | None => NaN end.

(** [f || d] for a numeric property [f] and a numeric literal [d]:
    the property when it is present and non-zero, the literal otherwise. *)
Definition or_default (f : option Q) (d : Q) : Q :=
  match f with
  | Some q => if Qeq_bool q 0 then d else q
  | None => d
  end.

(** [!f] for a numeric property. *)
Definition falsy_field (f : option Q) : bool :=
  match f with
  | Some q => Qeq_bool q 0
  | None => true
  end.

Definition neg (a : number) : number :=
  match a with
  | NaN => NaN
  | NegInf => PosInf
  | PosInf => NegInf
  | Fin q => Fin (- q)
  end.

Definition add (a b : number) : number :=
  match a, b with
  | NaN, _ | _, NaN => NaN
  | PosInf, NegInf | NegInf, PosInf => NaN
  | PosInf, _ | _, PosInf => PosInf
  | NegInf, _ | _, NegInf => NegInf
  | Fin x, Fin y => Fin (x + y)
  end.

Definition sub (a b : number) : number := add a (neg b).

(** The infinity with the sign of [q] ([q] is not zero). *)
Definition signed_inf (q : Q) : number :=
  if Qltb q 0 then NegInf else PosInf.

Definition mul (a b : number) : number :=
  match a, b with
  | NaN, _ | _, NaN => NaN
  | Fin x, Fin y => Fin (x * y)
  | Fin x, PosInf | PosInf, Fin x =>
      if Qeq_bool x 0 then NaN else signed_inf x
  | Fin x, NegInf | NegInf, Fin x =>
      if Qeq_bool x 0 then NaN else signed_inf (- x)
  | PosInf, PosInf | NegInf, NegInf => PosInf
  | PosInf, NegInf | NegInf, PosInf => NegInf
  end.

(** [a / b].  A finite non-zero number over zero is an infinity, [0 / 0]
    is [NaN]; a zero divisor counts as [+0]. *)
Definition div (a b : number) : number :=
  match a, b with
  | NaN, _ | _, NaN => NaN
  | Fin x, Fin y =>
      if Qeq_bool y 0
      then (if Qeq_bool x 0 then NaN else signed_inf x)
      else Fin (x / y)
  | Fin _, (PosInf | NegInf) => Fin 0
  | PosInf, Fin y => if Qltb y 0 then NegInf else PosInf
  | NegInf, Fin y => if Qltb y 0 then PosInf else NegInf
  | (PosInf | NegInf), (PosInf | NegInf) => NaN
  end.

(** [Math.max(a, b)] and [Math.min(a, b)]: [NaN] if either argument is. *)
Definition Math_max (a b : number) : number :=
  match a, b with
  | NaN, _ | _, NaN => NaN
  | _, _ => if lt a b then b else a
  end.

Definition Math_min (a b : number) : number :=
  match a, b with
  | NaN, _ | _, NaN => NaN
  | _, _ => if lt b a then b else a
  end.

Definition Math_abs (a : number) : number :=
  match a with
  | NaN => NaN
  | NegInf | PosInf => PosInf
  | Fin q => Fin (Qabs q)
  end.

(** [Math.sqrt].  A rational has in general no rational square root, so
    the root of a finite non-negative number is taken to [sqrt_bits]
    binary places, rounded down; [NaN] below zero. *)
Definition sqrt_bits : positive := 52.

Definition Qsqrt (q : Q) : Q :=
  Z.sqrt (Qfloor (q * inject_Z (2 ^ (2 * Z.pos sqrt_bits))))
    # (2 ^ sqrt_bits).

Definition Math_sqrt (a : number) : number :=
  match a with
  | NaN | NegInf => NaN
  | PosInf => PosInf
  | Fin q => if Qltb q 0 then NaN else Fin (Qsqrt q)
  end.

(** Numeric equality of two computed values ([Q] is not canonical). *)
Definition eqv (a b : number) : Prop :=
  match a, b with
  | NaN, NaN | NegInf, NegInf | PosInf, PosInf => True
  | Fin x, Fin y => x == y
  | _, _ => False
  end.

End JS.

(** ** Feed entities

    The overlay feed delivers plain JSON objects; the components tell the
    kinds apart by the properties an object carries.  One record with
    optional fields therefore stands for every entity of the feed. *)

Record LatLng : Type := mkLatLng {
  lat : option Q;
  lng : option Q;
}.

Record entity : Type := mkEntity {
  ent_id : option string;          (* id *)
  ent_name : option string;        (* name *)
  fuel_type : option string;
  node_type : option string;
  country_code : option string;
  coords : option LatLng;
  output_mw : option Q;
  capacity_mw : option Q;
  bids_mw : option Q;
  offers_mw : option Q;
  headroom_mw : option Q;
  load_mw : option Q;
  voltage_kv : option Q;
  flow_mw : option Q;
  ent_index : option string;       (* index, the carbon band *)
  intensity : option Q;
}.

(** The object with no property at all, and the literals of the static
    tables written as updates of it. *)
Definition no_entity : entity :=
  mkEntity None None None None None None None None
           None None None None None None None None.

Definition at_ (la lo : Q) : option LatLng := Some (mkLatLng (Some la) (Some lo)).

Definition gsp (i n : string) (la lo kv headroom load : Q) : entity :=
  mkEntity (Some i) (Some n) None None None (at_ la lo) None None
           None None (Some headroom) (Some load) (Some kv) None None None.

Definition station (i n fuel : string) (la lo cap out : Q) : entity :=
  mkEntity (Some i) (Some n) (Some fuel) None None (at_ la lo) (Some out) (Some cap)
           None None None None None None None None.

(** [e.coords?.lat] and [e.coords?.lng]. *)
Definition coords_lat (e : entity) : option Q := coords e ≫= lat.
Definition coords_lng (e : entity) : option Q := coords e ≫= lng.

(** ** Documents of the three endpoints *)

Module Feed.

(** One layer of [/api/overlay/state]: [{ data: [...] }]. *)
Record layerDoc : Type := mkLayerDoc {
  data : option (list entity);
}.

Record layersDoc : Type := mkLayersDoc {
  generators : option layerDoc;
  interconnectors : option layerDoc;
  grid_nodes : option layerDoc;
  carbon_intensity : option layerDoc;
}.

Record overlayDoc : Type := mkOverlayDoc {
  layers : option layersDoc;
  timestamp : option string;
}.

(** [/api/aggregated/snapshot], reduced to the totals the panels read. *)
Record snapshotDoc : Type := mkSnapshotDoc {
  generation_total_mw : option Q;
  demand_total_mw : option Q;
  net_imports_mw : option Q;
}.

Record opportunity : Type := mkOpportunity {
  action : string;
  confidence : Q;
  reason : string;
}.

(** [/api/aggregated/flexibility-opportunities]: [{ opportunities: [...] }]. *)
Record opportunitiesDoc : Type := mkOpportunitiesDoc {
  opportunities : option (list opportunity);
}.

(** [overlay?.layers?.<layer>?.data || []]: an array is truthy even when it
    is empty, so only an absent link of the chain yields the literal [[]]. *)
Definition layer_data (overlay : option overlayDoc)
    (layer : layersDoc → option layerDoc) : list entity :=
  default [] (((overlay ≫= layers) ≫= layer) ≫= data).

End Feed.

(** ** How one request of a poll cycle ends *)

Inductive fetched (A : Type) : Type :=
| NetworkError (message : string)    (* fetch() rejects *)
| HttpError                          (* a response with r.ok false *)
| BadJson (message : string)         (* r.json() rejects *)
| Body (body : A).                   (* r.ok and the parsed body *)

Arguments NetworkError {A} message.
Arguments HttpError {A}.
Arguments BadJson {A} message.
Arguments Body {A} body.

(** ** Headroom bands and shared colours *)

Definition HEADROOM_HIGH : string := "#22c55e".    (* green *)
Definition HEADROOM_MEDIUM : string := "#f59e0b".  (* amber *)
Definition HEADROOM_LOW : string := "#ef4444".     (* red *)

Definition FLOW_IMPORT : string := "#22c55e".      (* green *)
Definition FLOW_EXPORT : string := "#ef4444".      (* red *)
Definition FLOW_IDLE : string := "#6b7280".        (* grey *)

(** ASCII lower-casing, for [index?.toLowerCase()] on the carbon bands. *)
Definition lower_ascii (c : Ascii.ascii) : Ascii.ascii :=
  let n := Ascii.nat_of_ascii c in
  if (Nat.leb 65 n && Nat.leb n 90)%bool then Ascii.ascii_of_nat (n + 32) else c.

Fixpoint toLowerCase (s : string) : string :=
  match s with
  | EmptyString => EmptyString
  | String c s' => String (lower_ascii c) (toLowerCase s')
  end.

(** A position in render space. *)
Record point : Type := mkPoint {
  px : JS.number;
  py : JS.number;
}.

(** * GridSimulator.jsx: the schematic SVG simulator *)

Module GridSimulator.

(** [UK_BOUNDS], [MAP_WIDTH], [MAP_HEIGHT]. *)
Definition north : Q := 60.
Definition south : Q := 49.5.
Definition east : Q := 2.
Definition west : Q := -8.
Definition MAP_WIDTH : Q := 400.
Definition MAP_HEIGHT : Q := 500.

Record fuelConfig : Type := mkFuel {
  color : string;
  label : string;
  animate : bool;
}.

Definition FUEL_other : fuelConfig := mkFuel "#6b7280" "Other" false.

Definition FUEL_CONFIG : gmap string fuelConfig :=
  list_to_map [
    ("wind", mkFuel "#10b981" "Wind" true);
    ("solar", mkFuel "#fbbf24" "Solar" true);
    ("gas", mkFuel "#ef4444" "Gas (CCGT)" false);
    ("nuclear", mkFuel "#f59e0b" "Nuclear" true);
    ("biomass", mkFuel "#84cc16" "Biomass" false);
    ("battery", mkFuel "#8b5cf6" "Battery" true);
    ("hydro", mkFuel "#3b82f6" "Hydro" true);
    ("coal", mkFuel "#374151" "Coal" false);
    ("imports", mkFuel "#06b6d4" "Imports" false);
    ("other", FUEL_other)
  ].

(** [FUEL_CONFIG[generator.fuel_type] || FUEL_CONFIG.other]. *)
Definition fuel_config (g : entity) : fuelConfig :=
  default FUEL_other (fuel_type g ≫= (FUEL_CONFIG !!.)).

Record carbonLevel : Type := mkLevel {
  level_color : string;
  level_bg : string;
  level_label : string;
}.

Definition CARBON_moderate : carbonLevel := mkLevel "#f59e0b" "#fef3c7" "Moderate".

Definition CARBON_LEVELS : gmap string carbonLevel :=
  list_to_map [
    ("very low", mkLevel "#22c55e" "#dcfce7" "Very Low");
    ("low", mkLevel "#84cc16" "#ecfccb" "Low");
    ("moderate", CARBON_moderate);
    ("high", mkLevel "#f97316" "#ffedd5" "High");
    ("very high", mkLevel "#ef4444" "#fee2e2" "Very High")
  ].

(** [latLngToXY]: the affine map of the bounding box onto the drawing. *)
Definition latLngToXY (la lo : JS.number) : point :=
  {| px := JS.mul (JS.div (JS.sub lo (JS.Fin west)) (JS.sub (JS.Fin east) (JS.Fin west)))
                  (JS.Fin MAP_WIDTH);
     py := JS.mul (JS.div (JS.sub (JS.Fin north) la) (JS.sub (JS.Fin north) (JS.Fin south)))
                  (JS.Fin MAP_HEIGHT) |}.

(** [latLngToXY(e.coords?.lat || dlat, e.coords?.lng || dlng)]. *)
Definition position_or (e : entity) (dlat dlng : Q) : point :=
  latLngToXY (JS.Fin (JS.or_default (coords_lat e) dlat))
             (JS.Fin (JS.or_default (coords_lng e) dlng)).

(** *** useGridData *)

Record gridData : Type := mkGridData {
  snapshot : option Feed.snapshotDoc;
  overlay : option Feed.overlayDoc;
  opps : list Feed.opportunity;
  loading : bool;
  error : option string;
  lastUpdate : option Z;
}.

Definition initial : gridData := mkGridData None None [] true None None.

(** One request: [fetch(url).then(r => r.ok ? r.json() : null)].  The
    promise rejects with a message, or resolves to the body or [null]. *)
Definition request {A} (f : fetched A) : string + option A :=
  match f with
  | NetworkError m | BadJson m => inl m
  | HttpError => inr None
  | Body b => inr (Some b)
  end.

(** [fetchData]: the three requests under one [Promise.all] inside one
    [try].  [Promise.all] rejects as soon as one of its promises does; the
    message kept here is that of the first rejected request in the order
    of the array. *)
Definition fetchData (now : Z)
    (snap : fetched Feed.snapshotDoc) (ov : fetched Feed.overlayDoc)
    (op : fetched Feed.opportunitiesDoc) (prev : gridData) : gridData :=
  match request snap, request ov, request op with
  | inr snapshotRes, inr overlayRes, inr oppsRes =>
      {| snapshot := snapshotRes;
         overlay := overlayRes;
         opps := default [] (oppsRes ≫= Feed.opportunities);
         loading := false;
         error := None;
         lastUpdate := Some now |}
  | inl m, _, _ | inr _, inl m, _ | inr _, inr _, inl m =>
      {| snapshot := snapshot prev;
         overlay := overlay prev;
         opps := opps prev;
         loading := false;
         error := Some m;
         lastUpdate := lastUpdate prev |}
  end.

(** *** AnimatedGeneratorIcon *)

Record generatorIcon : Type := mkIcon {
  icon_generator : entity;      (* what a click selects *)
  icon_pos : point;
  icon_size : JS.number;
  icon_opacity : JS.number;     (* capFactor *)
  icon_color : string;
  icon_selected : bool;
}.

(** [Math.max(12, Math.min(32, Math.sqrt(generator.capacity_mw || 50) * scale))]. *)
Definition icon_size_of (generator : entity) (scale : JS.number) : JS.number :=
  JS.Math_max (JS.Fin 12)
    (JS.Math_min (JS.Fin 32)
       (JS.mul (JS.Math_sqrt (JS.Fin (JS.or_default (capacity_mw generator) 50))) scale)).

(** [Math.max(0.3, (generator.output_mw || 0) / (generator.capacity_mw || 100))]. *)
Definition capFactor (generator : entity) : JS.number :=
  JS.Math_max (JS.Fin 0.3)
    (JS.div (JS.Fin (JS.or_default (output_mw generator) 0))
            (JS.Fin (JS.or_default (capacity_mw generator) 100))).

Definition AnimatedGeneratorIcon (generator : entity) (scale : JS.number)
    (selected : bool) : generatorIcon :=
  {| icon_generator := generator;
     icon_pos := position_or generator 54 (-2);
     icon_size := icon_size_of generator scale;
     icon_opacity := capFactor generator;
     icon_color := color (fuel_config generator);
     icon_selected := selected |}.

(** *** InterconnectorCable *)

Definition countryOffsets : gmap string (Q * Q) :=
  list_to_map [
    ("FR", (50, 100)); ("BE", (70, 50)); ("NL", (90, 30));
    ("NO", (30, -80)); ("DK", (80, -40)); ("IE", (-60, 20))
  ].

Record cable : Type := mkCable {
  cable_interconnector : entity;
  cable_from : point;
  cable_offset : Q * Q;
  cable_color : string;
  cable_width : JS.number;      (* strokeWidth *)
  cable_dashed : bool;          (* strokeDasharray "5,5" *)
  cable_direction : string;     (* the title's Import / Export *)
}.

Definition InterconnectorCable (interconnector : entity) : cable :=
  let flow := JS.or_default (flow_mw interconnector) 0 in
  let isImport := JS.gt (JS.Fin flow) (JS.Fin 0) in
  {| cable_interconnector := interconnector;
     cable_from := position_or interconnector 51 0;
     cable_offset := default (50, 50) (country_code interconnector ≫= (countryOffsets !!.));
     cable_color := if isImport then FLOW_IMPORT
                    else if JS.lt (JS.Fin flow) (JS.Fin 0) then FLOW_EXPORT
                    else FLOW_IDLE;
     cable_width := JS.Math_max (JS.Fin 2) (JS.div (JS.Math_abs (JS.Fin flow)) (JS.Fin 500));
     cable_dashed := negb isImport;
     cable_direction := if isImport then "Import" else "Export" |}.

(** *** GridNodeMarker *)

Record nodeMarker : Type := mkNode {
  marker_node : entity;
  marker_pos : point;
  marker_color : string;
  marker_size : Q;
  marker_selected : bool;
}.

Definition GridNodeMarker (node : entity) (selected : bool) : nodeMarker :=
  let headroom := JS.or_default (headroom_mw node) 0 in
  {| marker_node := node;
     marker_pos := position_or node 54 (-2);
     marker_color := if JS.gt (JS.Fin headroom) (JS.Fin 100) then HEADROOM_HIGH
                     else if JS.gt (JS.Fin headroom) (JS.Fin 50) then HEADROOM_MEDIUM
                     else HEADROOM_LOW;
     marker_size := if bool_decide (node_type node = Some "gsp") then 8 else 6;
     marker_selected := selected |}.

(** *** CarbonRegion *)

Record carbonCircle : Type := mkCarbon {
  carbon_region : entity;
  carbon_pos : point;
  carbon_level : carbonLevel;
}.

Definition CarbonRegion (region : entity) : carbonCircle :=
  {| carbon_region := region;
     carbon_pos := position_or region 54 (-2);
     carbon_level :=
       default CARBON_moderate
         (ent_index region ≫= (λ i, CARBON_LEVELS !! toLowerCase i)) |}.

(** *** SelectionDetailPanel

    The panel is the entity's name followed by one block of rows per kind
    flag that holds.  Numbers are kept as they are before [formatMW] and
    [toFixed] turn them into text. *)

Inductive rows : Type :=
| GeneratorRows (fuel : string) (output capacity : Q)
    (capacity_factor_pct : JS.number) (bids offers : option Q)
| NodeRows (kind : string) (voltage headroom : option Q)
    (headroom_class : string) (load : option Q)
| InterconnectorRows (country : string) (capacity : Q)
    (flow_abs : Q) (flow_class : string) (direction : string).

Record panel : Type := mkPanel {
  panel_title : option string;
  panel_rows : list rows;
}.

(** [((selection.output_mw / (selection.capacity_mw || 1)) * 100)], the
    number handed to [toFixed(1)]. *)
Definition capacity_factor_pct (selection : entity) : JS.number :=
  JS.mul (JS.div (JS.of_field (output_mw selection))
                 (JS.Fin (JS.or_default (capacity_mw selection) 1)))
         (JS.Fin 100).

(** [v > 0 && ...] for the bid and offer rows. *)
Definition positive_volume (v : option Q) : option Q :=
  if JS.gt (JS.of_field v) (JS.Fin 0) then v else None.

Definition generator_rows (selection : entity) : list rows :=
  match fuel_type selection with       (* isGenerator *)
  | Some fuel =>
      [GeneratorRows fuel
         (JS.or_default (output_mw selection) 0)
         (JS.or_default (capacity_mw selection) 0)
         (capacity_factor_pct selection)
         (positive_volume (bids_mw selection))
         (positive_volume (offers_mw selection))]
  | None => []
  end.

Definition node_rows (selection : entity) : list rows :=
  match node_type selection with       (* isNode *)
  | Some kind =>
      [NodeRows kind (voltage_kv selection) (headroom_mw selection)
         (if JS.gt (JS.of_field (headroom_mw selection)) (JS.Fin 100) then "text-green-400"
          else if JS.gt (JS.of_field (headroom_mw selection)) (JS.Fin 50) then "text-amber-400"
          else "text-red-400")
         (load_mw selection)]
  | None => []
  end.

Definition interconnector_rows (selection : entity) : list rows :=
  match country_code selection with    (* isInterconnector *)
  | Some country =>
      let importing := JS.ge (JS.of_field (flow_mw selection)) (JS.Fin 0) in
      [InterconnectorRows country
         (JS.or_default (capacity_mw selection) 0)
         (Qabs (JS.or_default (flow_mw selection) 0))
         (if importing then "text-green-400" else "text-red-400")
         (if importing then "(Import)" else "(Export)")]
  | None => []
  end.

Definition SelectionDetailPanel (selection : option entity) : option panel :=
  match selection with
  | None => None
  | Some s =>
      Some {| panel_title := ent_name s;
              panel_rows := generator_rows s ++ node_rows s ++ interconnector_rows s |}
  end.

(** *** GridSimulator: layer state, layer data and the scene *)

Record layerState : Type := mkLayer {
  visible : option bool;
  opacity : option Q;
}.

Definition initial_layers : gmap string layerState :=
  list_to_map [
    ("generators", mkLayer (Some true) (Some 1));
    ("interconnectors", mkLayer (Some true) (Some 1));
    ("gridNodes", mkLayer (Some true) (Some 0.8));
    ("carbonRegions", mkLayer (Some true) (Some 0.5));
    ("constraints", mkLayer (Some false) (Some 1))
  ].

(** [layers[key]?.visible] as a condition. *)
Definition is_visible (ls : gmap string layerState) (key : string) : bool :=
  default false ((ls !! key) ≫= visible).

(** [layers[key]?.opacity || 1]. *)
Definition opacity_of (ls : gmap string layerState) (key : string) : Q :=
  JS.or_default ((ls !! key) ≫= opacity) 1.

Definition toggleLayer (key : string) (prev : gmap string layerState)
    : gmap string layerState :=
  <[key := {| visible := Some (negb (is_visible prev key));
              opacity := (prev !! key) ≫= opacity |}]> prev.

Definition setLayerOpacity (key : string) (o : Q) (prev : gmap string layerState)
    : gmap string layerState :=
  <[key := {| visible := (prev !! key) ≫= visible; opacity := Some o |}]> prev.

Record state : Type := mkState {
  grid : gridData;                          (* useGridData() *)
  selection : option entity;
  zoom : JS.number;
  layer_states : gmap string layerState;    (* layers *)
}.

(** The layer collections the component extracts from the overlay. *)
Definition generators (st : state) : list entity :=
  Feed.layer_data (overlay (grid st)) Feed.generators.
Definition interconnectors (st : state) : list entity :=
  Feed.layer_data (overlay (grid st)) Feed.interconnectors.
Definition gridNodes (st : state) : list entity :=
  Feed.layer_data (overlay (grid st)) Feed.grid_nodes.
Definition carbonRegions (st : state) : list entity :=
  Feed.layer_data (overlay (grid st)) Feed.carbon_intensity.

(** [selection?.id === e.id]. *)
Definition is_selected (sel : option entity) (e : entity) : bool :=
  bool_decide (sel ≫= ent_id = ent_id e).

(** A child of the map's [<g>]: the layer's opacity and the component. *)
Inductive element : Type :=
| CarbonElement (layer_opacity : Q) (c : carbonCircle)
| NodeElement (layer_opacity : Q) (m : nodeMarker)
| CableElement (layer_opacity : Q) (c : cable)
| GeneratorElement (layer_opacity : Q) (i : generatorIcon).

(** [layers[key]?.visible && items.map(...)]. *)
Definition layer_elements {A} (ls : gmap string layerState) (key : string)
    (items : list A) (draw : Q → A → element) : list element :=
  if is_visible ls key then draw (opacity_of ls key) <$> items else [].

(** The children of the SVG map, in drawing order. *)
Definition scene (st : state) : list element :=
  let ls := layer_states st in
  layer_elements ls "carbonRegions" (carbonRegions st)
    (λ o region, CarbonElement o (CarbonRegion region))
  ++ layer_elements ls "gridNodes" (gridNodes st)
    (λ o node, NodeElement o (GridNodeMarker node (is_selected (selection st) node)))
  ++ layer_elements ls "interconnectors" (interconnectors st)
    (λ o ic, CableElement o (InterconnectorCable ic))
  ++ layer_elements ls "generators" (take 100 (generators st))
    (λ o gen, GeneratorElement o
                (AnimatedGeneratorIcon gen (zoom st) (is_selected (selection st) gen))).

(** The entity an element was drawn from. *)
Definition drawn_from (el : element) : entity :=
  match el with
  | CarbonElement _ c => carbon_region c
  | NodeElement _ m => marker_node m
  | CableElement _ c => cable_interconnector c
  | GeneratorElement _ i => icon_generator i
  end.

End GridSimulator.

(** * The Leaflet simulator (GridSimulatorMap)

    The variant with static fallbacks; GridSimulatorMap.jsx is the same
    text without the two default tables (see [generators_plain]). *)

Module GridSimulatorMap.

Definition FUEL_other : string := "#6b7280".

(** The colours of [FUEL_CONFIG]. *)
Definition FUEL_CONFIG : gmap string string :=
  list_to_map [
    ("wind", "#10b981"); ("solar", "#fbbf24"); ("gas", "#ef4444");
    ("nuclear", "#f59e0b"); ("biomass", "#84cc16"); ("battery", "#8b5cf6");
    ("hydro", "#3b82f6"); ("coal", "#374151"); ("imports", "#06b6d4");
    ("other", FUEL_other)
  ].

Definition CARBON_COLORS : gmap string string :=
  list_to_map [
    ("very low", "#22c55e"); ("low", "#84cc16"); ("moderate", "#f59e0b");
    ("high", "#f97316"); ("very high", "#ef4444")
  ].

(** Interconnector endpoints (country coordinates). *)
Definition INTERCONNECTOR_ENDPOINTS : gmap string (Q * Q) :=
  list_to_map [
    ("FR", (49.5, 1.5)); ("BE", (51.2, 3.0)); ("NL", (52.5, 4.5));
    ("NO", (58.0, 5.0)); ("DK", (55.5, 8.0)); ("IE", (53.5, -8.5))
  ].

(** The hook is the text of GridSimulator.jsx's. *)
Definition fetchData := GridSimulator.fetchData.

(** [if (!e.coords?.lat || !e.coords?.lng) return null], and the
    [[e.coords.lat, e.coords.lng]] the component goes on with. *)
Definition placed (e : entity) : option (Q * Q) :=
  if (JS.falsy_field (coords_lat e) || JS.falsy_field (coords_lng e))%bool
  then None
  else match coords_lat e, coords_lng e with
       | Some la, Some lo => Some (la, lo)
       | _, _ => None
       end.

(** A Leaflet [CircleMarker]. *)
Record circleMarker : Type := mkCircle {
  circle_of : entity;
  center : Q * Q;
  radius : JS.number;
  circle_color : string;
  fillColor : string;
  fillOpacity : JS.number;
}.

(** *** GeneratorMarker *)

(** [(generator.output_mw || 0) / (generator.capacity_mw || 100)]. *)
Definition capFactor (generator : entity) : JS.number :=
  JS.div (JS.Fin (JS.or_default (output_mw generator) 0))
         (JS.Fin (JS.or_default (capacity_mw generator) 100)).

(** [Math.max(5, Math.min(20, Math.sqrt(generator.capacity_mw || 50) / 2))]. *)
Definition radius_of (generator : entity) : JS.number :=
  JS.Math_max (JS.Fin 5)
    (JS.Math_min (JS.Fin 20)
       (JS.div (JS.Math_sqrt (JS.Fin (JS.or_default (capacity_mw generator) 50)))
               (JS.Fin 2))).

Definition fuel_color (generator : entity) : string :=
  default FUEL_other (fuel_type generator ≫= (FUEL_CONFIG !!.)).

Definition GeneratorMarker (generator : entity) : option circleMarker :=
  (λ c, {| circle_of := generator;
           center := c;
           radius := radius_of generator;
           circle_color := fuel_color generator;
           fillColor := fuel_color generator;
           fillOpacity := JS.Math_max (JS.Fin 0.3) (capFactor generator) |})
  <$> placed generator.

(** *** GridNodeMarker *)

Definition node_color (node : entity) : string :=
  let headroom := JS.or_default (headroom_mw node) 0 in
  if JS.gt (JS.Fin headroom) (JS.Fin 100) then HEADROOM_HIGH
  else if JS.gt (JS.Fin headroom) (JS.Fin 50) then HEADROOM_MEDIUM
  else HEADROOM_LOW.

Definition GridNodeMarker (node : entity) : option circleMarker :=
  (λ c, {| circle_of := node;
           center := c;
           radius := JS.Fin 8;
           circle_color := "#fff";
           fillColor := node_color node;
           fillOpacity := JS.Fin 0.9 |})
  <$> placed node.

(** *** InterconnectorLine *)

Record line : Type := mkLine {
  line_of : entity;
  ukPoint : Q * Q;
  foreignPoint : Q * Q;
  line_color : string;
  weight : JS.number;
  dashed : bool;                 (* dashArray '10, 10' *)
  direction : string;            (* the tooltip's Import / Export *)
}.

Definition InterconnectorLine (interconnector : entity) : option line :=
  let flow := JS.or_default (flow_mw interconnector) 0 in
  let isImport := JS.gt (JS.Fin flow) (JS.Fin 0) in
  let color := if isImport then FLOW_IMPORT
               else if JS.lt (JS.Fin flow) (JS.Fin 0) then FLOW_EXPORT
               else FLOW_IDLE in
  (λ c, {| line_of := interconnector;
           ukPoint := c;
           foreignPoint :=
             default (51, 2)
               (country_code interconnector ≫= (INTERCONNECTOR_ENDPOINTS !!.));
           line_color := color;
           weight := JS.Math_max (JS.Fin 2) (JS.div (JS.Math_abs (JS.Fin flow)) (JS.Fin 300));
           dashed := negb isImport;
           direction := if isImport then "Import" else "Export" |})
  <$> placed interconnector.

(** *** CarbonRegionMarker *)

Definition CarbonRegionMarker (region : entity) : option circleMarker :=
  let color := default "#6b7280"
                 (ent_index region ≫= (λ i, CARBON_COLORS !! toLowerCase i)) in
  (λ c, {| circle_of := region;
           center := c;
           radius := JS.Fin 40;
           circle_color := color;
           fillColor := color;
           fillOpacity := JS.Fin 0.15 |})
  <$> placed region.

(** *** SelectionPanel *)

Inductive rows : Type :=
| GeneratorRows (fuel : string) (output capacity : option Q)
    (capacity_factor_pct : JS.number)
| NodeRows (kind : string) (voltage headroom : option Q)
    (headroom_class : string) (load : option Q)
| InterconnectorRows (country : string) (capacity : option Q)
    (flow_abs : JS.number) (flow_class : string) (direction : string).

Record panel : Type := mkPanel {
  panel_title : option string;
  panel_rows : list rows;
}.

(** [(((selection.output_mw || 0) / (selection.capacity_mw || 1)) * 100)],
    the number handed to [toFixed(1)]. *)
Definition capacity_factor_pct (selection : entity) : JS.number :=
  JS.mul (JS.div (JS.Fin (JS.or_default (output_mw selection) 0))
                 (JS.Fin (JS.or_default (capacity_mw selection) 1)))
         (JS.Fin 100).

Definition generator_rows (selection : entity) : list rows :=
  match fuel_type selection with       (* isGenerator *)
  | Some fuel =>
      [GeneratorRows fuel (output_mw selection) (capacity_mw selection)
         (capacity_factor_pct selection)]
  | None => []
  end.

Definition node_rows (selection : entity) : list rows :=
  match node_type selection with       (* isNode *)
  | Some kind =>
      [NodeRows kind (voltage_kv selection) (headroom_mw selection)
         (if JS.gt (JS.of_field (headroom_mw selection)) (JS.Fin 100) then "text-green-400"
          else if JS.gt (JS.of_field (headroom_mw selection)) (JS.Fin 50) then "text-amber-400"
          else "text-red-400")
         (load_mw selection)]
  | None => []
  end.

Definition interconnector_rows (selection : entity) : list rows :=
  match country_code selection with    (* isInterconnector *)
  | Some country =>
      let importing := JS.ge (JS.of_field (flow_mw selection)) (JS.Fin 0) in
      [InterconnectorRows country (capacity_mw selection)
         (JS.Math_abs (JS.of_field (flow_mw selection)))
         (if importing then "text-green-400" else "text-red-400")
         (if importing then "(Import)" else "(Export)")]
  | None => []
  end.

Definition SelectionPanel (selection : option entity) : option panel :=
  match selection with
  | None => None
  | Some s =>
      Some {| panel_title := ent_name s;
              panel_rows := generator_rows s ++ node_rows s ++ interconnector_rows s |}
  end.

(** *** GridSimulatorMap: layer toggles, layer data and the map's children *)

(** Default UK GSPs for when API is unavailable. *)
Definition DEFAULT_GSPS : list entity := [
  gsp "didcot" "Didcot 400kV" 51.62 (-1.27) 400 120 850;
  gsp "london" "London GSP" 51.51 (-0.13) 400 45 2100;
  gsp "manchester" "Manchester GSP" 53.48 (-2.24) 400 85 1200;
  gsp "birmingham" "Birmingham GSP" 52.49 (-1.90) 400 72 980;
  gsp "edinburgh" "Edinburgh GSP" 55.95 (-3.19) 275 95 650;
  gsp "glasgow" "Glasgow GSP" 55.86 (-4.25) 400 110 720;
  gsp "cardiff" "Cardiff GSP" 51.48 (-3.18) 275 88 420;
  gsp "bristol" "Bristol GSP" 51.45 (-2.58) 275 65 580;
  gsp "newcastle" "Newcastle GSP" 54.98 (-1.61) 275 92 490;
  gsp "leeds" "Leeds GSP" 53.80 (-1.55) 275 78 620;
  gsp "liverpool" "Liverpool GSP" 53.41 (-2.98) 275 82 540;
  gsp "sheffield" "Sheffield GSP" 53.38 (-1.47) 275 68 480;
  gsp "cambridge" "Cambridge GSP" 52.21 0.12 132 105 320;
  gsp "oxford" "Oxford GSP" 51.75 (-1.26) 132 98 280;
  gsp "reading" "Reading GSP" 51.45 (-0.97) 275 55 410;
  gsp "southampton" "Southampton GSP" 50.91 (-1.40) 275 73 380;
  gsp "norwich" "Norwich GSP" 52.63 1.30 132 115 260;
  gsp "nottingham" "Nottingham GSP" 52.95 (-1.15) 275 62 450;
  gsp "leicester" "Leicester GSP" 52.64 (-1.13) 275 58 390;
  gsp "aberdeen" "Aberdeen GSP" 57.15 (-2.09) 275 125 280;
  gsp "inverness" "Inverness GSP" 57.48 (-4.22) 132 140 180;
  gsp "dundee" "Dundee GSP" 56.46 (-2.97) 132 95 220;
  gsp "swansea" "Swansea GSP" 51.62 (-3.94) 275 85 290;
  gsp "plymouth" "Plymouth GSP" 50.38 (-4.14) 132 92 240;
  gsp "exeter" "Exeter GSP" 50.72 (-3.53) 132 102 210
].

Definition DEFAULT_GENERATORS : list entity := [
  station "drax" "Drax Power Station" "biomass" 53.74 (-0.99) 2595 1800;
  station "sizewell" "Sizewell B" "nuclear" 52.21 1.62 1198 1150;
  station "hinkley" "Hinkley Point B" "nuclear" 51.21 (-3.13) 965 920;
  station "hornsea" "Hornsea Wind Farm" "wind" 53.88 1.80 1218 850;
  station "dogger" "Dogger Bank Wind" "wind" 54.75 2.20 1200 780;
  station "dinorwig" "Dinorwig Hydro" "hydro" 53.12 (-4.11) 1728 0;
  station "ccgt_pembroke" "Pembroke CCGT" "gas" 51.68 (-4.99) 2180 1450;
  station "ccgt_carrington" "Carrington CCGT" "gas" 53.43 (-2.41) 884 620
].

Definition initial_layers : gmap string bool :=
  list_to_map [
    ("generators", true); ("interconnectors", true);
    ("gridNodes", true); ("carbonRegions", true)
  ].

(** [layers[key]] as a condition. *)
Definition is_on (ls : gmap string bool) (key : string) : bool :=
  default false (ls !! key).

Definition toggleLayer (key : string) (prev : gmap string bool) : gmap string bool :=
  <[key := negb (is_on prev key)]> prev.

(** Extract data from overlay, with fallbacks. *)
Definition generators (overlay : option Feed.overlayDoc) : list entity :=
  let apiData := Feed.layer_data overlay Feed.generators in
  if (0 <? length apiData)%nat then apiData else DEFAULT_GENERATORS.

Definition interconnectors (overlay : option Feed.overlayDoc) : list entity :=
  Feed.layer_data overlay Feed.interconnectors.

Definition gridNodes (overlay : option Feed.overlayDoc) : list entity :=
  let apiData := Feed.layer_data overlay Feed.grid_nodes in
  if (0 <? length apiData)%nat then apiData else DEFAULT_GSPS.

Definition carbonRegions (overlay : option Feed.overlayDoc) : list entity :=
  Feed.layer_data overlay Feed.carbon_intensity.

(** GridSimulatorMap.jsx: the same two collections without a fallback. *)
Definition generators_plain (overlay : option Feed.overlayDoc) : list entity :=
  Feed.layer_data overlay Feed.generators.

Definition gridNodes_plain (overlay : option Feed.overlayDoc) : list entity :=
  Feed.layer_data overlay Feed.grid_nodes.

Inductive element : Type :=
| MarkerElement (m : circleMarker)
| LineElement (l : line).

(** [layers[key] && items.map(...)]; a component that returns [null]
    leaves no child. *)
Definition layer_elements {A} (ls : gmap string bool) (key : string)
    (items : list A) (draw : A → option element) : list element :=
  if is_on ls key then omap draw items else [].

(** The children of the [MapContainer], in drawing order. *)
Definition scene (ls : gmap string bool) (overlay : option Feed.overlayDoc)
    : list element :=
  layer_elements ls "carbonRegions" (carbonRegions overlay)
    (λ region, MarkerElement <$> CarbonRegionMarker region)
  ++ layer_elements ls "interconnectors" (interconnectors overlay)
    (λ ic, LineElement <$> InterconnectorLine ic)
  ++ layer_elements ls "gridNodes" (gridNodes overlay)
    (λ node, MarkerElement <$> GridNodeMarker node)
  ++ layer_elements ls "generators" (take 200 (generators overlay))
    (λ gen, MarkerElement <$> GeneratorMarker gen).

Definition drawn_from (el : element) : entity :=
  match el with
  | MarkerElement m => circle_of m
  | LineElement l => line_of l
  end.

End GridSimulatorMap.

(** * GridMapOverlay.jsx: the dashboard's overlay card *)

Module GridMapOverlay.

Definition FuelColors : gmap string string :=
  list_to_map [
    ("wind", "#10b981"); ("solar", "#fbbf24"); ("gas", "#ef4444");
    ("nuclear", "#f59e0b"); ("biomass", "#84cc16"); ("battery", "#8b5cf6");
    ("hydro", "#3b82f6"); ("coal", "#1f2937"); ("other", "#6b7280")
  ].

Definition CarbonColors : gmap string string :=
  list_to_map [
    ("very low", "#22c55e"); ("low", "#84cc16"); ("moderate", "#f59e0b");
    ("high", "#f97316"); ("very high", "#ef4444")
  ].

(** *** API helpers

    [fetchOverlayState], [fetchAggregatedSnapshot] and
    [fetchFlexibilityOpportunities] share one shape: a response that is not
    ok throws inside the [try], every failure is caught, logged and turned
    into [null]. *)
Definition fetchDocument {A} (f : fetched A) : option A :=
  match f with
  | Body b => Some b
  | NetworkError _ | HttpError | BadJson _ => None
  end.

Record store : Type := mkStore {
  overlayState : option Feed.overlayDoc;
  snapshot : option Feed.snapshotDoc;
  opps : list Feed.opportunity;
  loading : bool;
  error : option string;
}.

Definition initial : store := mkStore None None [] true None.

(** [refreshData], from its first [setLoading(true)] to the [finally].
    The helpers never reject, so the [catch] is not reached. *)
Definition refreshData
    (ov : fetched Feed.overlayDoc) (snap : fetched Feed.snapshotDoc)
    (op : fetched Feed.opportunitiesDoc) (prev : store) : store :=
  let overlay := fetchDocument ov in
  let snap' := fetchDocument snap in
  let opps' := fetchDocument op in
  {| overlayState := match overlay with Some o => Some o | None => overlayState prev end;
     snapshot := match snap' with Some s => Some s | None => snapshot prev end;
     opps := match opps' with
             | Some o => default [] (Feed.opportunities o)
             | None => opps prev
             end;
     loading := false;
     error := None |}.

(** *** Layer visibility and layer data *)

Definition initial_layers : gmap string bool :=
  list_to_map [
    ("generators", true); ("interconnectors", true);
    ("gridNodes", true); ("carbonIntensity", true)
  ].

Definition is_on (ls : gmap string bool) (key : string) : bool :=
  default false (ls !! key).

Definition toggleLayer (layer : string) (prev : gmap string bool) : gmap string bool :=
  <[layer := negb (is_on prev layer)]> prev.

(** [layers.<key> ? overlayState?.layers?.<layer>?.data || [] : []]. *)
Definition extract (ls : gmap string bool) (key : string)
    (overlay : option Feed.overlayDoc)
    (layer : Feed.layersDoc → option Feed.layerDoc) : list entity :=
  if is_on ls key then Feed.layer_data overlay layer else [].

Definition generators ls overlay := extract ls "generators" overlay Feed.generators.
Definition interconnectors ls overlay := extract ls "interconnectors" overlay Feed.interconnectors.
Definition gridNodes ls overlay := extract ls "gridNodes" overlay Feed.grid_nodes.
Definition carbonRegions ls overlay := extract ls "carbonIntensity" overlay Feed.carbon_intensity.

(** *** UKMapSVG *)

(** [toSVG]: [x = ((lng + 8) / 10) * 200 + 50], [y = ((60 - lat) / 10.5) * 380 + 20]. *)
Definition toSVG (la lo : JS.number) : point :=
  {| px := JS.add (JS.mul (JS.div (JS.add lo (JS.Fin 8)) (JS.Fin 10)) (JS.Fin 200)) (JS.Fin 50);
     py := JS.add (JS.mul (JS.div (JS.sub (JS.Fin 60) la) (JS.Fin 10.5)) (JS.Fin 380)) (JS.Fin 20) |}.

Record dot : Type := mkDot {
  dot_of : entity;
  dot_pos : point;
  dot_r : JS.number;
  dot_fill : string;
  dot_opacity : option Q;        (* the circle's opacity attribute, if any *)
}.

Record link : Type := mkLink {
  link_of : entity;
  link_pos : point;
  link_color : string;
  link_strokeWidth : Q;
  link_direction : string;
}.

Definition carbon_dot (region : entity) : dot :=
  {| dot_of := region;
     dot_pos := toSVG (JS.Fin (JS.or_default (coords_lat region) 54))
                      (JS.Fin (JS.or_default (coords_lng region) (-2)));
     dot_r := JS.Fin 25;
     dot_fill := default "#6b7280"
                   (ent_index region ≫= (λ i, CarbonColors !! toLowerCase i));
     dot_opacity := Some 0.2 |}.

Definition node_dot (node : entity) : option dot :=
  match coords node with
  | None => None                                    (* !node.coords *)
  | Some c =>
      let h := JS.of_field (headroom_mw node) in
      Some {| dot_of := node;
              dot_pos := toSVG (JS.of_field (lat c)) (JS.of_field (lng c));
              dot_r := JS.Fin 6;
              dot_fill := if JS.gt h (JS.Fin 100) then "#22c55e"
                          else if JS.gt h (JS.Fin 50) then "#f59e0b"
                          else "#ef4444";
              dot_opacity := None |}
  end.

(** [Math.min(Math.max(gen.output_mw / 100, 3), 12)]. *)
Definition generator_size (gen : entity) : JS.number :=
  JS.Math_min
    (JS.Math_max (JS.div (JS.of_field (output_mw gen)) (JS.Fin 100)) (JS.Fin 3))
    (JS.Fin 12).

Definition generator_dot (gen : entity) : option dot :=
  match coords gen with
  | None => None                                    (* !gen.coords *)
  | Some c =>
      if JS.is_zero (JS.of_field (lat c)) then None  (* gen.coords.lat === 0 *)
      else
        Some {| dot_of := gen;
                dot_pos := toSVG (JS.of_field (lat c)) (JS.of_field (lng c));
                dot_r := generator_size gen;
                dot_fill := default "#6b7280" (fuel_type gen ≫= (FuelColors !!.));
                dot_opacity := Some 0.8 |}
  end.

Definition interconnector_link (ic : entity) : option link :=
  match coords ic with
  | None => None                                    (* !ic.coords *)
  | Some c =>
      let flow := JS.of_field (flow_mw ic) in
      Some {| link_of := ic;
              link_pos := toSVG (JS.of_field (lat c)) (JS.of_field (lng c));
              link_color := if JS.gt flow (JS.Fin 0) then FLOW_IMPORT
                            else if JS.lt flow (JS.Fin 0) then FLOW_EXPORT
                            else FLOW_IDLE;
              link_strokeWidth := 3;
              link_direction := if JS.gt flow (JS.Fin 0) then "import" else "export" |}
  end.

Inductive element : Type :=
| CarbonElement (d : dot)
| NodeElement (d : dot)
| GeneratorElement (d : dot)
| LinkElement (l : link).

(** The children of the [<svg>] for the four collections it is given. *)
Definition UKMapSVG (gens ics nodes regions : list entity) : list element :=
  (CarbonElement <$> (carbon_dot <$> regions))
  ++ omap (λ node, NodeElement <$> node_dot node) nodes
  ++ omap (λ gen, GeneratorElement <$> generator_dot gen) (take 50 gens)
  ++ omap (λ ic, LinkElement <$> interconnector_link ic) ics.

Definition scene (ls : gmap string bool) (st : store) : list element :=
  UKMapSVG (generators ls (overlayState st)) (interconnectors ls (overlayState st))
           (gridNodes ls (overlayState st)) (carbonRegions ls (overlayState st)).

Definition drawn_from (el : element) : entity :=
  match el with
  | CarbonElement d | NodeElement d | GeneratorElement d => dot_of d
  | LinkElement l => link_of l
  end.

End GridMapOverlay.

(** * The static real-map simulator (src/unnamed/part_001)

    The first cut of the Leaflet map: both layers are drawn from the
    tables below, nothing is fetched. *)

Module StaticMap.

(** Default UK GSPs. *)
Definition DEFAULT_GSPS : list entity := [
  gsp "didcot" "Didcot 400kV" 51.62 (-1.27) 400 120 850;
  gsp "london" "London GSP" 51.51 (-0.13) 400 45 2100;
  gsp "manchester" "Manchester GSP" 53.48 (-2.24) 400 85 1200;
  gsp "birmingham" "Birmingham GSP" 52.49 (-1.90) 400 72 980;
  gsp "edinburgh" "Edinburgh GSP" 55.95 (-3.19) 275 95 650;
  gsp "glasgow" "Glasgow GSP" 55.86 (-4.25) 400 110 720;
  gsp "cardiff" "Cardiff GSP" 51.48 (-3.18) 275 88 420;
  gsp "bristol" "Bristol GSP" 51.45 (-2.58) 275 65 580;
  gsp "newcastle" "Newcastle GSP" 54.98 (-1.61) 275 92 490;
  gsp "leeds" "Leeds GSP" 53.80 (-1.55) 275 78 620;
  gsp "liverpool" "Liverpool GSP" 53.41 (-2.98) 275 82 540;
  gsp "sheffield" "Sheffield GSP" 53.38 (-1.47) 275 68 480;
  gsp "cambridge" "Cambridge GSP" 52.21 0.12 132 105 320;
  gsp "oxford" "Oxford GSP" 51.75 (-1.26) 132 98 280;
  gsp "reading" "Reading GSP" 51.45 (-0.97) 275 55 410;
  gsp "southampton" "Southampton GSP" 50.91 (-1.40) 275 73 380;
  gsp "norwich" "Norwich GSP" 52.63 1.30 132 115 260;
  gsp "nottingham" "Nottingham GSP" 52.95 (-1.15) 275 62 450;
  gsp "leicester" "Leicester GSP" 52.64 (-1.13) 275 58 390;
  gsp "aberdeen" "Aberdeen GSP" 57.15 (-2.09) 275 125 280;
  gsp "inverness" "Inverness GSP" 57.48 (-4.22) 132 140 180;
  gsp "dundee" "Dundee GSP" 56.46 (-2.97) 132 95 220;
  gsp "swansea" "Swansea GSP" 51.62 (-3.94) 275 85 290;
  gsp "plymouth" "Plymouth GSP" 50.38 (-4.14) 132 92 240;
  gsp "exeter" "Exeter GSP" 50.72 (-3.53) 132 102 210
].

Definition DEFAULT_GENERATORS : list entity := [
  station "drax" "Drax Power Station" "biomass" 53.74 (-0.99) 2595 1800;
  station "sizewell" "Sizewell B" "nuclear" 52.21 1.62 1198 1150;
  station "hinkley" "Hinkley Point B" "nuclear" 51.21 (-3.13) 965 920;
  station "hornsea" "Hornsea Wind Farm" "wind" 53.88 1.80 1218 850;
  station "dogger" "Dogger Bank Wind" "wind" 54.75 2.20 1200 780;
  station "dinorwig" "Dinorwig Hydro" "hydro" 53.12 (-4.11) 1728 0;
  station "pembroke" "Pembroke CCGT" "gas" 51.68 (-4.99) 2180 1450;
  station "carrington" "Carrington CCGT" "gas" 53.43 (-2.41) 884 620
].

Definition getHeadroomColor (headroom : JS.number) : string :=
  if JS.gt headroom (JS.Fin 100) then "#22c55e"
  else if JS.gt headroom (JS.Fin 50) then "#f59e0b"
  else "#ef4444".

(** [Math.max(6, Math.sqrt(gen.capacity_mw) / 5)]. *)
Definition generator_radius (gen : entity) : JS.number :=
  JS.Math_max (JS.Fin 6)
    (JS.div (JS.Math_sqrt (JS.of_field (capacity_mw gen))) (JS.Fin 5)).

(** The [fillOpacity] of every generator marker. *)
Definition generator_fillOpacity : Q := 0.7.

(** The fill of a grid node's marker. *)
Definition node_fill (node : entity) : string :=
  getHeadroomColor (JS.of_field (headroom_mw node)).

End StaticMap.

(** * The simple-map simulator (src/unnamed/part_002)

    Built on SimpleMap's pattern, with tables of its own shape. *)

Module SimpleGridMap.

Record gspRow : Type := mkGsp {
  gsp_id : string; gsp_name : string;
  gsp_lat : Q; gsp_lng : Q;
  kv : Q; headroom : Q; load : Q;
}.

Record genRow : Type := mkGen {
  gen_id : string; gen_name : string; fuel : string;
  gen_lat : Q; gen_lng : Q;
  cap : Q; out : Q; gen_color : string;
}.

Record icRow : Type := mkIc {
  ic_name : string;
  ic_from : Q * Q; ic_to : Q * Q;
  flow : Q; ic_color : string;
}.

(** UK GSPs with coordinates. *)
Definition GSPS : list gspRow := [
  mkGsp "didcot" "Didcot 400kV" 51.62 (-1.27) 400 120 850;
  mkGsp "london" "London GSP" 51.51 (-0.13) 400 45 2100;
  mkGsp "manchester" "Manchester GSP" 53.48 (-2.24) 400 85 1200;
  mkGsp "birmingham" "Birmingham GSP" 52.49 (-1.90) 400 72 980;
  mkGsp "edinburgh" "Edinburgh GSP" 55.95 (-3.19) 275 95 650;
  mkGsp "glasgow" "Glasgow GSP" 55.86 (-4.25) 400 110 720;
  mkGsp "cardiff" "Cardiff GSP" 51.48 (-3.18) 275 88 420;
  mkGsp "bristol" "Bristol GSP" 51.45 (-2.58) 275 65 580;
  mkGsp "newcastle" "Newcastle GSP" 54.98 (-1.61) 275 92 490;
  mkGsp "leeds" "Leeds GSP" 53.80 (-1.55) 275 78 620;
  mkGsp "liverpool" "Liverpool GSP" 53.41 (-2.98) 275 82 540;
  mkGsp "sheffield" "Sheffield GSP" 53.38 (-1.47) 275 68 480;
  mkGsp "cambridge" "Cambridge GSP" 52.21 0.12 132 105 320;
  mkGsp "oxford" "Oxford GSP" 51.75 (-1.26) 132 98 280;
  mkGsp "reading" "Reading GSP" 51.45 (-0.97) 275 55 410;
  mkGsp "southampton" "Southampton GSP" 50.91 (-1.40) 275 73 380;
  mkGsp "norwich" "Norwich GSP" 52.63 1.30 132 115 260;
  mkGsp "nottingham" "Nottingham GSP" 52.95 (-1.15) 275 62 450;
  mkGsp "leicester" "Leicester GSP" 52.64 (-1.13) 275 58 390;
  mkGsp "aberdeen" "Aberdeen GSP" 57.15 (-2.09) 275 125 280;
  mkGsp "inverness" "Inverness GSP" 57.48 (-4.22) 132 140 180;
  mkGsp "dundee" "Dundee GSP" 56.46 (-2.97) 132 95 220;
  mkGsp "swansea" "Swansea GSP" 51.62 (-3.94) 275 85 290;
  mkGsp "plymouth" "Plymouth GSP" 50.38 (-4.14) 132 92 240;
  mkGsp "exeter" "Exeter GSP" 50.72 (-3.53) 132 102 210
].

(** UK generators. *)
Definition GENERATORS : list genRow := [
  mkGen "drax" "Drax Power Station" "biomass" 53.74 (-0.99) 2595 1800 "#84cc16";
  mkGen "sizewell" "Sizewell B" "nuclear" 52.21 1.62 1198 1150 "#f59e0b";
  mkGen "hinkley" "Hinkley Point B" "nuclear" 51.21 (-3.13) 965 920 "#f59e0b";
  mkGen "hornsea" "Hornsea Wind Farm" "wind" 53.88 1.80 1218 850 "#10b981";
  mkGen "dogger" "Dogger Bank Wind" "wind" 54.75 2.20 1200 780 "#10b981";
  mkGen "dinorwig" "Dinorwig Hydro" "hydro" 53.12 (-4.11) 1728 0 "#3b82f6";
  mkGen "pembroke" "Pembroke CCGT" "gas" 51.68 (-4.99) 2180 1450 "#ef4444";
  mkGen "carrington" "Carrington CCGT" "gas" 53.43 (-2.41) 884 620 "#ef4444";
  mkGen "walney" "Walney Wind Farm" "wind" 54.04 (-3.55) 659 420 "#10b981";
  mkGen "london_array" "London Array" "wind" 51.63 1.35 630 380 "#10b981";
  mkGen "torness" "Torness Nuclear" "nuclear" 55.97 (-2.40) 1185 1100 "#f59e0b";
  mkGen "hunterston" "Hunterston B" "nuclear" 55.72 (-4.90) 965 890 "#f59e0b";
  mkGen "cottam" "Cottam CCGT" "gas" 53.30 (-0.78) 440 310 "#ef4444";
  mkGen "damhead" "Damhead Creek" "gas" 51.43 0.58 805 550 "#ef4444";
  mkGen "whitelee" "Whitelee Wind" "wind" 55.68 (-4.27) 539 340 "#10b981"
].

Definition INTERCONNECTORS : list icRow := [
  mkIc "IFA (France)" (50.92, 1.14) (49.5, 1.5) 1000 "#06b6d4";
  mkIc "BritNed (Netherlands)" (51.45, 1.35) (52.0, 4.0) 600 "#06b6d4";
  mkIc "Moyle (Ireland)" (55.20, (-5.80)) (55.10, (-6.10)) 250 "#06b6d4";
  mkIc "EWIC (Ireland)" (53.30, (-4.60)) (53.30, (-6.10)) 350 "#06b6d4";
  mkIc "NSL (Norway)" (55.10, 1.10) (58.0, 5.0) 700 "#06b6d4"
].

Definition headroomColor (h : JS.number) : string :=
  if JS.gt h (JS.Fin 100) then "#22c55e"
  else if JS.gt h (JS.Fin 50) then "#f59e0b"
  else "#ef4444".

(** [Math.max(6, Math.sqrt(gen.cap) / 5)]. *)
Definition generator_radius (gen : genRow) : JS.number :=
  JS.Math_max (JS.Fin 6) (JS.div (JS.Math_sqrt (JS.Fin (cap gen))) (JS.Fin 5)).

(** The [fillOpacity] of every generator marker. *)
Definition generator_fillOpacity : Q := 0.7.

(** The fill of a GSP's marker. *)
Definition gsp_fill (gsp : gspRow) : string := headroomColor (JS.Fin (headroom gsp)).

(** The polyline of an interconnector: colour, weight and dash are fixed. *)
Definition interconnector_weight (ic : icRow) : Q := 3.

End SimpleGridMap.

(** * Further parts of the components *)

(** ** Object literals used as tables *)

Module Objects.

(** The names of the members of [Object.prototype].  An object literal
    answers a lookup of one of them with the inherited member, a function
    or an object and in any case truthy, where a finite map has nothing. *)
Definition prototype_names : list string := [
  "constructor"; "hasOwnProperty"; "isPrototypeOf"; "propertyIsEnumerable";
  "toLocaleString"; "toString"; "valueOf"; "__proto__";
  "__defineGetter__"; "__defineSetter__"; "__lookupGetter__"; "__lookupSetter__"
].

(** What [obj[key]] gives on an object literal. *)
Inductive member (A : Type) : Type :=
| Own (a : A)
| Inherited
| Missing.                        (* undefined *)

Arguments Own {A} a.
Arguments Inherited {A}.
Arguments Missing {A}.

Definition get {A} (obj : gmap string A) (key : string) : member A :=
  match obj !! key with
  | Some a => Own a
  | None => if bool_decide (key ∈ prototype_names) then Inherited else Missing
  end.

End Objects.

(** ** Zoom, opacity slider and connection flag of the SVG simulator
    (GridSimulator.jsx) *)

Module Controls.

(** [handleWheel]: [delta = e.deltaY > 0 ? 0.9 : 1.1], then
    [setZoom(prev => Math.max(0.5, Math.min(3, prev * delta)))]. *)
Definition handleWheel (deltaY : Q) (prev : JS.number) : JS.number :=
  let delta := if JS.gt (JS.Fin deltaY) (JS.Fin 0) then 0.9 else 1.1 in
  JS.Math_max (JS.Fin 0.5) (JS.Math_min (JS.Fin 3) (JS.mul prev (JS.Fin delta))).

(** The two zoom buttons: [setZoom(prev => Math.min(3, prev * 1.2))] and
    [setZoom(prev => Math.max(0.5, prev * 0.8))]. *)
Definition zoomIn (prev : JS.number) : JS.number :=
  JS.Math_min (JS.Fin 3) (JS.mul prev (JS.Fin 1.2)).

Definition zoomOut (prev : JS.number) : JS.number :=
  JS.Math_max (JS.Fin 0.5) (JS.mul prev (JS.Fin 0.8)).

(** What the user can do to the zoom. *)
Inductive action : Type :=
| Wheel (deltaY : Q)
| ZoomIn
| ZoomOut.

Definition step (zoom : JS.number) (a : action) : JS.number :=
  match a with
  | Wheel deltaY => handleWheel deltaY zoom
  | ZoomIn => zoomIn zoom
  | ZoomOut => zoomOut zoom
  end.

(** [useState(1)], and the zoom after a run of actions. *)
Definition initial_zoom : JS.number := JS.Fin 1.

Definition zoom_after (actions : list action) : JS.number :=
  foldl step initial_zoom actions.

(** The opacity slider of a layer: [onOpacityChange(key, e.target.value / 100)]
    for a range input from 0 to 100. *)
Definition onOpacityChange (key : string) (value : Q)
    (prev : gmap string GridSimulator.layerState) : gmap string GridSimulator.layerState :=
  GridSimulator.setLayerOpacity key (value / 100) prev.

(** [isConnected={!error && !loading}]: an empty message is falsy. *)
Definition isConnected (d : GridSimulator.gridData) : bool :=
  negb (match GridSimulator.error d with
        | Some m => negb (bool_decide (m = EmptyString))
        | None => false
        end)
  && negb (GridSimulator.loading d).

End Controls.

(** ** Generation mix of the live-status panels *)

Module LiveStats.

(** [snapshot.generation]: the total and the breakdown by fuel, the latter
    in the order of [Object.entries], which for keys that are not array
    indices, as fuel names are, is the order of the document. *)
Record generation : Type := mkGeneration {
  total_mw : option Q;
  by_fuel : option (list (string * Q));
}.

(** [.sort(([, a], [, b]) => b - a)].  [Array.prototype.sort] is stable, and
    a list has one stable arrangement by descending value: the one built
    here by inserting each entry, from the last to the first, in front of
    the first entry that is not greater. *)
Fixpoint insert_desc (x : string * Q) (l : list (string * Q)) : list (string * Q) :=
  match l with
  | [] => [x]
  | y :: l' =>
      if Qle_bool (snd y) (snd x) then x :: y :: l' else y :: insert_desc x l'
  end.

Definition sort_desc (l : list (string * Q)) : list (string * Q) :=
  foldr insert_desc [] l.

Record bar : Type := mkBar {
  bar_fuel : string;
  bar_mw : Q;
  bar_pct : JS.number;           (* the width, and the number under toFixed *)
}.

(** The bars of [LiveStatsPanel] in the two simulators:
    [genByFuel = snapshot.generation?.by_fuel || {}],
    [totalGen = snapshot.generation?.total_mw || 0], the six largest
    entries, [pct = totalGen > 0 ? (mw / totalGen) * 100 : 0].  A bar is
    kept as its fuel, output and percentage; the icon, colour and label
    looked up for the fuel are left out. *)
Definition mix (g : option generation) : list bar :=
  let genByFuel := default [] (g ≫= by_fuel) in
  let totalGen := JS.or_default (g ≫= total_mw) 0 in
  (λ '(fuel, mw),
     {| bar_fuel := fuel;
        bar_mw := mw;
        bar_pct := if JS.gt (JS.Fin totalGen) (JS.Fin 0)
                   then JS.mul (JS.div (JS.Fin mw) (JS.Fin totalGen)) (JS.Fin 100)
                   else JS.Fin 0 |})
  <$> take 6 (sort_desc genByFuel).

(** [x || 0] on a computed number. *)
Definition or_zero (x : JS.number) : JS.number :=
  match x with
  | JS.NaN => JS.Fin 0
  | JS.Fin q => if Qeq_bool q 0 then JS.Fin 0 else x
  | JS.NegInf | JS.PosInf => x
  end.

Record cardBar : Type := mkCardBar {
  card_fuel : string;
  card_mw : Q;
  card_pct : JS.number;
}.

(** The bars of the overlay card: the five largest entries,
    [pct = (mw / snapshot.generation?.total_mw * 100) || 0]; icon and colour
    are left out here too. *)
Definition card_mix (g : option generation) : list cardBar :=
  (λ '(fuel, mw),
     {| card_fuel := fuel;
        card_mw := mw;
        card_pct := or_zero (JS.mul (JS.div (JS.Fin mw) (JS.of_field (g ≫= total_mw)))
                                    (JS.Fin 100)) |})
  <$> take 5 (sort_desc (default [] (g ≫= by_fuel))).

(** [LiveStatsPanel] returns [null] without a snapshot; with one, its
    header carries the badge [isConnected ? 'Live' : 'Offline']. *)
Definition connection_badge (snapshot : option Feed.snapshotDoc)
    (isConnected : bool) : option string :=
  match snapshot with
  | None => None
  | Some _ => Some (if isConnected then "Live" else "Offline")
  end.

(** The badge as the SVG simulator shows it:
    [<LiveStatsPanel snapshot={snapshot} isConnected={!error && !loading} />]. *)
Definition badge_of (d : GridSimulator.gridData) : option string :=
  connection_badge (GridSimulator.snapshot d) (Controls.isConnected d).

End LiveStats.

(** ** Flexibility opportunities *)

Module FlexPanel.

Record actionStyle : Type := mkStyle {
  style_color : string;
  style_label : string;
}.

Definition INCREASE_LOAD : actionStyle := mkStyle "green" "Increase Load".

(** [actionConfig] of GridSimulator.jsx. *)
Definition actionConfig : gmap string actionStyle :=
  list_to_map [
    ("INCREASE_LOAD", INCREASE_LOAD);
    ("REDUCE_LOAD", mkStyle "red" "Reduce Load");
    ("OFFER_DSR", mkStyle "purple" "Offer DSR");
    ("CHARGE_STORAGE", mkStyle "blue" "Charge Storage")
  ].

Record card : Type := mkCard {
  card_of : Feed.opportunity;
  card_color : string;
  card_title : string;
  card_confidence_pct : JS.number;   (* confidence * 100, before toFixed(0) *)
}.



(** The outcome of rendering a component. *)
Inductive outcome (A : Type) : Type :=
| Throws
| Renders (a : A).

Arguments Throws {A}.
Arguments Renders {A} a.

(** [config = actionConfig[opp.action] || actionConfig.INCREASE_LOAD].  An
    inherited member is truthy, so the fallback is not taken; it carries
    no [icon], and React cannot create the element [<config.icon />] of an
    undefined type: the render throws.  [None] stands for that case. *)
Definition config_of (action : string) : option actionStyle :=
  match Objects.get actionConfig action with
  | Objects.Own config => Some config
  | Objects.Missing => Some INCREASE_LOAD
  | Objects.Inherited => None
  end.

(** [FlexOpportunitiesPanel] of GridSimulator.jsx: nothing for an empty
    list, otherwise a card for each of the first three opportunities, styled
    and titled by its [config]. *)
Definition FlexOpportunitiesPanel (opportunities : list Feed.opportunity)
    : outcome (option (list card)) :=
  if bool_decide (length opportunities = 0%nat) then Renders None
  else match mapM (λ opp,
                     (λ config,
                        {| card_of := opp;
                           card_color := style_color config;
                           card_title := style_label config;
                           card_confidence_pct :=
                             JS.mul (JS.Fin (Feed.confidence opp)) (JS.Fin 100) |})
                     <$> config_of (Feed.action opp))
                  (take 3 opportunities) with
       | Some cards => Renders (Some cards)
       | None => Throws
       end.


(** [actionColors] of the overlay card's [OpportunityCard]. *)
Definition actionColors : gmap string string :=
  list_to_map [
    ("INCREASE_LOAD", "bg-green-900/50 border-green-600");
    ("REDUCE_LOAD", "bg-red-900/50 border-red-600");
    ("OFFER_DSR", "bg-purple-900/50 border-purple-600");
    ("CHARGE_STORAGE", "bg-blue-900/50 border-blue-600")
  ].





End FlexPanel.

(** ** The rotation of an animated icon (GridSimulator.jsx) *)

Module Animation.

(** The integer part of a rational, towards zero. *)
Definition Qtrunc (q : Q) : Z :=
  if JS.Qltb q 0 then (- Qfloor (- q))%Z else Qfloor q.

(** [a % b]: the remainder with the sign of the dividend; [NaN] for an
    infinite dividend or a zero divisor, the dividend itself for an
    infinite divisor. *)
Definition rem (a b : JS.number) : JS.number :=
  match a, b with
  | JS.NaN, _ | _, JS.NaN => JS.NaN
  | (JS.PosInf | JS.NegInf), _ => JS.NaN
  | JS.Fin x, (JS.PosInf | JS.NegInf) => JS.Fin x
  | JS.Fin x, JS.Fin y =>
      if Qeq_bool y 0 then JS.NaN
      else JS.Fin (x - y * inject_Z (Qtrunc (x / y)))
  end.

(** The effect of [AnimatedGeneratorIcon]: nothing is scheduled under
    [!config.animate || generator.output_mw <= 0]; otherwise the interval
    runs at
    [Math.max(0.5, (generator.output_mw / (generator.capacity_mw || 100)) * 3)]. *)
Definition speed (generator : entity) : option JS.number :=
  if (negb (GridSimulator.animate (GridSimulator.fuel_config generator))
      || JS.le (JS.of_field (output_mw generator)) (JS.Fin 0))%bool
  then None
  else Some (JS.Math_max (JS.Fin 0.5)
               (JS.mul (JS.div (JS.of_field (output_mw generator))
                               (JS.Fin (JS.or_default (capacity_mw generator) 100)))
                       (JS.Fin 3))).

(** One run of the interval's callback: [setRotation(prev => (prev + speed) % 360)]. *)
Definition tick (speed prev : JS.number) : JS.number :=
  rem (JS.add prev speed) (JS.Fin 360).

(** The rotation of one icon, for as long as it stays mounted, after a run
    of ticks from [useState(0)]; the list holds the generator the icon was
    given at each tick, since the effect is set up again when output or
    capacity change. *)
Definition rotation_after (history : list entity) : JS.number :=
  foldl (λ rotation generator,
           match speed generator with
           | Some s => tick s rotation
           | None => rotation
           end)
        (JS.Fin 0) history.

(** The icons are children of [layers.generators?.visible &&
    generators.slice(0, 100).map(...)] keyed by their index: the icon at an
    index is unmounted when the layer is hidden or the list gets shorter
    than the index (an overlay that is lost empties it), and a later icon at
    that index starts again from [useState(0)]. *)
Inductive event : Type :=
| Tick (generator : entity)
| Remount.

(** The rotation at one index of the list after a run of events. *)
Definition rotation_through (events : list event) : JS.number :=
  foldl (λ rotation e,
           match e with
           | Tick generator =>
               match speed generator with
               | Some s => tick s rotation
               | None => rotation
               end
           | Remount => JS.Fin 0
           end)
        (JS.Fin 0) events.

(** The [transform] of the icon:
    [config.animate && generator.fuel_type === 'wind' ? `rotate(${rotation})` : '']. *)
Definition icon_rotation (generator : entity) (rotation : JS.number) : option JS.number :=
  if (GridSimulator.animate (GridSimulator.fuel_config generator)
      && bool_decide (fuel_type generator = Some "wind"))%bool
  then Some rotation else None.

End Animation.

(** * GridBridgeDashboard.jsx: the pages around the maps *)

Module Dashboard.

Record topGsp : Type := mkTopGsp {
  tg_id : string; tg_name : string; tg_voltage : string; tg_region : string;
  tg_hidden_mw : Q; tg_confidence : string;
}.

(** [/api/headroom]. *)
Record headroomDoc : Type := mkHeadroom {
  total_p95 : option Q;
  hidden_mw : option Q;
  top_gsps : option (list topGsp);
}.

(** A row of [/api/queue]. *)
Record queueRow : Type := mkQueueRow {
  q_id : string; q_name : string; request_mw : Q;
  developer : string; q_state : string; prob : Q;
}.

(** An entry of a scenario distribution. *)
Record bin : Type := mkBin {
  bin_label : option string;
  val : option Q;
}.

(** [/api/scenarios]. *)
Record scenariosDoc : Type := mkScenarios {
  total : option Q;
  p90 : option Q;
  distribution : option (list bin);
}.

(** *** Mock data helpers *)

Definition mock_top_gsps : list topGsp := [
  mkTopGsp "didcot" "Didcot 400kV GSP" "400kV" "South" 45 "HIGH";
  mkTopGsp "burwell" "Burwell 132kV" "132kV" "East" 37 "MEDIUM";
  mkTopGsp "man-bsp" "Manchester BSP" "132kV" "North" 28 "LOW"
].

Definition mockHeadroom : headroomDoc :=
  mkHeadroom (Some 420) (Some 178) (Some mock_top_gsps).

Definition mockQueue : list queueRow := [
  mkQueueRow "q1" "Hypothetical Solar" 50 "Acme Renew" "pre-application" 0.35;
  mkQueueRow "q2" "AI Campus" 150 "DeepCompute" "connection offer" 0.75;
  mkQueueRow "q3" "Storage Park" 30 "BatteryCo" "agreement signed" 0.9
].

Definition mockScenarios : scenariosDoc :=
  mkScenarios (Some 10000) (Some 45)
    (Some [mkBin (Some "P10") (Some 5); mkBin (Some "P50") (Some 22);
           mkBin (Some "P90") (Some 45)]).

(** *** api

    The three helpers share one shape:
    [fetch(url).then(r => r.ok ? r.json() : Promise.resolve(mock()))].
    The promise rejects with a message, or resolves to the body, or to the
    mock when the status is not ok. *)
Definition fetchOr {A} (mock : A) (f : fetched A) : string + A :=
  match f with
  | NetworkError m | BadJson m => inl m
  | HttpError => inr mock
  | Body b => inr b
  end.

Definition fetchHeadroom := fetchOr mockHeadroom.
Definition fetchScenarios := fetchOr mockScenarios.
Definition fetchQueue := fetchOr mockQueue.

(** *** Home *)

(** [useState(null)] and [useState([])]. *)
Record home : Type := mkHome {
  headroom : option headroomDoc;
  queue : list queueRow;
}.

Definition home_initial : home := mkHome None [].

(** The effect on mount: [api.fetchHeadroom().then(setHeadroom)] and
    [api.fetchQueue().then(setQueue)]; a rejected promise sets nothing. *)
Definition Home_effect (h : fetched headroomDoc) (q : fetched (list queueRow)) : home :=
  {| headroom := match fetchHeadroom h with
                 | inr d => Some d
                 | inl _ => headroom home_initial
                 end;
     queue := match fetchQueue q with
              | inr rows => rows
              | inl _ => queue home_initial
              end |}.

(** What the page shows: the number in each of the two cards
    ([headroom ? `${headroom.total_p95} MW` : '—'], [None] for the dash),
    the candidates ([headroom?.top_gsps || mockHeadroom().top_gsps]) and
    the rows of the queue table ([(queue || mockQueue()).slice(0,8)]; a
    list is never falsy). *)
Record homeView : Type := mkHomeView {
  card_total : option (option Q);
  card_hidden : option (option Q);
  candidates : list topGsp;
  queue_rows : list queueRow;
}.

Definition Home (st : home) : homeView :=
  {| card_total := total_p95 <$> headroom st;
     card_hidden := hidden_mw <$> headroom st;
     candidates := default mock_top_gsps (headroom st ≫= top_gsps);
     queue_rows := take 8 (queue st) |}.

(** *** StressChart *)

(** A bar of the chart: [name: x.label || `s${i}`], [value: x.val || x]. *)
Record chartBar : Type := mkChartBar {
  chart_name : string + nat;     (* the label, or the index behind an s *)
  chart_value : Q + bin;         (* the number, or the entry itself *)
}.

Definition default_bins : list bin := [
  mkBin (Some "P10") (Some 10); mkBin (Some "P50") (Some 45);
  mkBin (Some "P90") (Some 78)
].

Definition StressChart (data : list bin) : list chartBar :=
  let d := if (0 <? length data)%nat then data else default_bins in   (* data.length ? *)
  imap (λ i x,
          {| chart_name := match bin_label x with
                           | Some l => if bool_decide (l = EmptyString) then inr i else inl l
                           | None => inr i
                           end;
             chart_value := match val x with
                            | Some v => if Qeq_bool v 0 then inr x else inl v
                            | None => inr x
                            end |}) d.

(** [<StressChart data={scenarios?.distribution || []} />]. *)
Definition DeveloperPortal_chart (scenarios : option scenariosDoc) : list chartBar :=
  StressChart (default [] (scenarios ≫= distribution)).

(** *** ConnectionBuilder *)

(** [Math.round] of a finite number: the nearest integer, a half rounded
    up. *)
Definition Math_round (x : Q) : Z := Qfloor (x + (1 # 2)).

(** [est = Math.round((firm + flex*0.5 + bess*0.3))] for the positions of
    the three sliders.  At whole positions the sum is either exact in
    double precision or a tenth or more away from a half, so the rounded
    value is that of the exact sum. *)
Definition est (firm flex bess : Z) : Z :=
  Math_round (inject_Z firm + inject_Z flex * 0.5 + inject_Z bess * 0.3).

End Dashboard.

(** * Sample feeds, stores and entities named in the statements below *)

Module Samples.

Definition empty_layer : option Feed.layerDoc := Some (Feed.mkLayerDoc (Some [])).

(** An overlay document that delivers every layer with [data: []]. *)
Definition empty_overlay : Feed.overlayDoc :=
  Feed.mkOverlayDoc
    (Some (Feed.mkLayersDoc empty_layer empty_layer empty_layer empty_layer))
    (Some "2025-01-01T00:00:00Z").

Definition wind_farm : entity := station "w1" "Wind One" "wind" 55 (-3) 300 120.

(** An overlay document with one generator and nothing else. *)
Definition one_generator_overlay : Feed.overlayDoc :=
  Feed.mkOverlayDoc
    (Some (Feed.mkLayersDoc (Some (Feed.mkLayerDoc (Some [wind_farm])))
             empty_layer empty_layer empty_layer))
    (Some "2025-01-01T00:01:00Z").

Definition old_snapshot : Feed.snapshotDoc :=
  Feed.mkSnapshotDoc (Some 30000) (Some 31000) (Some 1000).

Definition new_snapshot : Feed.snapshotDoc :=
  Feed.mkSnapshotDoc (Some 28000) (Some 30000) (Some 2000).

Definition charge_now : Feed.opportunity :=
  Feed.mkOpportunity "CHARGE_STORAGE" 0.8 "low carbon intensity".

Definition new_opportunities : Feed.opportunitiesDoc :=
  Feed.mkOpportunitiesDoc (Some [charge_now]).

(** The store of the simulators after a first successful cycle. *)
Definition loaded : GridSimulator.gridData :=
  GridSimulator.mkGridData (Some old_snapshot) (Some empty_overlay) [charge_now]
    false None (Some 0%Z).

(** An object that carries both a fuel kind and a country code. *)
Definition hybrid : entity :=
  mkEntity (Some "x1") (Some "Hybrid") (Some "wind") None (Some "FR")
           (at_ 51 1) (Some 120) (Some 300) None None None None None
           (Some (-250)) None None.

(** A generator without [coords], and one at latitude and longitude 0. *)
Definition unplaced : entity :=
  mkEntity (Some "g0") (Some "Nowhere") (Some "gas") None None
           None (Some 100) (Some 200) None None None None None None None None.

Definition at_origin : entity := station "g1" "Origin" "gas" 0 0 200 100.

(** The SVG simulator's state with the given generators in the feed. *)
Definition simulator_with (gens : list entity) : GridSimulator.state :=
  GridSimulator.mkState
    (GridSimulator.mkGridData None
       (Some (Feed.mkOverlayDoc
                (Some (Feed.mkLayersDoc (Some (Feed.mkLayerDoc (Some gens)))
                         None None None))
                None))
       [] false None (Some 0%Z))
    None (JS.Fin 1) GridSimulator.initial_layers.

(** An interconnector to France carrying the given flow. *)
Definition link_with (flow : Q) : entity :=
  mkEntity (Some "ifa") (Some "IFA") None None (Some "FR")
           (at_ 50.92 1.14) None (Some 2000) None None None None None
           (Some flow) None None.

(** A generator that reports an output of 5 MW on a capacity of 0, and one
    that reports no output at all. *)
Definition no_capacity : entity := station "z0" "Zero" "gas" 52 (-1) 0 5.

Definition no_output : entity :=
  mkEntity (Some "s0") (Some "Silent") (Some "solar") None None
           (at_ 52 (-1)) None (Some 50) None None None None None None None None.

(** A fleet of [n] wind units, told apart by their capacity of 1, 2, ...
    MW. *)
Definition unit (k : nat) : entity :=
  station "u" "Unit" "wind" 55 (-3) (inject_Z (Z.of_nat (S k))) 0.

Definition fleet (n : nat) : list entity := unit <$> seq 0 n.

(** A small plant at full output and a large idle one. *)
Definition busy_small : entity := station "a" "Small" "gas" 52 (-1) 100 1200.
Definition idle_large : entity := station "b" "Large" "gas" 52 (-1) 2000 0.

(** The first row of the simple map's generators. *)
Definition drax_row : SimpleGridMap.genRow :=
  SimpleGridMap.mkGen "drax" "Drax Power Station" "biomass" 53.74 (-0.99) 2595 1800
    "#84cc16".

(** A generator reporting the given capacity. *)
Definition plant (capacity : Q) : entity :=
  station "p" "Plant" "gas" 52 (-1) capacity 0.

(** A snapshot's generation: 400 MW of wind and 600 MW of gas. *)
Definition wind_and_gas : LiveStats.generation :=
  {| LiveStats.total_mw := Some 1000;
     LiveStats.by_fuel := Some [("wind", 400); ("gas", 600)] |}.

(** A wind farm that reports a capacity and no output. *)
Definition silent_turbine : entity :=
  mkEntity (Some "w2") (Some "Wind Two") (Some "wind") None None
           (at_ 55 (-3)) None (Some 300) None None None None None
           None None None.

(** A carbon region of high intensity. *)
Definition high_region : entity :=
  mkEntity (Some "r1") (Some "Midlands") None None None
           (at_ 52.5 (-1.5)) None None None None None None None
           None (Some "High") (Some 310).

End Samples.

(** * Notions used in the statements *)

(** What the feed holds for a layer: [None] when the document, its
    [layers], the layer or its [data] is absent. *)
Definition feed_data (overlay : option Feed.overlayDoc)
    (layer : Feed.layersDoc → option Feed.layerDoc) : option (list entity) :=
  ((overlay ≫= Feed.layers) ≫= layer) ≫= Feed.data.

Inductive kind : Type := Generator | GridNode | InterconnectorLink.

(** The structural resolution in the specification's words: an entity is a
    generator iff it carries a fuel kind, a grid node iff it carries a node
    kind, an interconnector iff it carries a country code. *)
Definition kinds_of (e : entity) : list kind :=
  (if bool_decide (is_Some (fuel_type e)) then [Generator] else [])
  ++ (if bool_decide (is_Some (node_type e)) then [GridNode] else [])
  ++ (if bool_decide (is_Some (country_code e)) then [InterconnectorLink] else []).

(** The kind a block of rows displays the selection as. *)
Definition shown_as (r : GridSimulator.rows) : kind :=
  match r with
  | GridSimulator.GeneratorRows _ _ _ _ _ _ => Generator
  | GridSimulator.NodeRows _ _ _ _ _ => GridNode
  | GridSimulator.InterconnectorRows _ _ _ _ _ => InterconnectorLink
  end.

Definition map_shown_as (r : GridSimulatorMap.rows) : kind :=
  match r with
  | GridSimulatorMap.GeneratorRows _ _ _ _ => Generator
  | GridSimulatorMap.NodeRows _ _ _ _ _ => GridNode
  | GridSimulatorMap.InterconnectorRows _ _ _ _ _ => InterconnectorLink
  end.

(** The kinds under which each panel displays a selection. *)
Definition displayed_kinds (selection : option entity) : option (list kind) :=
  (λ p, shown_as <$> GridSimulator.panel_rows p)
  <$> GridSimulator.SelectionDetailPanel selection.

Definition map_displayed_kinds (selection : option entity) : option (list kind) :=
  (λ p, map_shown_as <$> GridSimulatorMap.panel_rows p)
  <$> GridSimulatorMap.SelectionPanel selection.

(** A coordinate that is absent or zero. *)
Definition absent_or_zero (f : option Q) : Prop :=
  match f with
  | None => True
  | Some q => q == 0
  end.

(** An entity the Leaflet simulator can place: latitude and longitude are
    present and not zero. *)
Definition placeable (e : entity) : Prop := is_Some (GridSimulatorMap.placed e).

(** An entity that carries [coords]. *)
Definition has_coords (e : entity) : Prop := is_Some (coords e).

(** A generator the overlay card draws: it carries [coords] and its
    latitude is not 0. *)
Definition card_draws (e : entity) : Prop := is_Some (GridMapOverlay.generator_dot e).

(** A capacity that is not negative when it is present. *)
Definition valid_capacity (g : entity) : Prop :=
  match capacity_mw g with
  | Some c => 0 <= c
  | None => True
  end.


(** ** Notions for the panels and the controls *)

(** The state of the SVG simulator with another layer table. *)
Definition with_layers (st : GridSimulator.state)
    (ls : gmap string GridSimulator.layerState) : GridSimulator.state :=
  {| GridSimulator.grid := GridSimulator.grid st;
     GridSimulator.selection := GridSimulator.selection st;
     GridSimulator.zoom := GridSimulator.zoom st;
     GridSimulator.layer_states := ls |}.

(** The state of the SVG simulator at another zoom. *)
Definition with_zoom (st : GridSimulator.state) (z : JS.number) : GridSimulator.state :=
  {| GridSimulator.grid := GridSimulator.grid st;
     GridSimulator.selection := GridSimulator.selection st;
     GridSimulator.zoom := z;
     GridSimulator.layer_states := GridSimulator.layer_states st |}.

(** The opacity of the [<g>] around an element of the SVG simulator. *)
Definition opacity_around (el : GridSimulator.element) : Q :=
  match el with
  | GridSimulator.CarbonElement o _ | GridSimulator.NodeElement o _
  | GridSimulator.CableElement o _ | GridSimulator.GeneratorElement o _ => o
  end.

(** Whether an element of the SVG simulator is drawn highlighted. *)
Definition highlighted (el : GridSimulator.element) : bool :=
  match el with
  | GridSimulator.NodeElement _ m => GridSimulator.marker_selected m
  | GridSimulator.GeneratorElement _ i => GridSimulator.icon_selected i
  | GridSimulator.CarbonElement _ _ | GridSimulator.CableElement _ _ => false
  end.

(** Descending by value. *)
Definition descending (l : list (string * Q)) : Prop :=
  ∀ (i j : nat) a b, (i < j)%nat → l !! i = Some a → l !! j = Some b → snd b <= snd a.

(** Entries of one value. *)
Definition valued (v : Q) (e : string * Q) : Prop := Is_true (Qeq_bool (snd e) v).

#[global] Instance valued_dec v e : Decision (valued v e).
Proof. unfold valued. apply _. Defined.

(** [shown] is the [n] largest of [entries]: it is [n] long unless there
    are fewer entries, descending, no entry left out is larger than one
    shown, and among entries of one value the earlier ones are shown, in
    their order. *)
Definition top_entries (n : nat) (entries shown : list (string * Q)) : Prop :=
  length shown = Nat.min n (length entries)
  ∧ descending shown
  ∧ (∃ rest, shown ++ rest ≡ₚ entries
             ∧ ∀ s r, s ∈ shown → r ∈ rest → snd r <= snd s)
  ∧ ∀ v, filter (valued v) shown `prefix_of` filter (valued v) entries.

(** A snapshot with a positive total and a breakdown whose entries lie
    between 0 and the total. *)
Definition within_total (g : LiveStats.generation) : Prop :=
  match LiveStats.total_mw g, LiveStats.by_fuel g with
  | Some t, Some l => 0 < t ∧ Forall (λ e, 0 <= snd e <= t) l
  | _, _ => False
  end.

(** Numbers in descending order. *)
Definition falling (l : list Q) : Prop :=
  ∀ (i j : nat) p q, (i < j)%nat → l !! i = Some p → l !! j = Some q → q <= p.

(** A key that is not the name of a member of [Object.prototype]: an
    object literal and a finite map answer it alike. *)
Definition plain_key (key : string) : Prop := key ∉ Objects.prototype_names.

(** The message a request is rejected with, if it is. *)
Definition rejection {A} (f : fetched A) : option string :=
  match GridSimulator.request f with
  | inl m => Some m
  | inr _ => None
  end.


(** The layer an element of the SVG simulator belongs to. *)
Definition layer_of (el : GridSimulator.element) : string :=
  match el with
  | GridSimulator.CarbonElement _ _ => "carbonRegions"
  | GridSimulator.NodeElement _ _ => "gridNodes"
  | GridSimulator.CableElement _ _ => "interconnectors"
  | GridSimulator.GeneratorElement _ _ => "generators"
  end.

(** One poll: the time and the three responses. *)
Record poll : Type := mkPoll {
  poll_time : Z;
  snapshot_response : fetched Feed.snapshotDoc;
  overlay_response : fetched Feed.overlayDoc;
  opportunities_response : fetched Feed.opportunitiesDoc;
}.

(** A poll in which no request was rejected. *)
Definition settled (p : poll) : Prop :=
  rejection (snapshot_response p) = None
  ∧ rejection (overlay_response p) = None
  ∧ rejection (opportunities_response p) = None.

#[global] Instance settled_dec p : Decision (settled p).
Proof. unfold settled. apply _. Defined.

(** The state of the simulators' hook, and of the overlay card, after a
    run of polls from the initial state. *)
Definition simulator_after (polls : list poll) : GridSimulator.gridData :=
  foldl (λ d p, GridSimulator.fetchData (poll_time p) (snapshot_response p)
                  (overlay_response p) (opportunities_response p) d)
        GridSimulator.initial polls.

Definition card_after (polls : list poll) : GridMapOverlay.store :=
  foldl (λ st p, GridMapOverlay.refreshData (overlay_response p) (snapshot_response p)
                   (opportunities_response p) st)
        GridMapOverlay.initial polls.

(** An entity whose carbon index, in lower case, and whose fuel are plain
    keys of the tables they are looked up in. *)
Definition plain_index (region : entity) : Prop :=
  ∀ i, ent_index region = Some i → plain_key (toLowerCase i).

Definition plain_fuel (g : entity) : Prop :=
  ∀ f, fuel_type g = Some f → plain_key f.
(** * Properties *)

(** ** Facts about the number model *)

Section NumberFacts.

Implicit Types a b c q : Q.

Lemma Qltb_lt a b : JS.Qltb a b = true ↔ a < b.
Proof.
  unfold JS.Qltb. rewrite negb_true_iff, <- not_true_iff_false, Qle_bool_iff.
  split; [apply Qnot_le_lt | apply Qlt_not_le].
Qed.

Lemma Qltb_ge a b : JS.Qltb a b = false ↔ b <= a.
Proof.
  unfold JS.Qltb. rewrite negb_false_iff. apply Qle_bool_iff.
Qed.

Lemma Qeqb_ne a b : Qeq_bool a b = false ↔ ¬ a == b.
Proof.
  rewrite <- not_true_iff_false, Qeq_bool_iff. tauto.
Qed.

(** [f || d] is never zero when the literal is not. *)
Lemma or_default_nonzero (f : option Q) d : ¬ d == 0 → ¬ JS.or_default f d == 0.
Proof.
  intros Hd. destruct f as [q|]; simpl; [|exact Hd].
  destruct (Qeq_bool q 0) eqn:E; [exact Hd | by apply Qeqb_ne].
Qed.

(** [f || 0] is the property itself, or zero. *)
Lemma or_default_zero (f : option Q) :
  JS.or_default f 0 == default 0 f.
Proof.
  destruct f as [q|]; simpl; [|reflexivity].
  destruct (Qeq_bool q 0) eqn:E; [|reflexivity].
  apply Qeq_bool_iff in E. by rewrite E.
Qed.

Lemma or_default_present q d : ¬ q == 0 → JS.or_default (Some q) d = q.
Proof. intros H. simpl. apply Qeqb_ne in H. by rewrite H. Qed.

Lemma div_Fin a b : ¬ b == 0 → JS.div (JS.Fin a) (JS.Fin b) = JS.Fin (a / b).
Proof. intros H. simpl. apply Qeqb_ne in H. by rewrite H. Qed.

Lemma max_Fin a b : ∃ q, JS.Math_max (JS.Fin a) (JS.Fin b) = JS.Fin q ∧ q == Qmax a b.
Proof.
  simpl. destruct (JS.Qltb a b) eqn:E.
  - apply Qltb_lt in E. exists b. split; [done|]. symmetry. apply Q.max_r. lra.
  - apply Qltb_ge in E. exists a. split; [done|]. symmetry. by apply Q.max_l.
Qed.

Lemma min_Fin a b : ∃ q, JS.Math_min (JS.Fin a) (JS.Fin b) = JS.Fin q ∧ q == Qmin a b.
Proof.
  simpl. destruct (JS.Qltb b a) eqn:E.
  - apply Qltb_lt in E. exists b. split; [done|]. symmetry. apply Q.min_r. lra.
  - apply Qltb_ge in E. exists a. split; [done|]. symmetry. by apply Q.min_l.
Qed.

End NumberFacts.

(** Case analysis on the comparisons of a goal, with their meaning in [Q]. *)
Ltac js_compare :=
  repeat match goal with
  | |- context [Qeq_bool ?a ?b] =>
      let E := fresh "E" in
      destruct (Qeq_bool a b) eqn:E;
      [apply Qeq_bool_iff in E | apply Qeqb_ne in E]
  | |- context [JS.Qltb ?a ?b] =>
      let E := fresh "E" in
      destruct (JS.Qltb a b) eqn:E;
      [apply Qltb_lt in E | apply Qltb_ge in E]
  end.

(** ** Headroom bands *)

(** C5.  A grid node's headroom colour: above 100 MW the high band (green),
    above 50 and up to 100 MW the medium band (amber), 50 MW and below the
    low band (red); 51 MW is amber and 50 MW is red.  The colour functions
    of the two static maps, the node markers of the two simulators and the
    node dots of the overlay card agree. *)
Theorem headroom_color_bands (h : Q) :
  let node := gsp "n" "node" 52 (-1) 400 h 100 in
  let colours :=
    [ StaticMap.getHeadroomColor (JS.Fin h);
      SimpleGridMap.headroomColor (JS.Fin h);
      GridSimulator.marker_color (GridSimulator.GridNodeMarker node false);
      GridSimulatorMap.node_color node;
      default "" (GridMapOverlay.dot_fill <$> GridMapOverlay.node_dot node) ] in
  (100 < h → Forall (λ c, c = HEADROOM_HIGH) colours)
  ∧ (50 < h <= 100 → Forall (λ c, c = HEADROOM_MEDIUM) colours)
  ∧ (h <= 50 → Forall (λ c, c = HEADROOM_LOW) colours)
  ∧ StaticMap.getHeadroomColor (JS.Fin 51) = HEADROOM_MEDIUM
  ∧ StaticMap.getHeadroomColor (JS.Fin 50) = HEADROOM_LOW
  ∧ SimpleGridMap.headroomColor (JS.Fin 51) = HEADROOM_MEDIUM
  ∧ SimpleGridMap.headroomColor (JS.Fin 50) = HEADROOM_LOW.
Proof.
  cbn zeta.
  unfold StaticMap.getHeadroomColor, SimpleGridMap.headroomColor,
    GridSimulatorMap.node_color, GridSimulator.GridNodeMarker,
    GridMapOverlay.node_dot, HEADROOM_HIGH, HEADROOM_MEDIUM, HEADROOM_LOW.
  cbn [GridSimulator.marker_color headroom_mw gsp coords at_ fmap option_fmap option_map
       default GridMapOverlay.dot_fill JS.of_field].
  repeat split; intros; try reflexivity.
  all: repeat apply Forall_cons_2; try apply Forall_nil_2.
  all: unfold JS.or_default, JS.gt, JS.lt; js_compare; try reflexivity; lra.
Qed.

(** The bands at 51 MW and at 120 MW. *)
Lemma headroom_color_bands_at_51_and_120 :
  (50 < 51 <= 100 ∧ GridSimulatorMap.node_color (gsp "n" "node" 52 (-1) 400 51 100)
                    = HEADROOM_MEDIUM)
  ∧ (100 < 120 ∧ StaticMap.getHeadroomColor (JS.Fin 120) = HEADROOM_HIGH).
Proof.
  destruct (headroom_color_bands 51) as (_ & Hmedium & _).
  destruct (headroom_color_bands 120) as (Hhigh & _).
  assert (H51 : 50 < 51 <= 100) by lra.
  assert (H120 : 100 < 120) by lra.
  split; (split; [assumption|]).
  - specialize (Hmedium H51).
    by do 3 apply Forall_cons_1 in Hmedium as [_ Hmedium];
       apply Forall_cons_1 in Hmedium as [Hmedium _].
  - specialize (Hhigh H120). by apply Forall_cons_1 in Hhigh as [Hhigh _].
Defined.

(** The bands on the tables of the static maps: Didcot (120 MW) is green,
    London (45 MW) red, Manchester (85 MW) amber. *)
Lemma headroom_of_three_default_nodes :
  StaticMap.node_fill <$> take 3 StaticMap.DEFAULT_GSPS
  = [HEADROOM_HIGH; HEADROOM_LOW; HEADROOM_MEDIUM]
  ∧ SimpleGridMap.gsp_fill <$> take 3 SimpleGridMap.GSPS
    = [HEADROOM_HIGH; HEADROOM_LOW; HEADROOM_MEDIUM]
  ∧ GridSimulatorMap.node_color <$> take 3 GridSimulatorMap.DEFAULT_GSPS
    = [HEADROOM_HIGH; HEADROOM_LOW; HEADROOM_MEDIUM].
Proof. by repeat split. Qed.

(** ** Layer data and the static fallbacks *)

Lemma layer_data_feed overlay layer :
  Feed.layer_data overlay layer = default [] (feed_data overlay layer).
Proof. reflexivity. Qed.

Lemma length_pos_nonempty {A} (l : list A) : (0 <? length l)%nat = true ↔ l ≠ [].
Proof.
  rewrite Nat.ltb_lt. destruct l; simpl; split; intros; try done; lia.
Qed.

(** C1, as stated, fails on the simulator with fallbacks: a feed that is
    present and delivers [data: []] for the generators (and for the grid
    nodes) leaves the collection with the eight default generators (the
    twenty-five default GSPs), not empty; and a wholly absent feed gives the
    SVG simulator an empty collection, not a default set. *)
Lemma empty_feed_replaced_by_defaults :
  feed_data (Some Samples.empty_overlay) Feed.generators = Some []
  ∧ GridSimulatorMap.generators (Some Samples.empty_overlay)
    = GridSimulatorMap.DEFAULT_GENERATORS
  ∧ length (GridSimulatorMap.generators (Some Samples.empty_overlay)) = 8%nat
  ∧ feed_data (Some Samples.empty_overlay) Feed.grid_nodes = Some []
  ∧ GridSimulatorMap.gridNodes (Some Samples.empty_overlay)
    = GridSimulatorMap.DEFAULT_GSPS
  ∧ length (GridSimulatorMap.gridNodes (Some Samples.empty_overlay)) = 25%nat
  ∧ GridSimulatorMap.generators_plain None = []
  ∧ GridSimulatorMap.interconnectors None = [].
Proof. repeat split. Qed.

(** C1, amended.  Every collection is computed from the overlay document
    the component holds.  In the simulator with fallbacks the generators
    and the grid nodes are that document's data when it is a non-empty list
    and the default table otherwise, whether the document or the layer is
    absent or the list is empty.  Every other collection (interconnectors
    and carbon regions there, all four layers of GridSimulator.jsx and of
    GridSimulatorMap.jsx, and all four layers of GridMapOverlay.jsx while
    they are switched on) is the document's data and is empty when there is
    none: no default is substituted.

    A failing feed reaches the collections through the document only.  A
    poll in which no request is rejected and the overlay's status is not ok
    leaves the simulators without a document: the simulator with fallbacks
    then draws its defaults.  A poll in which a request is rejected on the
    network or in parsing leaves the document of the poll before, and the
    overlay card keeps its document whenever the overlay request fails: the
    collections stay what they were, stale data where there was any, and
    defaults only where the simulator with fallbacks drew them before. *)
Theorem layer_fallback_policy (overlay : option Feed.overlayDoc) :
  (∀ l, feed_data overlay Feed.generators = Some l → l ≠ [] →
        GridSimulatorMap.generators overlay = l)
  ∧ (feed_data overlay Feed.generators = Some []
     ∨ feed_data overlay Feed.generators = None →
        GridSimulatorMap.generators overlay = GridSimulatorMap.DEFAULT_GENERATORS)
  ∧ (∀ l, feed_data overlay Feed.grid_nodes = Some l → l ≠ [] →
        GridSimulatorMap.gridNodes overlay = l)
  ∧ (feed_data overlay Feed.grid_nodes = Some []
     ∨ feed_data overlay Feed.grid_nodes = None →
        GridSimulatorMap.gridNodes overlay = GridSimulatorMap.DEFAULT_GSPS)
  ∧ GridSimulatorMap.interconnectors overlay
    = default [] (feed_data overlay Feed.interconnectors)
  ∧ GridSimulatorMap.carbonRegions overlay
    = default [] (feed_data overlay Feed.carbon_intensity)
  ∧ GridSimulatorMap.generators_plain overlay
    = default [] (feed_data overlay Feed.generators)
  ∧ GridSimulatorMap.gridNodes_plain overlay
    = default [] (feed_data overlay Feed.grid_nodes)
  ∧ (∀ st, GridSimulator.overlay (GridSimulator.grid st) = overlay →
        GridSimulator.generators st = default [] (feed_data overlay Feed.generators)
        ∧ GridSimulator.gridNodes st = default [] (feed_data overlay Feed.grid_nodes)
        ∧ GridSimulator.interconnectors st
          = default [] (feed_data overlay Feed.interconnectors)
        ∧ GridSimulator.carbonRegions st
          = default [] (feed_data overlay Feed.carbon_intensity))
  ∧ (∀ ls,
        GridMapOverlay.generators ls overlay
        = (if GridMapOverlay.is_on ls "generators"
           then default [] (feed_data overlay Feed.generators) else [])
        ∧ GridMapOverlay.interconnectors ls overlay
          = (if GridMapOverlay.is_on ls "interconnectors"
             then default [] (feed_data overlay Feed.interconnectors) else [])
        ∧ GridMapOverlay.gridNodes ls overlay
          = (if GridMapOverlay.is_on ls "gridNodes"
             then default [] (feed_data overlay Feed.grid_nodes) else [])
        ∧ GridMapOverlay.carbonRegions ls overlay
          = (if GridMapOverlay.is_on ls "carbonIntensity"
             then default [] (feed_data overlay Feed.carbon_intensity) else []))
  ∧ (∀ now snap ov op prev,
        GridSimulator.overlay prev = overlay →
        let d := GridSimulatorMap.fetchData now snap ov op prev in
        (rejection snap = None → rejection ov = None → rejection op = None →
           GridSimulator.overlay d = GridMapOverlay.fetchDocument ov
           ∧ (ov = HttpError →
                GridSimulatorMap.generators (GridSimulator.overlay d)
                = GridSimulatorMap.DEFAULT_GENERATORS
                ∧ GridSimulatorMap.gridNodes (GridSimulator.overlay d)
                  = GridSimulatorMap.DEFAULT_GSPS
                ∧ GridSimulatorMap.generators_plain (GridSimulator.overlay d) = []
                ∧ GridSimulatorMap.interconnectors (GridSimulator.overlay d) = []))
        ∧ (is_Some (rejection snap) ∨ is_Some (rejection ov) ∨ is_Some (rejection op) →
           GridSimulator.overlay d = overlay
           ∧ GridSimulatorMap.generators (GridSimulator.overlay d)
             = GridSimulatorMap.generators overlay
           ∧ GridSimulatorMap.gridNodes (GridSimulator.overlay d)
             = GridSimulatorMap.gridNodes overlay))
  ∧ (∀ ov snap op prev,
        GridMapOverlay.overlayState prev = overlay →
        (∀ doc, ov ≠ Body doc) →
        GridMapOverlay.overlayState (GridMapOverlay.refreshData ov snap op prev) = overlay).
Proof.
  unfold GridSimulatorMap.generators, GridSimulatorMap.gridNodes.
  rewrite !layer_data_feed.
  split; [|split; [|split; [|split; [|split; [|split; [|split; [|split;
    [|split; [|split; [|split]]]]]]]]]].
  - intros l -> Hl. simpl. by apply length_pos_nonempty in Hl as ->.
  - by intros [-> | ->].
  - intros l -> Hl. simpl. by apply length_pos_nonempty in Hl as ->.
  - by intros [-> | ->].
  - done.
  - done.
  - done.
  - done.
  - intros st H.
    unfold GridSimulator.generators, GridSimulator.gridNodes,
      GridSimulator.interconnectors, GridSimulator.carbonRegions.
    by rewrite H.
  - intros ls.
    unfold GridMapOverlay.generators, GridMapOverlay.interconnectors,
      GridMapOverlay.gridNodes, GridMapOverlay.carbonRegions, GridMapOverlay.extract.
    by rewrite !layer_data_feed.
  - intros now snap ov op prev Hprev. cbn zeta.
    unfold GridSimulatorMap.fetchData, GridSimulator.fetchData, rejection. split.
    + intros H1 H2 H3. split.
      * by destruct snap, ov, op.
      * intros ->. by destruct snap, op.
    + intros H.
      assert (Hov : GridSimulator.overlay
                      match GridSimulator.request snap, GridSimulator.request ov,
                            GridSimulator.request op with
                      | inr snapshotRes, inr overlayRes, inr oppsRes =>
                          {| GridSimulator.snapshot := snapshotRes;
                             GridSimulator.overlay := overlayRes;
                             GridSimulator.opps :=
                               default [] (oppsRes ≫= Feed.opportunities);
                             GridSimulator.loading := false;
                             GridSimulator.error := None;
                             GridSimulator.lastUpdate := Some now |}
                      | inl m, _, _ | inr _, inl m, _ | inr _, inr _, inl m =>
                          {| GridSimulator.snapshot := GridSimulator.snapshot prev;
                             GridSimulator.overlay := GridSimulator.overlay prev;
                             GridSimulator.opps := GridSimulator.opps prev;
                             GridSimulator.loading := false;
                             GridSimulator.error := Some m;
                             GridSimulator.lastUpdate := GridSimulator.lastUpdate prev |}
                      end = overlay).
      { destruct snap, ov, op; simpl in *; try done;
          destruct H as [[? [=]]|[[? [=]]|[? [=]]]]. }
      by rewrite Hov.
  - intros ov snap op prev Hprev Hov. unfold GridMapOverlay.refreshData. simpl.
    destruct ov; simpl; try done. by destruct (Hov body).
Qed.

(** The policy on a feed with one generator and no grid node, and on an
    absent feed. *)
Lemma layer_fallback_policy_on_samples :
  GridSimulatorMap.generators (Some Samples.one_generator_overlay) = [Samples.wind_farm]
  ∧ GridSimulatorMap.gridNodes (Some Samples.one_generator_overlay)
    = GridSimulatorMap.DEFAULT_GSPS
  ∧ GridSimulatorMap.generators None = GridSimulatorMap.DEFAULT_GENERATORS.
Proof.
  destruct (layer_fallback_policy (Some Samples.one_generator_overlay))
    as (Hgens & _ & _ & Hnodes & _).
  destruct (layer_fallback_policy None) as (_ & Habsent & _).
  split; [|split].
  - apply Hgens; [reflexivity | discriminate].
  - apply Hnodes. left. reflexivity.
  - apply Habsent. right. reflexivity.
Defined.

(** ** Poll cycles *)

(** The overlay card keeps the three documents apart: after a cycle each
    document is the new body when its request succeeded and exactly what it
    was before when the request failed, whatever happened to the others. *)
Lemma refreshData_isolates_failures
    (ov : fetched Feed.overlayDoc) (snap : fetched Feed.snapshotDoc)
    (op : fetched Feed.opportunitiesDoc) (prev : GridMapOverlay.store) :
  let next := GridMapOverlay.refreshData ov snap op prev in
  GridMapOverlay.overlayState next
    = match ov with Body b => Some b | _ => GridMapOverlay.overlayState prev end
  ∧ GridMapOverlay.snapshot next
    = match snap with Body b => Some b | _ => GridMapOverlay.snapshot prev end
  ∧ GridMapOverlay.opps next
    = match op with
      | Body b => default [] (Feed.opportunities b)
      | _ => GridMapOverlay.opps prev
      end.
Proof. by destruct ov, snap, op. Qed.

(** C2 on [useGridData.fetchData], the hook of the simulators.  When the
    request of one document ends in a response that is not ok while the two
    other requests succeed, the stored document becomes [null] (an empty
    list for the opportunities) whatever it was, and no error is recorded;
    when the request of one document is rejected, the documents that did
    arrive are dropped and the store keeps its old ones.  On the loaded
    sample store: the old snapshot is erased in the first case, the new
    overlay is not stored in the second. *)
Theorem fetchData_couples_documents
    (now : Z) (prev : GridSimulator.gridData) (snap : Feed.snapshotDoc)
    (ov : Feed.overlayDoc) (op : Feed.opportunitiesDoc) (message : string) :
  let http := GridSimulator.fetchData now HttpError (Body ov) (Body op) prev in
  let rejected :=
    GridSimulator.fetchData now (NetworkError message) (Body ov) (Body op) prev in
  GridSimulator.snapshot http = None
  ∧ GridSimulator.overlay http = Some ov
  ∧ GridSimulator.error http = None
  ∧ GridSimulator.overlay
      (GridSimulator.fetchData now (Body snap) HttpError (Body op) prev) = None
  ∧ GridSimulator.opps
      (GridSimulator.fetchData now (Body snap) (Body ov) HttpError prev) = []
  ∧ GridSimulator.overlay rejected = GridSimulator.overlay prev
  ∧ GridSimulator.opps rejected = GridSimulator.opps prev
  ∧ GridSimulator.error rejected = Some message
  ∧ GridSimulator.snapshot
      (GridSimulator.fetchData now HttpError (Body Samples.one_generator_overlay)
         (Body Samples.new_opportunities) Samples.loaded)
    ≠ GridSimulator.snapshot Samples.loaded
  ∧ GridSimulator.overlay
      (GridSimulator.fetchData now (NetworkError message)
         (Body Samples.one_generator_overlay)
         (Body Samples.new_opportunities) Samples.loaded)
    ≠ Some Samples.one_generator_overlay.
Proof. repeat split; simpl; discriminate. Qed.

(** On the same cycle the overlay card keeps the old snapshot and stores
    the two documents that arrived. *)
Lemma refreshData_on_the_same_cycle (prev : GridMapOverlay.store) :
  let next :=
    GridMapOverlay.refreshData (Body Samples.one_generator_overlay) HttpError
      (Body Samples.new_opportunities) prev in
  GridMapOverlay.snapshot next = GridMapOverlay.snapshot prev
  ∧ GridMapOverlay.overlayState next = Some Samples.one_generator_overlay
  ∧ GridMapOverlay.opps next = [Samples.charge_now].
Proof. by repeat split. Qed.

(** ** Entity kinds and the detail panel *)

(** C3, as stated, fails: the sample object carries a fuel kind and a
    country code, so it matches two kinds, and both panels display it, under
    its name, as a generator and as an interconnector.  A panel is a title
    and blocks of rows; nothing in it is a report. *)
Lemma ambiguous_selection_is_displayed :
  kinds_of Samples.hybrid = [Generator; InterconnectorLink]
  ∧ displayed_kinds (Some Samples.hybrid) = Some [Generator; InterconnectorLink]
  ∧ map_displayed_kinds (Some Samples.hybrid) = Some [Generator; InterconnectorLink]
  ∧ GridSimulator.panel_title <$> GridSimulator.SelectionDetailPanel (Some Samples.hybrid)
    = Some (Some "Hybrid").
Proof. by repeat split. Qed.

(** C3, amended.  A selected entity is displayed under every kind it
    structurally matches, generator first, then grid node, then
    interconnector: one block of rows per matching kind.  An entity that
    matches more than one kind is therefore neither resolved to a single
    kind by priority nor reported. *)
Theorem selection_displays_every_matching_kind (e : entity) :
  displayed_kinds (Some e) = Some (kinds_of e)
  ∧ map_displayed_kinds (Some e) = Some (kinds_of e)
  ∧ displayed_kinds None = None
  ∧ map_displayed_kinds None = None.
Proof.
  unfold displayed_kinds, map_displayed_kinds, kinds_of. simpl.
  unfold GridSimulator.generator_rows, GridSimulator.node_rows,
    GridSimulator.interconnector_rows, GridSimulatorMap.generator_rows,
    GridSimulatorMap.node_rows, GridSimulatorMap.interconnector_rows.
  by destruct (fuel_type e), (node_type e), (country_code e).
Qed.

(** ** Entities that cannot be placed *)

Lemma falsy_field_spec (f : option Q) :
  JS.falsy_field f = true ↔ absent_or_zero f.
Proof. destruct f; simpl; [apply Qeq_bool_iff | done]. Qed.

Lemma placed_none (e : entity) :
  GridSimulatorMap.placed e = None
  ↔ absent_or_zero (coords_lat e) ∨ absent_or_zero (coords_lng e).
Proof.
  unfold GridSimulatorMap.placed. rewrite <- !falsy_field_spec.
  destruct (coords_lat e) as [la|], (coords_lng e) as [lo|]; simpl;
    try destruct (Qeq_bool la 0); try destruct (Qeq_bool lo 0); simpl;
    intuition congruence.
Qed.

(** C4, as stated, fails on the SVG simulator: a generator without
    coordinates, and one at latitude and longitude 0, are both drawn, at the
    image of the default point (54, -2), which is (240, 2000/7). *)
Lemma unplaced_generator_is_drawn :
  coords Samples.unplaced = None
  ∧ GridSimulator.icon_pos
      (GridSimulator.AnimatedGeneratorIcon Samples.unplaced (JS.Fin 1) false)
    = GridSimulator.latLngToXY (JS.Fin 54) (JS.Fin (-2))
  ∧ GridSimulator.icon_pos
      (GridSimulator.AnimatedGeneratorIcon Samples.at_origin (JS.Fin 1) false)
    = GridSimulator.latLngToXY (JS.Fin 54) (JS.Fin (-2))
  ∧ JS.eqv (px (GridSimulator.latLngToXY (JS.Fin 54) (JS.Fin (-2)))) (JS.Fin 240)
  ∧ JS.eqv (py (GridSimulator.latLngToXY (JS.Fin 54) (JS.Fin (-2)))) (JS.Fin (2000 # 7))
  ∧ GridSimulator.drawn_from
      <$> GridSimulator.scene
            (Samples.simulator_with [Samples.unplaced; Samples.at_origin])
    = [Samples.unplaced; Samples.at_origin].
Proof. by repeat split. Qed.

(** C4, amended.  The Leaflet simulator draws no marker for a generator (or
    a grid node, an interconnector, a carbon region) exactly when its
    latitude or its longitude is absent or zero.  The overlay card draws no
    marker for a generator exactly when its [coords] are absent or its
    latitude is 0.  The SVG simulator draws every generator, and one whose
    latitude and longitude are absent or zero stands at the image of the
    default point (54, -2); so does a grid node. *)
Theorem unplaceable_generators (g : entity) (scale : JS.number) (selected : bool) :
  (GridSimulatorMap.GeneratorMarker g = None
     ↔ absent_or_zero (coords_lat g) ∨ absent_or_zero (coords_lng g))
  ∧ (GridSimulatorMap.GridNodeMarker g = None
     ↔ absent_or_zero (coords_lat g) ∨ absent_or_zero (coords_lng g))
  ∧ (GridSimulatorMap.InterconnectorLine g = None
     ↔ absent_or_zero (coords_lat g) ∨ absent_or_zero (coords_lng g))
  ∧ (GridSimulatorMap.CarbonRegionMarker g = None
     ↔ absent_or_zero (coords_lat g) ∨ absent_or_zero (coords_lng g))
  ∧ (GridMapOverlay.generator_dot g = None
     ↔ coords g = None ∨ ∃ q, coords_lat g = Some q ∧ q == 0)
  ∧ (absent_or_zero (coords_lat g) → absent_or_zero (coords_lng g) →
     GridSimulator.icon_pos (GridSimulator.AnimatedGeneratorIcon g scale selected)
     = GridSimulator.latLngToXY (JS.Fin 54) (JS.Fin (-2))
     ∧ GridSimulator.marker_pos (GridSimulator.GridNodeMarker g selected)
       = GridSimulator.latLngToXY (JS.Fin 54) (JS.Fin (-2))).
Proof.
  unfold GridSimulatorMap.GeneratorMarker, GridSimulatorMap.GridNodeMarker,
    GridSimulatorMap.InterconnectorLine, GridSimulatorMap.CarbonRegionMarker.
  cbn zeta. rewrite !fmap_None, placed_none.
  split; [done|]. split; [done|]. split; [done|]. split; [done|].
  split; [split|].
  - unfold GridMapOverlay.generator_dot, coords_lat.
    destruct (coords g) as [[[la|] lo]|]; simpl; [|done|auto].
    destruct (Qeq_bool la 0) eqn:E; [|done].
    intros _. right. exists la. split; [done|]. by apply Qeq_bool_iff.
  - unfold GridMapOverlay.generator_dot, coords_lat.
    intros [H | (q & H & Hq)]; [by rewrite H|].
    destruct (coords g) as [[la lo]|]; simpl in *; [|done].
    subst la. simpl. apply Qeq_bool_iff in Hq. by rewrite Hq.
  - intros Hla Hlo. simpl. unfold GridSimulator.position_or.
    apply falsy_field_spec in Hla, Hlo.
    destruct (coords_lat g) as [la|], (coords_lng g) as [lo|]; simpl in *;
      rewrite ?Hla, ?Hlo; by split.
Qed.

(** The generator without coordinates and the one at (0, 0) in the three
    renderers. *)
Lemma unplaceable_generators_on_samples :
  GridSimulatorMap.GeneratorMarker Samples.unplaced = None
  ∧ GridSimulatorMap.GeneratorMarker Samples.at_origin = None
  ∧ GridMapOverlay.generator_dot Samples.at_origin = None
  ∧ GridSimulator.icon_pos
      (GridSimulator.AnimatedGeneratorIcon Samples.at_origin (JS.Fin 1) false)
    = GridSimulator.latLngToXY (JS.Fin 54) (JS.Fin (-2)).
Proof.
  destruct (unplaceable_generators Samples.unplaced (JS.Fin 1) false) as (Hmap & _).
  destruct (unplaceable_generators Samples.at_origin (JS.Fin 1) false)
    as (Hmap0 & _ & _ & _ & Hcard & Hsvg).
  split; [|split; [|split]].
  - apply Hmap. left. exact I.
  - apply Hmap0. left. reflexivity.
  - apply Hcard. right. exists 0. split; reflexivity.
  - apply Hsvg; reflexivity.
Defined.

(** ** Interconnector flows *)

(** C6, as stated, fails on the width: at -250 MW and at -500 MW the
    Leaflet line has the same weight 2 and the SVG cable the same stroke
    width 2, and the overlay card's stroke is 3 at both, so the width is not
    proportional to the flow.  A flow of 0 is grey but is labelled as an
    export. *)
Lemma line_width_is_not_proportional :
  GridSimulatorMap.weight <$> GridSimulatorMap.InterconnectorLine (Samples.link_with (-250))
    = Some (JS.Fin 2)
  ∧ GridSimulatorMap.weight <$> GridSimulatorMap.InterconnectorLine (Samples.link_with (-500))
    = Some (JS.Fin 2)
  ∧ GridSimulator.cable_width (GridSimulator.InterconnectorCable (Samples.link_with (-250)))
    = JS.Fin 2
  ∧ GridSimulator.cable_width (GridSimulator.InterconnectorCable (Samples.link_with (-500)))
    = JS.Fin 2
  ∧ GridMapOverlay.link_strokeWidth
      <$> GridMapOverlay.interconnector_link (Samples.link_with (-250))
    = GridMapOverlay.link_strokeWidth
      <$> GridMapOverlay.interconnector_link (Samples.link_with (-500))
  ∧ GridSimulatorMap.line_color <$> GridSimulatorMap.InterconnectorLine (Samples.link_with 0)
    = Some FLOW_IDLE
  ∧ GridSimulatorMap.direction <$> GridSimulatorMap.InterconnectorLine (Samples.link_with 0)
    = Some "Export".
Proof. by repeat split. Qed.

(** What a drawn interconnector line shows, in terms of the flow read. *)
Lemma InterconnectorLine_Some (ic : entity) (l : GridSimulatorMap.line) :
  GridSimulatorMap.InterconnectorLine ic = Some l →
  let flow := JS.Fin (JS.or_default (flow_mw ic) 0) in
  GridSimulatorMap.line_of l = ic
  ∧ GridSimulatorMap.line_color l
    = (if JS.gt flow (JS.Fin 0) then FLOW_IMPORT
       else if JS.lt flow (JS.Fin 0) then FLOW_EXPORT else FLOW_IDLE)
  ∧ GridSimulatorMap.direction l = (if JS.gt flow (JS.Fin 0) then "Import" else "Export")
  ∧ GridSimulatorMap.weight l
    = JS.Math_max (JS.Fin 2) (JS.div (JS.Math_abs flow) (JS.Fin 300)).
Proof.
  unfold GridSimulatorMap.InterconnectorLine. cbn zeta.
  destruct (GridSimulatorMap.placed ic); intros; by simplify_eq/=.
Qed.

(** C6, amended.  With [flow] the interconnector's flow as the component
    reads it ([flow_mw || 0]): a negative flow is drawn red and labelled an
    export, a positive flow green and labelled an import, a zero flow grey.
    The overlay card colours and labels the two signs in the same way, and
    draws a zero flow grey as well, under the label of an export.
    The width is not proportional to the flow but clipped from below: the
    Leaflet line weighs [max(2, |flow| / 300)], the SVG cable is
    [max(2, |flow| / 500)] wide, the overlay card's stroke is always 3.  At
    -250 MW the line is an export, red, of weight 2. *)
Theorem interconnector_flow_rendering (ic : entity) :
  let flow := JS.or_default (flow_mw ic) 0 in
  let cable := GridSimulator.InterconnectorCable ic in
  (flow < 0 →
     GridSimulator.cable_color cable = FLOW_EXPORT
     ∧ GridSimulator.cable_direction cable = "Export"
     ∧ ∀ l, GridSimulatorMap.InterconnectorLine ic = Some l →
         GridSimulatorMap.line_color l = FLOW_EXPORT
         ∧ GridSimulatorMap.direction l = "Export")
  ∧ (0 < flow →
     GridSimulator.cable_color cable = FLOW_IMPORT
     ∧ GridSimulator.cable_direction cable = "Import"
     ∧ ∀ l, GridSimulatorMap.InterconnectorLine ic = Some l →
         GridSimulatorMap.line_color l = FLOW_IMPORT
         ∧ GridSimulatorMap.direction l = "Import")
  ∧ (flow == 0 →
     GridSimulator.cable_color cable = FLOW_IDLE
     ∧ ∀ l, GridSimulatorMap.InterconnectorLine ic = Some l →
         GridSimulatorMap.line_color l = FLOW_IDLE)
  ∧ JS.eqv (GridSimulator.cable_width cable) (JS.Fin (Qmax 2 (Qabs flow / 500)))
  ∧ (∀ l, GridSimulatorMap.InterconnectorLine ic = Some l →
     JS.eqv (GridSimulatorMap.weight l) (JS.Fin (Qmax 2 (Qabs flow / 300))))
  ∧ (∀ l, GridMapOverlay.interconnector_link ic = Some l →
     GridMapOverlay.link_strokeWidth l = 3
     ∧ (flow < 0 → GridMapOverlay.link_color l = FLOW_EXPORT
                   ∧ GridMapOverlay.link_direction l = "export")
     ∧ (0 < flow → GridMapOverlay.link_color l = FLOW_IMPORT
                   ∧ GridMapOverlay.link_direction l = "import")
     ∧ (flow == 0 → GridMapOverlay.link_color l = FLOW_IDLE
                    ∧ GridMapOverlay.link_direction l = "export"))
  ∧ GridSimulatorMap.line_color <$> GridSimulatorMap.InterconnectorLine (Samples.link_with (-250))
    = Some FLOW_EXPORT
  ∧ GridSimulatorMap.direction <$> GridSimulatorMap.InterconnectorLine (Samples.link_with (-250))
    = Some "Export"
  ∧ GridSimulatorMap.weight <$> GridSimulatorMap.InterconnectorLine (Samples.link_with (-250))
    = Some (JS.Fin 2).
Proof.
  cbn zeta.
  assert (H500 : ¬ 500 == 0) by (intros H; lra).
  assert (H300 : ¬ 300 == 0) by (intros H; lra).
  set (flow := JS.or_default (flow_mw ic) 0).
  assert (Hline : ∀ l, GridSimulatorMap.InterconnectorLine ic = Some l →
            GridSimulatorMap.line_color l
            = (if JS.Qltb 0 flow then FLOW_IMPORT
               else if JS.Qltb flow 0 then FLOW_EXPORT else FLOW_IDLE)
            ∧ GridSimulatorMap.direction l
              = (if JS.Qltb 0 flow then "Import" else "Export")
            ∧ GridSimulatorMap.weight l
              = JS.Math_max (JS.Fin 2) (JS.Fin (Qabs flow / 300))).
  { intros l Hl. apply InterconnectorLine_Some in Hl as (_ & Hc & Hd & Hw).
    rewrite Hc, Hd, Hw. fold flow. unfold JS.Math_abs. by rewrite div_Fin. }
  assert (Hwidth : GridSimulator.cable_width (GridSimulator.InterconnectorCable ic)
                   = JS.Math_max (JS.Fin 2) (JS.Fin (Qabs flow / 500))).
  { unfold GridSimulator.InterconnectorCable. cbn zeta.
    cbn [GridSimulator.cable_width]. fold flow. unfold JS.Math_abs. by rewrite div_Fin. }
  assert (Hcable : GridSimulator.cable_color (GridSimulator.InterconnectorCable ic)
                   = (if JS.Qltb 0 flow then FLOW_IMPORT
                      else if JS.Qltb flow 0 then FLOW_EXPORT else FLOW_IDLE)
                   ∧ GridSimulator.cable_direction (GridSimulator.InterconnectorCable ic)
                     = (if JS.Qltb 0 flow then "Import" else "Export")) by done.
  destruct Hcable as [Hcc Hcd]. rewrite Hcc, Hcd, Hwidth.
  split; [|split; [|split; [|split; [|split; [|split]]]]].
  - intros Hf. split; [|split; [|intros l Hl; destruct (Hline l Hl) as (-> & -> & _); split]].
    all: js_compare; try done; lra.
  - intros Hf. split; [|split; [|intros l Hl; destruct (Hline l Hl) as (-> & -> & _); split]].
    all: js_compare; try done; lra.
  - intros Hf. split; [|intros l Hl; destruct (Hline l Hl) as (-> & _ & _)].
    all: js_compare; try done; lra.
  - by destruct (max_Fin 2 (Qabs flow / 500)) as (q & -> & Hq).
  - intros l Hl. destruct (Hline l Hl) as (_ & _ & ->).
    by destruct (max_Fin 2 (Qabs flow / 300)) as (q & -> & Hq).
  - intros l. unfold GridMapOverlay.interconnector_link.
    destruct (coords ic); intros; simplify_eq/=.
    split; [done|]. subst flow.
    destruct (flow_mw ic) as [f|]; simpl; unfold JS.gt, JS.lt.
    + destruct (Qeq_bool f 0) eqn:E0;
        [apply Qeq_bool_iff in E0 | apply Qeqb_ne in E0];
        (split; [|split]); intros Hf; js_compare; try done; lra.
    + split; [|split]; intros Hf; [lra | lra | done].
  - done.
Qed.

(** An import of 1000 MW and an export of 250 MW on the SVG map. *)
Lemma interconnector_flow_rendering_at_1000 :
  GridSimulator.cable_color (GridSimulator.InterconnectorCable (Samples.link_with 1000))
    = FLOW_IMPORT
  ∧ GridSimulator.cable_direction (GridSimulator.InterconnectorCable (Samples.link_with 1000))
    = "Import"
  ∧ GridSimulator.cable_color (GridSimulator.InterconnectorCable (Samples.link_with (-250)))
    = FLOW_EXPORT.
Proof.
  destruct (interconnector_flow_rendering (Samples.link_with 1000))
    as (_ & Himport & _).
  destruct (interconnector_flow_rendering (Samples.link_with (-250)))
    as (Hexport & _).
  assert (Hpos : 0 < JS.or_default (flow_mw (Samples.link_with 1000)) 0)
    by (vm_compute; reflexivity).
  assert (Hneg : JS.or_default (flow_mw (Samples.link_with (-250))) 0 < 0)
    by (vm_compute; reflexivity).
  destruct (Himport Hpos) as (Hc & Hd & _).
  destruct (Hexport Hneg) as (Hc' & _).
  split; [exact Hc | split; [exact Hd | exact Hc']].
Defined.

(** ** Capacity factor *)

(** C7, as stated, fails at capacity 0: the guard replaces the divisor by 1,
    so a generator with an output of 5 MW and a capacity of 0 is shown a
    capacity factor of 500 %, which is neither 0 % nor a dash. *)
Lemma zero_capacity_is_not_a_sentinel :
  capacity_mw Samples.no_capacity = Some 0
  ∧ JS.eqv (GridSimulatorMap.capacity_factor_pct Samples.no_capacity) (JS.Fin 500)
  ∧ JS.eqv (GridSimulator.capacity_factor_pct Samples.no_capacity) (JS.Fin 500).
Proof. by repeat split. Qed.

(** The detail panel of the SVG simulator divides the raw [output_mw]: for
    a generator that carries none the number handed to [toFixed] is [NaN].
    The Leaflet panel reads [output_mw || 0] and shows 0. *)
Lemma absent_output_is_NaN_in_the_svg_panel :
  output_mw Samples.no_output = None
  ∧ GridSimulator.capacity_factor_pct Samples.no_output = JS.NaN
  ∧ JS.eqv (GridSimulatorMap.capacity_factor_pct Samples.no_output) (JS.Fin 0).
Proof. by repeat split. Qed.

(** C7, amended.  The capacity factor the Leaflet panel displays is, for
    every generator, the finite number [100 * output / divisor], where an
    absent output counts as 0 and the divisor is the capacity, or 1 when the
    capacity is absent or zero.  The divisor is never zero, so the value is
    never [NaN] and nothing is thrown; at capacity 0 the value is
    [100 * output] and not a fixed sentinel; it is non-negative whenever
    output and capacity are.  The SVG simulator's panel displays the same
    number for every generator that carries an output. *)
Theorem capacity_factor_is_defined (g : entity) :
  let output := default 0 (output_mw g) in
  let divisor := JS.or_default (capacity_mw g) 1 in
  ∃ pct : Q,
    GridSimulatorMap.capacity_factor_pct g = JS.Fin pct
    ∧ pct == output / divisor * 100
    ∧ ¬ divisor == 0
    ∧ (absent_or_zero (capacity_mw g) → pct == output * 100)
    ∧ (0 <= output → 0 <= divisor → 0 <= pct)
    ∧ (is_Some (output_mw g) →
       JS.eqv (GridSimulator.capacity_factor_pct g) (JS.Fin pct)).
Proof.
  cbn zeta.
  assert (Hd : ¬ JS.or_default (capacity_mw g) 1 == 0).
  { apply or_default_nonzero. intros H; lra. }
  set (divisor := JS.or_default (capacity_mw g) 1) in *.
  exists (JS.or_default (output_mw g) 0 / divisor * 100).
  assert (Hout := or_default_zero (output_mw g)).
  split; [|split; [|split; [|split; [|split]]]].
  - unfold GridSimulatorMap.capacity_factor_pct. fold divisor.
    by rewrite div_Fin.
  - by rewrite Hout.
  - done.
  - intros Hc. rewrite Hout.
    assert (divisor = 1) as ->.
    { unfold divisor. apply falsy_field_spec in Hc.
      destruct (capacity_mw g) as [c|]; simpl in *; [by rewrite Hc | done]. }
    field.
  - intros Ho Hdiv. rewrite Hout.
    assert (0 <= / divisor) by by apply Qinv_le_0_compat.
    unfold Qdiv. apply Qmult_le_0_compat; [by apply Qmult_le_0_compat | lra].
  - intros [o Ho]. unfold GridSimulator.capacity_factor_pct. fold divisor.
    rewrite Ho. cbn [JS.of_field]. rewrite div_Fin by done.
    cbn [JS.mul JS.eqv].
    assert (JS.or_default (Some o) 0 == o) as -> by apply or_default_zero.
    reflexivity.
Qed.

(** Drax, 1800 MW of 2595 MW: the capacity factor is a non-negative number. *)
Lemma capacity_factor_of_a_default_generator :
  ∃ pct, GridSimulatorMap.capacity_factor_pct
           (station "drax" "Drax Power Station" "biomass" 53.74 (-0.99) 2595 1800)
         = JS.Fin pct
         ∧ 0 <= pct.
Proof.
  destruct (capacity_factor_is_defined
              (station "drax" "Drax Power Station" "biomass" 53.74 (-0.99) 2595 1800))
    as (pct & Hpct & _ & _ & _ & Hpos & _).
  exists pct. split; [exact Hpct|].
  apply Hpos; vm_compute; discriminate.
Defined.

(** ** What the scenes draw *)

Section Scenes.

Lemma drawn_from_fmap {E} (drawn : E → entity) (draw : entity → E) (l : list entity) :
  (∀ e, drawn (draw e) = e) → drawn <$> (draw <$> l) = l.
Proof.
  intros H. induction l as [|e l IH]; [done|]. by rewrite !fmap_cons, H, IH.
Qed.

Lemma drawn_from_omap {E} (drawn : E → entity) (draw : entity → option E)
    (P : entity → Prop) `{!∀ e, Decision (P e)} (l : list entity) :
  (∀ e el, draw e = Some el → drawn el = e) →
  (∀ e, is_Some (draw e) ↔ P e) →
  drawn <$> omap draw l = filter P l.
Proof.
  intros Hd HP. induction l as [|e l IH]; [done|].
  rewrite filter_cons. csimpl. destruct (draw e) as [el|] eqn:Hdraw.
  - rewrite decide_True by (apply HP; eauto). by rewrite fmap_cons, (Hd _ _ Hdraw), IH.
  - rewrite decide_False; [done|]. rewrite <- HP, Hdraw. by intros [? ?].
Qed.

End Scenes.

Lemma placeable_spec (e : entity) :
  placeable e ↔ ¬ absent_or_zero (coords_lat e) ∧ ¬ absent_or_zero (coords_lng e).
Proof.
  unfold placeable. rewrite <- not_eq_None_Some, placed_none. tauto.
Qed.

Lemma card_draws_spec (e : entity) :
  card_draws e
  ↔ has_coords e ∧ ¬ ∃ q, coords_lat e = Some q ∧ q == 0.
Proof.
  unfold card_draws, has_coords, GridMapOverlay.generator_dot, coords_lat.
  destruct (coords e) as [[[la|] lo]|]; simpl.
  - destruct (Qeq_bool la 0) eqn:E.
    + apply Qeq_bool_iff in E. split; [by intros [? ?]|]. intros [_ H]. destruct H. eauto.
    + apply Qeqb_ne in E. split; [|by eauto]. intros _. split; [by eauto|].
      intros (q & Hq & Hz). by simplify_eq.
  - split; [|by eauto]. intros _. split; [by eauto|]. by intros (q & Hq & _).
  - split; [by intros [? ?]|]. by intros [[? ?] _].
Qed.

Lemma scene_of_the_svg_simulator (st : GridSimulator.state) :
  let ls := GridSimulator.layer_states st in
  GridSimulator.drawn_from <$> GridSimulator.scene st
  = (if GridSimulator.is_visible ls "carbonRegions" then GridSimulator.carbonRegions st else [])
    ++ (if GridSimulator.is_visible ls "gridNodes" then GridSimulator.gridNodes st else [])
    ++ (if GridSimulator.is_visible ls "interconnectors"
        then GridSimulator.interconnectors st else [])
    ++ (if GridSimulator.is_visible ls "generators"
        then take 100 (GridSimulator.generators st) else []).
Proof.
  cbn zeta. unfold GridSimulator.scene, GridSimulator.layer_elements. cbn zeta.
  rewrite !fmap_app.
  repeat (f_equal; [by case_match; [apply drawn_from_fmap|]|]).
  by case_match; [apply drawn_from_fmap|].
Qed.

Lemma scene_of_the_leaflet_simulator
    (ls : gmap string bool) (overlay : option Feed.overlayDoc) :
  GridSimulatorMap.drawn_from <$> GridSimulatorMap.scene ls overlay
  = (if GridSimulatorMap.is_on ls "carbonRegions"
     then filter placeable (GridSimulatorMap.carbonRegions overlay) else [])
    ++ (if GridSimulatorMap.is_on ls "interconnectors"
        then filter placeable (GridSimulatorMap.interconnectors overlay) else [])
    ++ (if GridSimulatorMap.is_on ls "gridNodes"
        then filter placeable (GridSimulatorMap.gridNodes overlay) else [])
    ++ (if GridSimulatorMap.is_on ls "generators"
        then filter placeable (take 200 (GridSimulatorMap.generators overlay)) else []).
Proof.
  unfold GridSimulatorMap.scene, GridSimulatorMap.layer_elements.
  rewrite !fmap_app.
  assert (Hdraw : ∀ (draw : entity → option GridSimulatorMap.element) (l : list entity),
            (∀ e el, draw e = Some el → GridSimulatorMap.drawn_from el = e) →
            (∀ e, is_Some (draw e) ↔ placeable e) →
            GridSimulatorMap.drawn_from <$> omap draw l = filter placeable l).
  { intros draw l H1 H2. by apply drawn_from_omap. }
  repeat (f_equal; [case_match; [apply Hdraw|done]|]); [..|case_match; [apply Hdraw|done]].
  all: unfold placeable, GridSimulatorMap.CarbonRegionMarker,
         GridSimulatorMap.InterconnectorLine, GridSimulatorMap.GridNodeMarker,
         GridSimulatorMap.GeneratorMarker; cbn zeta; intros e.
  all: destruct (GridSimulatorMap.placed e); simpl;
       rewrite ?is_Some_alt; try done; intros; by simplify_eq/=.
Qed.

Lemma scene_of_the_overlay_card (gens ics nodes regions : list entity) :
  GridMapOverlay.drawn_from <$> GridMapOverlay.UKMapSVG gens ics nodes regions
  = regions
    ++ filter has_coords nodes
    ++ filter card_draws (take 50 gens)
    ++ filter has_coords ics.
Proof.
  unfold GridMapOverlay.UKMapSVG. rewrite !fmap_app.
  f_equal; [|f_equal; [|f_equal]].
  - rewrite <- list_fmap_compose. by apply drawn_from_fmap.
  - apply drawn_from_omap; unfold has_coords, GridMapOverlay.node_dot; intros e.
    + destruct (coords e); intros; by simplify_eq/=.
    + destruct (coords e); simpl; rewrite ?is_Some_alt; done.
  - apply drawn_from_omap; unfold card_draws, GridMapOverlay.generator_dot; intros e.
    + destruct (coords e); [case_match|]; intros; by simplify_eq/=.
    + destruct (coords e); [case_match|]; simpl; rewrite ?is_Some_alt; done.
  - apply drawn_from_omap; unfold has_coords, GridMapOverlay.interconnector_link; intros e.
    + destruct (coords e); intros; by simplify_eq/=.
    + destruct (coords e); simpl; rewrite ?is_Some_alt; done.
Qed.

(** C8, as stated, fails: with 101 generators in the feed and the layer
    visible, the SVG simulator does not draw the last one. *)
Lemma the_101st_generator_is_not_drawn :
  let st := Samples.simulator_with (Samples.fleet 101) in
  GridSimulator.is_visible (GridSimulator.layer_states st) "generators" = true
  ∧ GridSimulator.generators st !! 100%nat = Some (Samples.unit 100)
  ∧ Samples.unit 100 ∉ GridSimulator.drawn_from <$> GridSimulator.scene st.
Proof.
  cbn zeta. split; [done|]. split; [done|].
  rewrite scene_of_the_svg_simulator.
  change (Samples.unit 100 ∉ take 100 (Samples.fleet 101)).
  unfold Samples.fleet. rewrite <- fmap_take, take_seq.
  intros (k & Heq & Hk)%list_elem_of_fmap.
  apply elem_of_seq in Hk. unfold Samples.unit, station in Heq.
  injection Heq as Heq. lia.
Qed.

(** C8, amended.  Every entity of a visible layer's collection is drawn, one
    element each and in the order of the collection, with two limits: of the
    generators only the first 100 (SVG simulator), 200 (Leaflet simulator)
    or 50 (overlay card) are considered, and the Leaflet simulator and the
    overlay card leave out the entities they cannot place.  A hidden layer
    draws nothing. *)
Theorem visible_layers_are_drawn
    (st : GridSimulator.state) (ls : gmap string bool)
    (overlay : option Feed.overlayDoc) (card : GridMapOverlay.store) :
  GridSimulator.drawn_from <$> GridSimulator.scene st
  = (if GridSimulator.is_visible (GridSimulator.layer_states st) "carbonRegions"
     then GridSimulator.carbonRegions st else [])
    ++ (if GridSimulator.is_visible (GridSimulator.layer_states st) "gridNodes"
        then GridSimulator.gridNodes st else [])
    ++ (if GridSimulator.is_visible (GridSimulator.layer_states st) "interconnectors"
        then GridSimulator.interconnectors st else [])
    ++ (if GridSimulator.is_visible (GridSimulator.layer_states st) "generators"
        then take 100 (GridSimulator.generators st) else [])
  ∧ GridSimulatorMap.drawn_from <$> GridSimulatorMap.scene ls overlay
    = (if GridSimulatorMap.is_on ls "carbonRegions"
       then filter placeable (GridSimulatorMap.carbonRegions overlay) else [])
      ++ (if GridSimulatorMap.is_on ls "interconnectors"
          then filter placeable (GridSimulatorMap.interconnectors overlay) else [])
      ++ (if GridSimulatorMap.is_on ls "gridNodes"
          then filter placeable (GridSimulatorMap.gridNodes overlay) else [])
      ++ (if GridSimulatorMap.is_on ls "generators"
          then filter placeable (take 200 (GridSimulatorMap.generators overlay)) else [])
  ∧ GridMapOverlay.drawn_from <$> GridMapOverlay.scene ls card
    = (if GridMapOverlay.is_on ls "carbonIntensity"
       then Feed.layer_data (GridMapOverlay.overlayState card) Feed.carbon_intensity
       else [])
      ++ filter has_coords
           (if GridMapOverlay.is_on ls "gridNodes"
            then Feed.layer_data (GridMapOverlay.overlayState card) Feed.grid_nodes
            else [])
      ++ filter card_draws
           (take 50
              (if GridMapOverlay.is_on ls "generators"
               then Feed.layer_data (GridMapOverlay.overlayState card) Feed.generators
               else []))
      ++ filter has_coords
           (if GridMapOverlay.is_on ls "interconnectors"
            then Feed.layer_data (GridMapOverlay.overlayState card) Feed.interconnectors
            else []).
Proof.
  split; [apply scene_of_the_svg_simulator|].
  split; [apply scene_of_the_leaflet_simulator | apply scene_of_the_overlay_card].
Qed.

(** ** Generator markers: opacity and size *)

Section MarkerFacts.

Implicit Types a b q lo hi : Q.

Lemma le_Fin a b : JS.le (JS.Fin a) (JS.Fin b) = true ↔ a <= b.
Proof.
  unfold JS.le, JS.lt. rewrite negb_true_iff. apply Qltb_ge.
Qed.

Lemma Qsqrt_nonneg q : 0 <= JS.Qsqrt q.
Proof.
  unfold JS.Qsqrt, Qle. simpl. rewrite Z.mul_1_r. apply Z.sqrt_nonneg.
Qed.

(** [Qsqrt q] is the square root of [q] rounded down to a multiple of
    [2 ^ - sqrt_bits]. *)
Lemma Qsqrt_spec q :
  0 <= q →
  JS.Qsqrt q * JS.Qsqrt q <= q
  ∧ q < (JS.Qsqrt q + (1 # 2 ^ JS.sqrt_bits)) * (JS.Qsqrt q + (1 # 2 ^ JS.sqrt_bits)).
Proof.
  intros Hq. unfold JS.Qsqrt.
  set (K := (2 ^ JS.sqrt_bits)%positive).
  assert (HK : (2 ^ (2 * Z.pos JS.sqrt_bits))%Z = (Z.pos K * Z.pos K)%Z).
  { unfold K. rewrite Pos2Z.inj_pow.
    replace (2 * Z.pos JS.sqrt_bits)%Z
      with (Z.pos JS.sqrt_bits + Z.pos JS.sqrt_bits)%Z by lia.
    by rewrite Z.pow_add_r by lia. }
  rewrite HK.
  set (n := Qfloor (q * inject_Z (Z.pos K * Z.pos K))).
  assert (Hlo := Qfloor_le (q * inject_Z (Z.pos K * Z.pos K))).
  assert (Hhi := Qlt_floor (q * inject_Z (Z.pos K * Z.pos K))).
  fold n in Hlo, Hhi.
  assert (Hn : (0 <= n)%Z).
  { change 0%Z with (Qfloor 0). apply Qfloor_resp_le.
    apply Qmult_le_0_compat; [exact Hq|]. unfold Qle. simpl. lia. }
  destruct (Z.sqrt_spec n Hn) as [Hs1 Hs2].
  set (s := Z.sqrt n) in *.
  assert (Hs0 : (0 <= s)%Z) by apply Z.sqrt_nonneg.
  destruct q as [a b]. unfold Qle, Qlt, Qmult, Qplus, inject_Z in *. simpl in *.
  clearbody K n s.
  split; nia.
Qed.

Lemma Qsqrt_mono a b : a <= b → JS.Qsqrt a <= JS.Qsqrt b.
Proof.
  intros Hab. unfold JS.Qsqrt.
  set (K := inject_Z (2 ^ (2 * Z.pos JS.sqrt_bits))).
  assert (HK : 0 <= K) by (unfold K, Qle; simpl; lia).
  assert (H : (Qfloor (a * K) <= Qfloor (b * K))%Z)
    by (apply Qfloor_resp_le; by apply Qmult_le_compat_r).
  apply Z.sqrt_le_mono in H. unfold Qle. simpl.
  by apply Z.mul_le_mono_nonneg_r.
Qed.

Lemma sqrt_Fin q : 0 <= q → JS.Math_sqrt (JS.Fin q) = JS.Fin (JS.Qsqrt q).
Proof.
  intros H. simpl. apply Qltb_ge in H. by rewrite H.
Qed.

(** The root of a perfect square is exact. *)
Lemma Qsqrt_square (n : Z) : (0 <= n)%Z → JS.Qsqrt (inject_Z (n * n)) == inject_Z n.
Proof.
  intros Hn. unfold JS.Qsqrt.
  rewrite <- inject_Z_mult, Qfloor_Z.
  replace (n * n * 2 ^ (2 * Z.pos JS.sqrt_bits))%Z
    with ((n * 2 ^ Z.pos JS.sqrt_bits) * (n * 2 ^ Z.pos JS.sqrt_bits))%Z.
  - rewrite Z.sqrt_square by (apply Z.mul_nonneg_nonneg; [done | by apply Z.pow_nonneg]).
    unfold Qeq, inject_Z. simpl. rewrite Pos2Z.inj_pow. lia.
  - replace (2 * Z.pos JS.sqrt_bits)%Z with (Z.pos JS.sqrt_bits + Z.pos JS.sqrt_bits)%Z by lia.
    rewrite Z.pow_add_r by lia. ring.
Qed.

Lemma Qdiv_le_compat a b d : 0 < d → a <= b → a / d <= b / d.
Proof.
  intros Hd Hab. apply Qmult_le_compat_r; [done|]. apply Qinv_le_0_compat. lra.
Qed.

(** [Math.max(lo, Math.min(hi, x))] is the clipping of [x] to [lo, hi]. *)
Lemma clip_Fin lo hi x :
  ∃ z, JS.Math_max (JS.Fin lo) (JS.Math_min (JS.Fin hi) (JS.Fin x)) = JS.Fin z
       ∧ z == Qmax lo (Qmin hi x).
Proof.
  destruct (min_Fin hi x) as (m & -> & Hm).
  destruct (max_Fin lo m) as (z & -> & Hz).
  exists z. split; [done|]. by rewrite Hz, Hm.
Qed.

Lemma clip_bounds lo hi x : lo <= hi → lo <= Qmax lo (Qmin hi x) <= hi.
Proof.
  intros H. split; [apply Q.le_max_l|].
  apply Q.max_lub; [done | apply Q.le_min_l].
Qed.

Lemma clip_mono lo hi x y : x <= y → Qmax lo (Qmin hi x) <= Qmax lo (Qmin hi y).
Proof.
  intros H. apply Q.max_le_compat; [lra|]. apply Q.min_le_compat; [lra | done].
Qed.

End MarkerFacts.

(** C10.  The opacity of a generator's marker is [max(0.3, output /
    capacity)], with an absent or zero output read as 0 and an absent or
    zero capacity as 100: a finite number that is at least 0.3, for every
    generator, in the SVG simulator and, whenever the marker is drawn, in
    the Leaflet simulator.  A generator with an output of 0 and one without
    an output have opacity 0.3.  The overlay card and the static maps draw
    generators at the fixed opacities 0.8 and 0.7. *)
Theorem generator_opacity_floor (g : entity) (scale : JS.number) (selected : bool) :
  let ratio := JS.or_default (output_mw g) 0 / JS.or_default (capacity_mw g) 100 in
  (∃ o, GridSimulator.icon_opacity (GridSimulator.AnimatedGeneratorIcon g scale selected)
        = JS.Fin o
        ∧ 0.3 <= o ∧ o == Qmax 0.3 ratio)
  ∧ (∀ m, GridSimulatorMap.GeneratorMarker g = Some m →
       ∃ o, GridSimulatorMap.fillOpacity m = JS.Fin o ∧ 0.3 <= o ∧ o == Qmax 0.3 ratio)
  ∧ (∀ d, GridMapOverlay.generator_dot g = Some d →
       ∃ o, GridMapOverlay.dot_opacity d = Some o ∧ 0.3 <= o)
  ∧ 0.3 <= StaticMap.generator_fillOpacity
  ∧ 0.3 <= SimpleGridMap.generator_fillOpacity
  ∧ GridSimulator.capFactor Samples.no_output = JS.Fin 0.3
  ∧ GridSimulator.capFactor (station "d" "Dinorwig Hydro" "hydro" 53.12 (-4.11) 1728 0)
    = JS.Fin 0.3.
Proof.
  cbn zeta.
  assert (Hd : ¬ JS.or_default (capacity_mw g) 100 == 0).
  { apply or_default_nonzero. intros H; lra. }
  assert (Hmax : ∃ o, JS.Math_max (JS.Fin 0.3)
                        (JS.div (JS.Fin (JS.or_default (output_mw g) 0))
                                (JS.Fin (JS.or_default (capacity_mw g) 100))) = JS.Fin o
                      ∧ 0.3 <= o
                      ∧ o == Qmax 0.3 (JS.or_default (output_mw g) 0
                                       / JS.or_default (capacity_mw g) 100)).
  { rewrite div_Fin by done.
    destruct (max_Fin 0.3 (JS.or_default (output_mw g) 0
                           / JS.or_default (capacity_mw g) 100)) as (o & -> & Ho).
    exists o. split; [done|]. split; [|done]. rewrite Ho. apply Q.le_max_l. }
  split; [exact Hmax|]. split; [|split; [|by repeat split]].
  - intros m. unfold GridSimulatorMap.GeneratorMarker.
    destruct (GridSimulatorMap.placed g); intros; simplify_eq/=. exact Hmax.
  - intros d. unfold GridMapOverlay.generator_dot.
    destruct (coords g); [case_match|]; intros; simplify_eq/=.
    exists 0.8. by split.
Qed.

(** The marker of the sample wind farm on the Leaflet map. *)
Lemma generator_opacity_floor_on_a_marker :
  ∃ m o, GridSimulatorMap.GeneratorMarker Samples.wind_farm = Some m
         ∧ GridSimulatorMap.fillOpacity m = JS.Fin o ∧ 0.3 <= o.
Proof.
  destruct (generator_opacity_floor Samples.wind_farm (JS.Fin 1) false)
    as (_ & Hmarker & _).
  destruct (GridSimulatorMap.GeneratorMarker Samples.wind_farm) as [m|] eqn:Hm;
    [|discriminate Hm].
  destruct (Hmarker m eq_refl) as (o & Ho & Hfloor & _).
  exists m, o. split; [reflexivity|]. split; assumption.
Defined.

(** C9, as stated, fails.  On the overlay card the size follows the output,
    not the capacity: a 100 MW plant at 1200 MW gets size 12, a 2000 MW
    plant at 0 MW size 3, and a generator that reports no output gets
    [NaN], which no minimum or maximum clips.  In the SVG simulator at zoom
    3 a capacity of 0 is read as 50 and drawn larger than a capacity of
    1. *)
Lemma marker_size_is_not_monotone_in_capacity :
  JS.le (JS.of_field (capacity_mw Samples.busy_small))
        (JS.of_field (capacity_mw Samples.idle_large)) = true
  ∧ JS.eqv (GridMapOverlay.generator_size Samples.busy_small) (JS.Fin 12)
  ∧ JS.eqv (GridMapOverlay.generator_size Samples.idle_large) (JS.Fin 3)
  ∧ JS.lt (GridMapOverlay.generator_size Samples.idle_large)
          (GridMapOverlay.generator_size Samples.busy_small) = true
  ∧ output_mw Samples.no_output = None
  ∧ GridMapOverlay.generator_size Samples.no_output = JS.NaN
  ∧ JS.lt (GridSimulator.icon_size_of (Samples.plant 1) (JS.Fin 3))
          (GridSimulator.icon_size_of (Samples.plant 0) (JS.Fin 3)) = true.
Proof. repeat split; vm_compute; reflexivity. Qed.

Section MarkerSizes.

Implicit Types g : entity.
Implicit Types c s o : Q.

Lemma or_default_valid g d : valid_capacity g → 0 <= d → 0 <= JS.or_default (capacity_mw g) d.
Proof.
  unfold valid_capacity. destruct (capacity_mw g) as [c|]; simpl; [|done].
  by destruct (Qeq_bool c 0).
Qed.

(** The SVG simulator clips the icon to [12, 32]. *)
Lemma icon_size_clipped g s :
  valid_capacity g →
  ∃ z, GridSimulator.icon_size_of g (JS.Fin s) = JS.Fin z
       ∧ z == Qmax 12 (Qmin 32 (JS.Qsqrt (JS.or_default (capacity_mw g) 50) * s))
       ∧ 12 <= z <= 32.
Proof.
  intros Hg. unfold GridSimulator.icon_size_of.
  rewrite sqrt_Fin by (apply or_default_valid; [done | lra]).
  cbn [JS.mul].
  destruct (clip_Fin 12 32 (JS.Qsqrt (JS.or_default (capacity_mw g) 50) * s))
    as (z & -> & Hz).
  exists z. split; [done|]. split; [done|]. rewrite Hz. apply clip_bounds. lra.
Qed.

(** The Leaflet simulator clips the radius to [5, 20]. *)
Lemma radius_clipped g :
  valid_capacity g →
  ∃ z, GridSimulatorMap.radius_of g = JS.Fin z
       ∧ z == Qmax 5 (Qmin 20 (JS.Qsqrt (JS.or_default (capacity_mw g) 50) / 2))
       ∧ 5 <= z <= 20.
Proof.
  intros Hg. unfold GridSimulatorMap.radius_of.
  rewrite sqrt_Fin by (apply or_default_valid; [done | lra]).
  rewrite div_Fin by (intros H; lra).
  destruct (clip_Fin 5 20 (JS.Qsqrt (JS.or_default (capacity_mw g) 50) / 2))
    as (z & -> & Hz).
  exists z. split; [done|]. split; [done|]. rewrite Hz. apply clip_bounds. lra.
Qed.

(** The overlay card clips the size to [3, 12]; it is a function of the
    output. *)
Lemma card_size_clipped g o :
  output_mw g = Some o →
  ∃ z, GridMapOverlay.generator_size g = JS.Fin z
       ∧ z == Qmin (Qmax (o / 100) 3) 12
       ∧ 3 <= z <= 12.
Proof.
  intros Ho. unfold GridMapOverlay.generator_size. rewrite Ho. cbn [JS.of_field].
  rewrite div_Fin by (intros H; lra).
  destruct (max_Fin (o / 100) 3) as (m & -> & Hm).
  destruct (min_Fin m 12) as (z & -> & Hz).
  exists z. split; [done|]. rewrite Hz, Hm. split; [done|].
  split; [|apply Q.le_min_r].
  apply Q.min_glb; [apply Q.le_max_r | lra].
Qed.

(** The static maps clip the radius from below only. *)
Lemma static_radius g (r : SimpleGridMap.genRow) c :
  capacity_mw g = Some c → SimpleGridMap.cap r = c → 0 <= c →
  ∃ z, StaticMap.generator_radius g = JS.Fin z
       ∧ SimpleGridMap.generator_radius r = JS.Fin z
       ∧ z == Qmax 6 (JS.Qsqrt c / 5)
       ∧ 6 <= z.
Proof.
  intros Hg Hr Hc. unfold StaticMap.generator_radius, SimpleGridMap.generator_radius.
  rewrite Hg, Hr. cbn [JS.of_field].
  rewrite sqrt_Fin by done. rewrite div_Fin by (intros H; lra).
  destruct (max_Fin 6 (JS.Qsqrt c / 5)) as (z & -> & Hz).
  exists z. repeat split; try done. rewrite Hz. apply Q.le_max_l.
Qed.

Lemma valid_capacity_present g c : capacity_mw g = Some c → 0 <= c → valid_capacity g.
Proof. unfold valid_capacity. by intros ->. Qed.

Lemma icon_size_monotone g1 g2 c1 c2 s :
  capacity_mw g1 = Some c1 → capacity_mw g2 = Some c2 →
  0 < c1 <= c2 → 0 <= s →
  JS.le (GridSimulator.icon_size_of g1 (JS.Fin s))
        (GridSimulator.icon_size_of g2 (JS.Fin s)) = true.
Proof.
  intros H1 H2 [Hpos Hle] Hs.
  destruct (icon_size_clipped g1 s) as (z1 & -> & Hz1 & _);
    [apply (valid_capacity_present _ c1); [done | lra]|].
  destruct (icon_size_clipped g2 s) as (z2 & -> & Hz2 & _);
    [apply (valid_capacity_present _ c2); [done | lra]|].
  apply le_Fin. rewrite Hz1, Hz2, H1, H2.
  rewrite !or_default_present by (intros H; lra).
  apply clip_mono, Qmult_le_compat_r; [by apply Qsqrt_mono | done].
Qed.

Lemma radius_monotone g1 g2 c1 c2 :
  capacity_mw g1 = Some c1 → capacity_mw g2 = Some c2 →
  0 <= c1 <= c2 →
  JS.le (GridSimulatorMap.radius_of g1) (GridSimulatorMap.radius_of g2) = true.
Proof.
  intros H1 H2 [Hpos Hle].
  destruct (radius_clipped g1) as (z1 & -> & Hz1 & _);
    [apply (valid_capacity_present _ c1); [done | lra]|].
  destruct (radius_clipped g2) as (z2 & -> & Hz2 & Hb2 & _);
    [apply (valid_capacity_present _ c2); [done | lra]|].
  apply le_Fin. rewrite H1 in Hz1. rewrite H2 in Hz2.
  destruct (Qeq_bool c1 0) eqn:E1.
  - (* a capacity of 0 is read as 50, whose radius is the minimum *)
    assert (Hmin : JS.Qsqrt 50 / 2 <= 5) by (apply Qle_bool_iff; by vm_compute).
    simpl in Hz1. rewrite E1 in Hz1. rewrite Hz1.
    apply Qle_trans with 5; [|done].
    apply Q.max_lub; [lra|]. eapply Qle_trans; [apply Q.le_min_r | done].
  - apply Qeqb_ne in E1.
    rewrite or_default_present in Hz1 by done.
    rewrite or_default_present in Hz2 by (intros H; lra).
    rewrite Hz1, Hz2.
    apply clip_mono, Qdiv_le_compat; [lra | by apply Qsqrt_mono].
Qed.

Lemma card_size_monotone g1 g2 o1 o2 :
  output_mw g1 = Some o1 → output_mw g2 = Some o2 → o1 <= o2 →
  JS.le (GridMapOverlay.generator_size g1) (GridMapOverlay.generator_size g2) = true.
Proof.
  intros H1 H2 Hle.
  destruct (card_size_clipped g1 o1 H1) as (z1 & -> & Hz1 & _).
  destruct (card_size_clipped g2 o2 H2) as (z2 & -> & Hz2 & _).
  apply le_Fin. rewrite Hz1, Hz2.
  apply Q.min_le_compat; [|lra].
  apply Q.max_le_compat; [apply Qdiv_le_compat|]; lra.
Qed.

Lemma static_radius_monotone g1 g2 (r1 r2 : SimpleGridMap.genRow) c1 c2 :
  capacity_mw g1 = Some c1 → capacity_mw g2 = Some c2 →
  SimpleGridMap.cap r1 = c1 → SimpleGridMap.cap r2 = c2 →
  0 <= c1 <= c2 →
  JS.le (StaticMap.generator_radius g1) (StaticMap.generator_radius g2) = true
  ∧ JS.le (SimpleGridMap.generator_radius r1) (SimpleGridMap.generator_radius r2) = true.
Proof.
  intros Hg1 Hg2 Hr1 Hr2 [Hpos Hle].
  destruct (static_radius g1 r1 c1) as (z1 & -> & -> & Hz1 & _); [done..|].
  destruct (static_radius g2 r2 c2) as (z2 & -> & -> & Hz2 & _); [done|done|lra|].
  rewrite !le_Fin, Hz1, Hz2.
  assert (Qmax 6 (JS.Qsqrt c1 / 5) <= Qmax 6 (JS.Qsqrt c2 / 5)); [|done].
  apply Q.max_le_compat; [lra|].
  apply Qdiv_le_compat; [lra | by apply Qsqrt_mono].
Qed.

End MarkerSizes.

(** C9, amended.  With capacities that are not negative:
    - the SVG simulator's icon size lies in [12, 32] and does not decrease
      when a positive capacity grows (at a fixed zoom that is not negative);
    - the Leaflet simulator's radius lies in [5, 20] and does not decrease
      when the capacity grows;
    - the overlay card's size does not depend on the capacity: for a
      generator that reports an output it lies in [3, 12] and does not
      decrease when the output grows; for a generator without [output_mw]
      it is [NaN];
    - the radius of the two static maps, [max(6, sqrt(capacity) / 5)], is
      at least 6 and does not decrease when the capacity grows; on the
      tables the two maps draw, the only generators they are given, it lies
      between 6 and 10.2. *)
Theorem marker_size_is_clipped
    (g1 g2 : entity) (r1 r2 : SimpleGridMap.genRow) (c1 c2 s : Q) :
  (valid_capacity g1 →
     ∃ z, GridSimulator.icon_size_of g1 (JS.Fin s) = JS.Fin z ∧ 12 <= z <= 32)
  ∧ (capacity_mw g1 = Some c1 → capacity_mw g2 = Some c2 → 0 < c1 <= c2 → 0 <= s →
     JS.le (GridSimulator.icon_size_of g1 (JS.Fin s))
           (GridSimulator.icon_size_of g2 (JS.Fin s)) = true)
  ∧ (valid_capacity g1 →
     ∃ z, GridSimulatorMap.radius_of g1 = JS.Fin z ∧ 5 <= z <= 20)
  ∧ (capacity_mw g1 = Some c1 → capacity_mw g2 = Some c2 → 0 <= c1 <= c2 →
     JS.le (GridSimulatorMap.radius_of g1) (GridSimulatorMap.radius_of g2) = true)
  ∧ (∀ o, output_mw g1 = Some o →
     ∃ z, GridMapOverlay.generator_size g1 = JS.Fin z ∧ 3 <= z <= 12)
  ∧ (output_mw g1 = None → GridMapOverlay.generator_size g1 = JS.NaN)
  ∧ (∀ o1 o2, output_mw g1 = Some o1 → output_mw g2 = Some o2 → o1 <= o2 →
     JS.le (GridMapOverlay.generator_size g1) (GridMapOverlay.generator_size g2) = true)
  ∧ (capacity_mw g1 = Some c1 → capacity_mw g2 = Some c2 →
     SimpleGridMap.cap r1 = c1 → SimpleGridMap.cap r2 = c2 → 0 <= c1 <= c2 →
     (∃ z, StaticMap.generator_radius g1 = JS.Fin z
           ∧ SimpleGridMap.generator_radius r1 = JS.Fin z ∧ 6 <= z)
     ∧ JS.le (StaticMap.generator_radius g1) (StaticMap.generator_radius g2) = true
     ∧ JS.le (SimpleGridMap.generator_radius r1) (SimpleGridMap.generator_radius r2) = true)
  ∧ Forall (λ g, ∃ z, StaticMap.generator_radius g = JS.Fin z ∧ 6 <= z <= 10.2)
      StaticMap.DEFAULT_GENERATORS
  ∧ Forall (λ r, ∃ z, SimpleGridMap.generator_radius r = JS.Fin z ∧ 6 <= z <= 10.2)
      SimpleGridMap.GENERATORS.
Proof.
  split; [|split; [|split; [|split; [|split; [|split; [|split; [|split; [|split]]]]]]]].
  - intros Hg. destruct (icon_size_clipped g1 s Hg) as (z & Hz & _ & Hb). eauto.
  - apply icon_size_monotone.
  - intros Hg. destruct (radius_clipped g1 Hg) as (z & Hz & _ & Hb). eauto.
  - apply radius_monotone.
  - intros o Ho. destruct (card_size_clipped g1 o Ho) as (z & Hz & _ & Hb). eauto.
  - intros Ho. unfold GridMapOverlay.generator_size. by rewrite Ho.
  - apply card_size_monotone.
  - intros Hg1 Hg2 Hr1 Hr2 Hc. split.
    + destruct (static_radius g1 r1 c1) as (z & Hz & Hz' & _ & Hb); [done..|lra|].
      eauto.
    + by apply (static_radius_monotone g1 g2 r1 r2 c1 c2).
  - repeat (apply Forall_cons_2; [eexists; split; [vm_compute; reflexivity|];
                                  split; apply Qle_bool_iff; by vm_compute|]).
    apply Forall_nil_2.
  - repeat (apply Forall_cons_2; [eexists; split; [vm_compute; reflexivity|];
                                  split; apply Qle_bool_iff; by vm_compute|]).
    apply Forall_nil_2.
Qed.

(** The theorem at two default generators, Carrington (884 MW) and Drax
    (2595 MW), at zoom 1. *)
Lemma marker_sizes_of_two_plants :
  let carrington := station "ccgt_carrington" "Carrington CCGT" "gas" 53.43 (-2.41) 884 620 in
  let drax := station "drax" "Drax Power Station" "biomass" 53.74 (-0.99) 2595 1800 in
  JS.le (GridSimulator.icon_size_of carrington (JS.Fin 1))
        (GridSimulator.icon_size_of drax (JS.Fin 1)) = true
  ∧ JS.le (GridSimulatorMap.radius_of carrington) (GridSimulatorMap.radius_of drax) = true
  ∧ JS.le (GridMapOverlay.generator_size carrington)
          (GridMapOverlay.generator_size drax) = true.
Proof.
  cbn zeta.
  pose proof (marker_size_is_clipped
                (station "ccgt_carrington" "Carrington CCGT" "gas" 53.43 (-2.41) 884 620)
                (station "drax" "Drax Power Station" "biomass" 53.74 (-0.99) 2595 1800)
                Samples.drax_row Samples.drax_row 884 2595 1)
    as (_ & Hicon & _ & Hradius & _ & _ & Hcard & _).
  split; [|split].
  - apply Hicon; [reflexivity | reflexivity | lra | lra].
  - apply Hradius; [reflexivity | reflexivity | lra].
  - apply (Hcard 620 1800); [reflexivity | reflexivity | lra].
Defined.

(** * Further properties of the components *)

(** ** The zoom of the SVG simulator *)

Lemma zoom_step_in_range z a :
  0.5 <= z <= 3 →
  ∃ z', Controls.step (JS.Fin z) a = JS.Fin z' ∧ 0.5 <= z' <= 3.
Proof.
  intros [Hlo Hhi]. destruct a as [deltaY| |]; cbn.
  - destruct (JS.Qltb 0 deltaY); cbn; js_compare; eexists; (split; [reflexivity|]); lra.
  - js_compare; eexists; (split; [reflexivity|]); lra.
  - js_compare; eexists; (split; [reflexivity|]); lra.
Qed.

Lemma zoom_run_in_range actions z :
  0.5 <= z <= 3 →
  ∃ z', foldl Controls.step (JS.Fin z) actions = JS.Fin z' ∧ 0.5 <= z' <= 3.
Proof.
  revert z. induction actions as [|a actions IH]; intros z Hz.
  - by exists z.
  - destruct (zoom_step_in_range z a Hz) as (z1 & E & Hz1).
    cbn [foldl]. rewrite E. by apply IH.
Qed.

(** X1.  Whatever the user does with the wheel and the two buttons, the zoom
    is a finite number between 0.5 and 3: the wheel clips on both sides,
    the zoom-in button only from above and the zoom-out button only from
    below, and that is enough. *)
Theorem zoom_stays_in_range (actions : list Controls.action) :
  ∃ z, Controls.zoom_after actions = JS.Fin z ∧ 0.5 <= z <= 3.
Proof.
  unfold Controls.zoom_after, Controls.initial_zoom.
  apply zoom_run_in_range. lra.
Qed.

(** X2.  A generator of plausible capacity keeps an icon between 12 and 32
    units at every zoom the controls can reach. *)
Theorem icon_size_at_any_zoom (actions : list Controls.action) (g : entity) :
  valid_capacity g →
  ∃ s, GridSimulator.icon_size_of g (Controls.zoom_after actions) = JS.Fin s
       ∧ 12 <= s <= 32.
Proof.
  intros Hg. unfold Controls.zoom_after, Controls.initial_zoom.
  destruct (zoom_run_in_range actions 1) as (z & -> & _); [lra|].
  destruct (icon_size_clipped g z Hg) as (s & E & _ & Hs).
  by exists s.
Qed.

(** A 2595 MW plant after zooming in, turning the wheel and zooming out. *)
Lemma icon_size_at_any_zoom_example :
  ∃ s, GridSimulator.icon_size_of (Samples.plant 2595)
         (Controls.zoom_after [Controls.ZoomIn; Controls.Wheel 120; Controls.ZoomOut])
       = JS.Fin s ∧ 12 <= s <= 32.
Proof.
  apply (icon_size_at_any_zoom _ (Samples.plant 2595)).
  unfold valid_capacity. simpl. lra.
Defined.

(** ** The two projections *)



(** X5.  Both projections put east to the right and north at the top: of
    two finite positions, the one that lies no further east is drawn no
    further right, and the one that lies no further north is drawn no
    higher. *)
Theorem projections_keep_the_orientation (la1 lo1 la2 lo2 : Q) :
  let p := GridSimulator.latLngToXY (JS.Fin la1) (JS.Fin lo1) in
  let q := GridSimulator.latLngToXY (JS.Fin la2) (JS.Fin lo2) in
  let p' := GridMapOverlay.toSVG (JS.Fin la1) (JS.Fin lo1) in
  let q' := GridMapOverlay.toSVG (JS.Fin la2) (JS.Fin lo2) in
  (lo1 <= lo2 → JS.le (px p) (px q) = true ∧ JS.le (px p') (px q') = true)
  ∧ (la1 <= la2 → JS.le (py q) (py p) = true ∧ JS.le (py q') (py p') = true).
Proof.
  unfold GridMapOverlay.toSVG, GridSimulator.latLngToXY, GridSimulator.MAP_WIDTH,
    GridSimulator.MAP_HEIGHT,
    GridSimulator.west, GridSimulator.east, GridSimulator.north, GridSimulator.south.
  cbn zeta. cbn [px py JS.sub JS.add JS.neg].
  rewrite !div_Fin by (intros H; lra). cbn [JS.mul JS.add]. rewrite !le_Fin.
  assert (Hx : ∀ lo, (lo + 8) / 10 * 200 + 50 == (lo + 8) * 20 + 50) by (intros; field).
  assert (Hy : ∀ la, (60 + - la) / 10.5 * 380 + 20 == (60 - la) * (760 # 21) + 20)
    by (intros; field).
  assert (Hx' : ∀ lo, (lo + - -8) / (2 + - -8) * 400 == (lo + 8) * 40) by (intros; field).
  assert (Hy' : ∀ la, (60 + - la) / (60 + - 49.5) * 500 == (60 - la) * (1000 # 21))
    by (intros; field).
  split; intros H; split.
  - rewrite !Hx'. lra.
  - rewrite !Hx. lra.
  - rewrite !Hy'. lra.
  - rewrite !Hy. lra.
Qed.

(** ** The generation mix *)

Section Sorting.

Implicit Types (x y : string * Q) (l : list (string * Q)).

Lemma insert_desc_perm x l : LiveStats.insert_desc x l ≡ₚ x :: l.
Proof.
  induction l as [|y l IH]; simpl; [done|].
  destruct (Qle_bool (snd y) (snd x)); [done|].
  rewrite IH. apply Permutation_swap.
Qed.

Lemma sort_desc_perm l : LiveStats.sort_desc l ≡ₚ l.
Proof.
  induction l as [|x l IH]; simpl; [done|].
  fold (LiveStats.sort_desc l). by rewrite insert_desc_perm, IH.
Qed.

(** A list is descending when each entry is at least every later one. *)
Lemma descending_nil : descending [].
Proof. intros i j a b _ H. by rewrite lookup_nil in H. Qed.

Lemma descending_cons x l :
  descending (x :: l) ↔ (∀ y, y ∈ l → snd y <= snd x) ∧ descending l.
Proof.
  split.
  - intros H. split.
    + intros y [j Hj]%list_elem_of_lookup. apply (H 0%nat (S j)); [lia|done|done].
    + intros i j a b Hij Hi Hj. apply (H (S i) (S j)); [lia|done|done].
  - intros [Hx Hl] i j a b Hij Hi Hj.
    destruct j as [|j]; [lia|]. simpl in Hj.
    destruct i as [|i]; simpl in Hi.
    + simplify_eq. apply Hx. by eapply list_elem_of_lookup_2.
    + apply (Hl i j); [lia|done|done].
Qed.

Lemma insert_desc_descending x l :
  descending l → descending (LiveStats.insert_desc x l).
Proof.
  induction l as [|y l IH]; simpl; intros Hl.
  - apply descending_cons. split; [|apply descending_nil].
    intros y Hy. by apply elem_of_nil in Hy.
  - destruct (Qle_bool (snd y) (snd x)) eqn:E.
    + apply Qle_bool_iff in E. apply descending_cons. split; [|done].
      apply descending_cons in Hl as [Hy _].
      intros z [->|Hz]%elem_of_cons; [done|].
      eapply Qle_trans; [by apply Hy | done].
    + assert (Hxy : snd x < snd y).
      { apply Qnot_le_lt. intros H. apply Qle_bool_iff in H. congruence. }
      apply descending_cons in Hl as [Hy Hl].
      apply descending_cons. split; [|by apply IH].
      intros z Hz. rewrite insert_desc_perm in Hz.
      apply elem_of_cons in Hz as [->|Hz]; [lra | by apply Hy].
Qed.

Lemma sort_desc_descending l : descending (LiveStats.sort_desc l).
Proof.
  induction l as [|x l IH]; simpl; [apply descending_nil|].
  by apply insert_desc_descending.
Qed.

(** The sort is stable: entries of one value keep their order. *)
Lemma insert_desc_valued v x l :
  filter (valued v) (LiveStats.insert_desc x l) = filter (valued v) (x :: l).
Proof.
  induction l as [|y l IH]; simpl; [done|].
  destruct (Qle_bool (snd y) (snd x)) eqn:E; [done|].
  rewrite filter_cons, IH, !filter_cons.
  destruct (decide (valued v y)) as [Hy|Hy]; [|done].
  destruct (decide (valued v x)) as [Hx|Hx]; [|done].
  exfalso. unfold valued in Hx, Hy.
  apply Is_true_true, Qeq_bool_iff in Hx. apply Is_true_true, Qeq_bool_iff in Hy.
  assert (H : Qle_bool (snd y) (snd x) = true) by (apply Qle_bool_iff; rewrite Hx, Hy; lra).
  congruence.
Qed.

Lemma sort_desc_stable v l :
  filter (valued v) (LiveStats.sort_desc l) = filter (valued v) l.
Proof.
  induction l as [|x l IH]; simpl; [done|].
  fold (LiveStats.sort_desc l).
  by rewrite insert_desc_valued, !filter_cons, IH.
Qed.

Lemma descending_take_drop n l s r :
  descending l → s ∈ take n l → r ∈ drop n l → snd r <= snd s.
Proof.
  intros Hl [i Hi]%list_elem_of_lookup [j Hj]%list_elem_of_lookup.
  rewrite lookup_drop in Hj.
  apply lookup_take_Some in Hi as [Hi Hin].
  apply (Hl i (n + j)%nat); [lia|done|done].
Qed.

(** The first [n] entries of the sorted list are the [n] largest. *)
Lemma top_of_sort n l : top_entries n l (take n (LiveStats.sort_desc l)).
Proof.
  split; [|split; [|split]].
  - rewrite length_take. by rewrite (Permutation_length (sort_desc_perm l)).
  - intros i j a b Hij [Hi _]%lookup_take_Some [Hj _]%lookup_take_Some.
    by apply (sort_desc_descending l i j).
  - exists (drop n (LiveStats.sort_desc l)). split.
    + rewrite take_drop. apply sort_desc_perm.
    + intros s r. apply descending_take_drop, sort_desc_descending.
  - intros v. rewrite <- (sort_desc_stable v l).
    rewrite <- (take_drop n (LiveStats.sort_desc l)) at 2.
    rewrite filter_app. by apply prefix_app_r.
Qed.

End Sorting.

(** X6.  The generation mix of the two simulators shows the six largest entries
    of [by_fuel], largest first, and the overlay card the five largest; of
    entries with the same output the ones that come first in the feed are
    kept, in the feed's order.  Without a breakdown there are no bars. *)
Theorem generation_mix_shows_the_largest (g : option LiveStats.generation) :
  let entries := default [] (g ≫= LiveStats.by_fuel) in
  top_entries 6 entries
    ((λ b, (LiveStats.bar_fuel b, LiveStats.bar_mw b)) <$> LiveStats.mix g)
  ∧ top_entries 5 entries
      ((λ b, (LiveStats.card_fuel b, LiveStats.card_mw b)) <$> LiveStats.card_mix g).
Proof.
  intros entries.
  assert (H6 : (λ b, (LiveStats.bar_fuel b, LiveStats.bar_mw b)) <$> LiveStats.mix g
               = take 6 (LiveStats.sort_desc entries)).
  { unfold LiveStats.mix. fold entries. rewrite <- list_fmap_compose.
    rewrite <- (list_fmap_id (take 6 _)) at 2.
    apply list_fmap_ext. by intros _ [fuel mw] _. }
  assert (H5 : (λ b, (LiveStats.card_fuel b, LiveStats.card_mw b)) <$> LiveStats.card_mix g
               = take 5 (LiveStats.sort_desc entries)).
  { unfold LiveStats.card_mix. fold entries. rewrite <- list_fmap_compose.
    rewrite <- (list_fmap_id (take 5 _)) at 2.
    apply list_fmap_ext. by intros _ [fuel mw] _. }
  rewrite H6, H5. split; apply top_of_sort.
Qed.

(** X7.  The percentage of a bar in the simulators' mix is always a finite
    number, and it is 0 on every bar when the snapshot has no total, or a
    total that is zero or negative: the division is guarded by
    [totalGen > 0]. *)
Theorem mix_percentage_is_guarded (g : option LiveStats.generation) :
  ∃ ps : list Q,
    LiveStats.bar_pct <$> LiveStats.mix g = JS.Fin <$> ps
    ∧ (default 0 (g ≫= LiveStats.total_mw) <= 0 → Forall (λ p, p == 0) ps).
Proof.
  unfold LiveStats.mix.
  set (l := take 6 _). set (t := JS.or_default _ 0).
  assert (Ht : t == default 0 (g ≫= LiveStats.total_mw)) by apply or_default_zero.
  cbn [JS.gt JS.lt].
  destruct (JS.Qltb 0 t) eqn:E.
  - apply Qltb_lt in E.
    exists ((λ e, snd e / t * 100) <$> l). split.
    + rewrite <- !list_fmap_compose. apply list_fmap_ext. intros _ [fuel mw] _. simpl.
      assert (Hne : Qeq_bool t 0 = false) by (apply Qeqb_ne; lra).
      by rewrite Hne.
    + intros H. rewrite <- Ht in H. lra.
  - exists ((λ _, 0) <$> l). split.
    + rewrite <- !list_fmap_compose. apply list_fmap_ext. by intros _ [fuel mw] _.
    + intros _. apply Forall_fmap, Forall_true. by intros.
Qed.

(** X8.  For a snapshot with a positive total and a breakdown whose entries
    lie between 0 and the total, every bar of the simulators' mix lies
    between 0 and 100 per cent, and the percentages fall along the bars as
    the outputs do. *)
Theorem mix_percentages_are_bounded (g : LiveStats.generation) :
  within_total g →
  ∃ ps : list Q,
    LiveStats.bar_pct <$> LiveStats.mix (Some g) = JS.Fin <$> ps
    ∧ Forall (λ p, 0 <= p <= 100) ps
    ∧ falling ps.
Proof.
  unfold within_total.
  destruct g as [[t|] [l|]]; simpl; try done. intros (Ht & Hl).
  unfold LiveStats.mix. simpl.
  assert (Hne : Qeq_bool t 0 = false) by (apply Qeqb_ne; lra).
  rewrite Hne. cbn [JS.gt JS.lt].
  assert (Hpos : JS.Qltb 0 t = true) by by apply Qltb_lt.
  rewrite Hpos.
  set (s := take 6 (LiveStats.sort_desc l)).
  assert (Hs : Forall (λ e, 0 <= snd e <= t) s).
  { unfold s. apply Forall_take. by rewrite sort_desc_perm. }
  assert (Hd : descending s).
  { intros i j a b Hij [Hi _]%lookup_take_Some [Hj _]%lookup_take_Some.
    by apply (sort_desc_descending l i j). }
  exists ((λ e, snd e / t * 100) <$> s). split; [|split].
  - rewrite <- !list_fmap_compose. apply list_fmap_ext. intros _ [fuel mw] _. simpl.
    by rewrite Hne.
  - apply Forall_fmap. eapply Forall_impl; [exact Hs|]. intros [fuel mw] [H0 Hmt]. simpl in *.
    assert (H1 : 0 <= mw / t) by (apply Qle_shift_div_l; lra).
    assert (H2 : mw / t <= 1) by (apply Qle_shift_div_r; lra).
    lra.
  - intros i j p q Hij Hp Hq.
    rewrite list_lookup_fmap in Hp, Hq.
    destruct (s !! i) as [a|] eqn:Ha; [|done]. destruct (s !! j) as [b|] eqn:Hb; [|done].
    simpl in Hp, Hq. simplify_eq.
    pose proof (Hd i j a b Hij Ha Hb) as Hba.
    assert (H : snd b / t <= snd a / t) by (apply Qdiv_le_compat; [lra | done]).
    lra.
Qed.

(** 400 MW of wind and 600 MW of gas out of 1000 MW. *)
Lemma mix_percentages_are_bounded_example :
  within_total Samples.wind_and_gas
  ∧ ∃ ps : list Q,
      LiveStats.bar_pct <$> LiveStats.mix (Some Samples.wind_and_gas) = JS.Fin <$> ps
      ∧ Forall (λ p, 0 <= p <= 100) ps
      ∧ falling ps.
Proof.
  assert (H : within_total Samples.wind_and_gas).
  { unfold within_total. simpl. split; [lra|].
    repeat constructor; simpl; lra. }
  split; [exact H | exact (mix_percentages_are_bounded Samples.wind_and_gas H)].
Defined.

(** X9.  The overlay card divides without a guard.  Its percentage is never
    [NaN] (that case falls back to 0, as does an absent total), but with a
    total of zero every fuel that generates shows an infinite percentage,
    where the simulators show 0. *)
Theorem card_percentage_is_not_guarded (g : option LiveStats.generation) :
  Forall (λ b,
    LiveStats.card_pct b ≠ JS.NaN
    ∧ (g ≫= LiveStats.total_mw = None → LiveStats.card_pct b = JS.Fin 0)
    ∧ ∀ t, g ≫= LiveStats.total_mw = Some t →
        (¬ t == 0 →
           JS.eqv (LiveStats.card_pct b) (JS.Fin (LiveStats.card_mw b / t * 100)))
        ∧ (t == 0 → 0 < LiveStats.card_mw b → LiveStats.card_pct b = JS.PosInf)
        ∧ (t == 0 → LiveStats.card_mw b == 0 → LiveStats.card_pct b = JS.Fin 0))
    (LiveStats.card_mix g).
Proof.
  unfold LiveStats.card_mix. apply Forall_fmap, Forall_forall.
  intros [fuel mw] _. simpl.
  destruct (g ≫= LiveStats.total_mw) as [t|]; simpl.
  - split; [|split; [done|]].
    + unfold JS.signed_inf. js_compare; simpl; js_compare; simpl; js_compare; done.
    + intros t' [= <-]. split; [|split].
      * intros Ht. apply Qeqb_ne in Ht. rewrite Ht. simpl.
        js_compare; simpl; [by rewrite E | reflexivity].
      * intros Ht Hmw. apply Qeq_bool_iff in Ht. rewrite Ht.
        assert (Hne : Qeq_bool mw 0 = false) by (apply Qeqb_ne; lra).
        rewrite Hne. unfold JS.signed_inf.
        assert (Hlt : JS.Qltb mw 0 = false) by (apply Qltb_ge; lra).
        by rewrite Hlt.
      * intros Ht Hmw. apply Qeq_bool_iff in Ht. apply Qeq_bool_iff in Hmw.
        by rewrite Ht, Hmw.
  - split; [done|]. split; [done|]. by intros t.
Qed.

(** ** The flexibility opportunities *)

Section Opportunities.

Lemma prototype_names_unconfigured :
  Forall (λ k, FlexPanel.actionConfig !! k = None ∧ FlexPanel.actionColors !! k = None)
    Objects.prototype_names.
Proof. by repeat constructor. Qed.

Lemma config_of_None a :
  FlexPanel.config_of a = None ↔ a ∈ Objects.prototype_names.
Proof.
  unfold FlexPanel.config_of, Objects.get.
  destruct (FlexPanel.actionConfig !! a) as [c|] eqn:E.
  - split; [done|]. intros Hin.
    pose proof prototype_names_unconfigured as H. rewrite Forall_forall in H.
    destruct (H a Hin) as [H1 _]. congruence.
  - by case_bool_decide.
Qed.

Lemma config_of_unconfigured a config :
  FlexPanel.config_of a = Some config → FlexPanel.actionConfig !! a = None →
  config = FlexPanel.INCREASE_LOAD.
Proof.
  unfold FlexPanel.config_of, Objects.get. intros H Hn. rewrite Hn in H.
  case_bool_decide; by simplify_eq.
Qed.

(** The three outcomes of a panel that renders its first three
    opportunities. *)
Lemma panel_outcomes {B} (f : Feed.opportunity → option B) (opps : list Feed.opportunity) :
  let panel := if bool_decide (length opps = 0%nat) then FlexPanel.Renders None
               else match mapM f (take 3 opps) with
                    | Some cards => FlexPanel.Renders (Some cards)
                    | None => FlexPanel.Throws
                    end in
  (panel = FlexPanel.Renders None ↔ opps = [])
  ∧ (panel = FlexPanel.Throws ↔ Exists (λ o, f o = None) (take 3 opps))
  ∧ ∀ cards, panel = FlexPanel.Renders (Some cards) →
      Forall2 (λ o c, f o = Some c) (take 3 opps) cards.
Proof.
  cbn zeta. destruct opps as [|opp opps].
  - split; [done|]. split; [|done]. split; [done|]. intros H. by apply Exists_nil in H.
  - rewrite bool_decide_eq_false_2 by done.
    destruct (mapM f (take 3 (opp :: opps))) as [cards|] eqn:E.
    + split; [done|]. split.
      * split; [done|]. intros H. apply mapM_None in H. congruence.
      * intros cards' [= <-]. by apply mapM_Some.
    + split; [done|]. split; [|done]. split; [|done]. intros _. by apply mapM_None.
Qed.

End Opportunities.

(** X10.  The opportunities panel of the SVG simulator renders nothing
    exactly when the list is empty.  Otherwise it holds one card for each
    of the first three opportunities, in the feed's order, and an
    opportunity whose action is not configured is presented as a green
    [Increase Load], unless one of the three actions is the name of a
    member of [Object.prototype] ([toString], [constructor], ...): then
    the lookup finds the inherited member, the fallback is skipped and the
    render throws. *)
Theorem flex_panel_shows_the_first_three (opps : list Feed.opportunity) :
  (FlexPanel.FlexOpportunitiesPanel opps = FlexPanel.Renders None ↔ opps = [])
  ∧ (FlexPanel.FlexOpportunitiesPanel opps = FlexPanel.Throws
     ↔ Exists (λ o, Feed.action o ∈ Objects.prototype_names) (take 3 opps))
  ∧ ∀ cards, FlexPanel.FlexOpportunitiesPanel opps = FlexPanel.Renders (Some cards) →
      FlexPanel.card_of <$> cards = take 3 opps
      ∧ Forall (λ c,
          FlexPanel.actionConfig !! Feed.action (FlexPanel.card_of c) = None →
          FlexPanel.card_title c = "Increase Load"
          ∧ FlexPanel.card_color c = "green") cards.
Proof.
  unfold FlexPanel.FlexOpportunitiesPanel.
  match goal with |- context [mapM ?f _] => destruct (panel_outcomes f opps) as (H1 & H2 & H3) end.
  split; [exact H1|]. split.
  - rewrite H2. split; intros H; (eapply Exists_impl; [exact H|]); intros o; simpl;
      rewrite fmap_None; apply config_of_None.
  - intros cards Hcards. specialize (H3 cards Hcards). split.
    + pose proof (mapM_Some_2 _ _ _ H3) as Hm.
      apply (mapM_fmap_Some_inv _ FlexPanel.card_of _ _ Hm).
      intros o c Hc. apply fmap_Some in Hc as (config & _ & ->). done.
    + apply Forall_forall. intros c [i Hi]%list_elem_of_lookup.
      destruct (Forall2_lookup_r _ _ _ _ _ H3 Hi) as (o & _ & Hc).
      apply fmap_Some in Hc as (config & Hconfig & ->). simpl. intros Hnone.
      by rewrite (config_of_unconfigured _ _ Hconfig Hnone).
Qed.




(** ** The connection badge *)

(** X12.  After a poll the SVG simulator is no longer loading.  If no request
    failed on the network or in parsing the badge reads [Live] whenever
    the snapshot arrived, whatever the status of the other two responses,
    and there is no badge (no panel) when the snapshot's status was not
    2xx.  If a request did fail in that way the badge reads [Offline] over
    the snapshot of an earlier poll, and there is still no badge when no
    earlier poll brought one. *)
Theorem connection_badge_after_a_poll (now : Z)
    (snap : fetched Feed.snapshotDoc) (ov : fetched Feed.overlayDoc)
    (op : fetched Feed.opportunitiesDoc) (prev : GridSimulator.gridData) :
  let d := GridSimulator.fetchData now snap ov op prev in
  let rejections := [rejection snap; rejection ov; rejection op] in
  GridSimulator.loading d = false
  ∧ (Forall (λ r, r = None) rejections →
       LiveStats.badge_of d
       = match snap with Body _ => Some "Live" | _ => None end)
  ∧ (Exists is_Some rejections →
     Forall (λ r, r ≠ Some EmptyString) rejections →
       LiveStats.badge_of d
       = (λ _, "Offline") <$> GridSimulator.snapshot prev).
Proof.
  unfold LiveStats.badge_of, LiveStats.connection_badge, Controls.isConnected,
    GridSimulator.fetchData, rejection.
  cbn zeta. split; [|split].
  - by destruct (GridSimulator.request snap) as [?|?],
        (GridSimulator.request ov) as [?|?], (GridSimulator.request op) as [?|?].
  - intros H.
    apply Forall_cons in H as [H1 H]. apply Forall_cons in H as [H2 H].
    apply Forall_cons in H as [H3 _].
    destruct snap, ov, op; simpl in *; done.
  - intros Hex Hall.
    apply Forall_cons in Hall as [H1 Hall]. apply Forall_cons in Hall as [H2 Hall].
    apply Forall_cons in Hall as [H3 _].
    assert (Hmsg : ∀ m : string, Some m ≠ Some EmptyString →
                     negb (bool_decide (m = EmptyString)) = true).
    { intros m Hm. rewrite bool_decide_eq_false_2; [done | congruence]. }
    destruct snap, ov, op; simpl in *;
      try (rewrite Hmsg by done); try by destruct (GridSimulator.snapshot prev).
    all: exfalso; repeat (apply Exists_cons in Hex as [[? [=]]|Hex]);
      by apply Exists_nil in Hex.
Qed.

(** ** Layer controls *)

Section LayerControls.

Implicit Types (ls : gmap string GridSimulator.layerState) (key k : string).

Lemma is_visible_toggleLayer key ls k :
  GridSimulator.is_visible (GridSimulator.toggleLayer key ls) k
  = if decide (key = k) then negb (GridSimulator.is_visible ls key)
    else GridSimulator.is_visible ls k.
Proof.
  unfold GridSimulator.is_visible at 1, GridSimulator.toggleLayer.
  destruct (decide (key = k)) as [->|Hne].
  - by rewrite lookup_insert_eq.
  - by rewrite lookup_insert_ne.
Qed.

Lemma opacity_of_toggleLayer key ls k :
  GridSimulator.opacity_of (GridSimulator.toggleLayer key ls) k
  = GridSimulator.opacity_of ls k.
Proof.
  unfold GridSimulator.opacity_of, GridSimulator.toggleLayer.
  destruct (decide (key = k)) as [->|Hne].
  - by rewrite lookup_insert_eq.
  - by rewrite lookup_insert_ne.
Qed.

Lemma layer_elements_ext {A} ls ls' k (items : list A) draw :
  GridSimulator.is_visible ls' k = GridSimulator.is_visible ls k →
  GridSimulator.opacity_of ls' k = GridSimulator.opacity_of ls k →
  GridSimulator.layer_elements ls' k items draw
  = GridSimulator.layer_elements ls k items draw.
Proof. unfold GridSimulator.layer_elements. by intros -> ->. Qed.

(** Toggling a layer takes its elements out of a drawn segment, or leaves
    the segment alone. *)
Lemma segment_hidden {A} ls key k (items : list A) draw :
  (∀ o a, layer_of (draw o a) = k) →
  GridSimulator.is_visible ls key = true →
  GridSimulator.layer_elements (GridSimulator.toggleLayer key ls) k items draw
  = filter (λ el, layer_of el ≠ key) (GridSimulator.layer_elements ls k items draw).
Proof.
  intros Hdraw Hvis. unfold GridSimulator.layer_elements.
  rewrite is_visible_toggleLayer, opacity_of_toggleLayer.
  destruct (decide (key = k)) as [->|Hne].
  - rewrite Hvis. simpl. symmetry.
    induction items as [|a items IH]; [done|].
    rewrite fmap_cons, filter_cons_False; [done|]. rewrite Hdraw. by intros ?.
  - destruct (GridSimulator.is_visible ls k); [|done]. symmetry.
    induction items as [|a items IH]; [done|].
    rewrite fmap_cons, filter_cons_True; [by rewrite IH|]. rewrite Hdraw. congruence.
Qed.

Lemma segment_shown {A} ls key k (items : list A) draw :
  (∀ o a, layer_of (draw o a) = k) →
  GridSimulator.is_visible ls key = false →
  filter (λ el, layer_of el ≠ key)
    (GridSimulator.layer_elements (GridSimulator.toggleLayer key ls) k items draw)
  = GridSimulator.layer_elements ls k items draw.
Proof.
  intros Hdraw Hvis. unfold GridSimulator.layer_elements.
  rewrite is_visible_toggleLayer, opacity_of_toggleLayer.
  destruct (decide (key = k)) as [->|Hne].
  - rewrite Hvis. simpl.
    induction items as [|a items IH]; [done|].
    rewrite fmap_cons, filter_cons_False; [done|]. rewrite Hdraw. by intros ?.
  - destruct (GridSimulator.is_visible ls k); [|done].
    induction items as [|a items IH]; [done|].
    rewrite fmap_cons, filter_cons_True; [by rewrite IH|]. rewrite Hdraw. congruence.
Qed.

End LayerControls.

(** X13.  A layer button of the SVG simulator adds or removes the elements of
    its own layer and nothing else: hiding a visible layer leaves the
    scene without that layer's elements, showing a hidden one leaves every
    other element as it was, in the same order and under the same
    opacity.  The button of a layer that has no elements (constraints)
    does not change the scene. *)
Theorem toggleLayer_changes_one_layer (key : string) (st : GridSimulator.state) :
  let ls := GridSimulator.layer_states st in
  let st' := with_layers st (GridSimulator.toggleLayer key ls) in
  (GridSimulator.is_visible ls key = true →
     GridSimulator.scene st'
     = filter (λ el, layer_of el ≠ key) (GridSimulator.scene st))
  ∧ (GridSimulator.is_visible ls key = false →
     filter (λ el, layer_of el ≠ key) (GridSimulator.scene st')
     = GridSimulator.scene st)
  ∧ (key ∉ ["carbonRegions"; "gridNodes"; "interconnectors"; "generators"] →
     GridSimulator.scene st' = GridSimulator.scene st).
Proof.
  cbn zeta. unfold GridSimulator.scene, GridSimulator.carbonRegions,
    GridSimulator.gridNodes, GridSimulator.interconnectors, GridSimulator.generators.
  cbn [with_layers GridSimulator.layer_states GridSimulator.grid
       GridSimulator.selection GridSimulator.zoom].
  split; [|split].
  - intros Hvis. rewrite !filter_app. by rewrite !segment_hidden.
  - intros Hvis. rewrite !filter_app. by rewrite !segment_shown.
  - intros Hkey.
    assert (Hseg : ∀ A k (items : list A) draw,
              k ∈ ["carbonRegions"; "gridNodes"; "interconnectors"; "generators"] →
              GridSimulator.layer_elements
                (GridSimulator.toggleLayer key (GridSimulator.layer_states st)) k items draw
              = GridSimulator.layer_elements (GridSimulator.layer_states st) k items draw).
    { intros A k items draw Hk. apply layer_elements_ext;
        [rewrite is_visible_toggleLayer | apply opacity_of_toggleLayer].
      rewrite decide_False; [done|]. by intros ->. }
    rewrite !Hseg by set_solver. done.
Qed.

(** X14.  In all three renderers pressing one layer button twice gives back the
    scene as it was. *)
Theorem toggling_twice_restores_the_scene (key : string) :
  (∀ st,
     GridSimulator.scene
       (with_layers st
          (GridSimulator.toggleLayer key
             (GridSimulator.toggleLayer key (GridSimulator.layer_states st))))
     = GridSimulator.scene st)
  ∧ (∀ ls overlay,
       GridSimulatorMap.scene
         (GridSimulatorMap.toggleLayer key (GridSimulatorMap.toggleLayer key ls)) overlay
       = GridSimulatorMap.scene ls overlay)
  ∧ (∀ ls st,
       GridMapOverlay.scene
         (GridMapOverlay.toggleLayer key (GridMapOverlay.toggleLayer key ls)) st
       = GridMapOverlay.scene ls st).
Proof.
  split; [|split].
  - intros st. unfold GridSimulator.scene, GridSimulator.carbonRegions,
      GridSimulator.gridNodes, GridSimulator.interconnectors, GridSimulator.generators.
    cbn [with_layers GridSimulator.layer_states GridSimulator.grid
         GridSimulator.selection GridSimulator.zoom].
    assert (Hseg : ∀ A k (items : list A) draw,
              GridSimulator.layer_elements
                (GridSimulator.toggleLayer key
                   (GridSimulator.toggleLayer key (GridSimulator.layer_states st)))
                k items draw
              = GridSimulator.layer_elements (GridSimulator.layer_states st) k items draw).
    { intros A k items draw. apply layer_elements_ext;
        [rewrite !is_visible_toggleLayer | by rewrite !opacity_of_toggleLayer].
      destruct (decide (key = k)) as [->|Hne]; [|done].
      rewrite decide_True by done. apply negb_involutive. }
    by rewrite !Hseg.
  - intros ls overlay.
    assert (H : ∀ k, GridSimulatorMap.is_on
                       (GridSimulatorMap.toggleLayer key
                          (GridSimulatorMap.toggleLayer key ls)) k
                     = GridSimulatorMap.is_on ls k).
    { intros k. unfold GridSimulatorMap.toggleLayer, GridSimulatorMap.is_on.
      destruct (decide (key = k)) as [->|Hne].
      - rewrite !lookup_insert_eq. simpl. apply negb_involutive.
      - by rewrite !lookup_insert_ne. }
    unfold GridSimulatorMap.scene, GridSimulatorMap.layer_elements. by rewrite !H.
  - intros ls st.
    assert (H : ∀ k, GridMapOverlay.is_on
                       (GridMapOverlay.toggleLayer key
                          (GridMapOverlay.toggleLayer key ls)) k
                     = GridMapOverlay.is_on ls k).
    { intros k. unfold GridMapOverlay.toggleLayer, GridMapOverlay.is_on.
      destruct (decide (key = k)) as [->|Hne].
      - rewrite !lookup_insert_eq. simpl. apply negb_involutive.
      - by rewrite !lookup_insert_ne. }
    unfold GridMapOverlay.scene, GridMapOverlay.generators, GridMapOverlay.interconnectors,
      GridMapOverlay.gridNodes, GridMapOverlay.carbonRegions, GridMapOverlay.extract.
    by rewrite !H.
Qed.

(** X15.  No layer of the SVG simulator can be made fully transparent: whatever
    the layer table holds, the opacity around a drawn element is not 0,
    because a stored 0, like a missing value, is read as 1. *)
Theorem drawn_opacity_is_never_zero (st : GridSimulator.state) :
  Forall (λ el, ¬ opacity_around el == 0) (GridSimulator.scene st).
Proof.
  assert (H : ∀ A k (items : list A) draw,
            (∀ o a, opacity_around (draw o a) = o) →
            Forall (λ el, ¬ opacity_around el == 0)
              (GridSimulator.layer_elements (GridSimulator.layer_states st) k items draw)).
  { intros A k items draw Hdraw. unfold GridSimulator.layer_elements.
    destruct (GridSimulator.is_visible _ k); [|constructor].
    apply Forall_fmap, Forall_forall. intros a _. simpl. rewrite Hdraw.
    apply or_default_nonzero. lra. }
  unfold GridSimulator.scene. rewrite !Forall_app. repeat split; by apply H.
Qed.

(** X16.  The opacity slider of a layer changes that layer's opacity only,
    and no layer's visibility.  A slider value from 1 to 100 leaves the
    layer with an opacity above 0 and at most 1, and a larger value with
    no smaller an opacity; the value 0 leaves it fully opaque, at 1, so
    that the slider itself jumps back to 100. *)
Theorem opacity_slider_settings (key : string) (value : Q)
    (ls : gmap string GridSimulator.layerState) :
  let ls' := Controls.onOpacityChange key value ls in
  (∀ k, GridSimulator.is_visible ls' k = GridSimulator.is_visible ls k)
  ∧ (∀ k, k ≠ key → GridSimulator.opacity_of ls' k = GridSimulator.opacity_of ls k)
  ∧ (value == 0 → GridSimulator.opacity_of ls' key = 1)
  ∧ (1 <= value <= 100 → 0 < GridSimulator.opacity_of ls' key <= 1)
  ∧ (∀ value', 1 <= value <= value' →
       GridSimulator.opacity_of ls' key
       <= GridSimulator.opacity_of (Controls.onOpacityChange key value' ls) key).
Proof.
  cbn zeta. unfold Controls.onOpacityChange, GridSimulator.setLayerOpacity,
    GridSimulator.is_visible, GridSimulator.opacity_of.
  assert (Hset : ∀ v, 1 <= v →
            JS.or_default (Some (v / 100)) 1 = v / 100 ∧ 0 < v / 100).
  { intros v Hv.
    assert (Hpos : 0 < v / 100) by (apply Qlt_shift_div_l; lra).
    split; [|done]. apply or_default_present. lra. }
  split; [|split; [|split; [|split]]].
  - intros k. destruct (decide (key = k)) as [->|Hne].
    + by rewrite lookup_insert_eq.
    + by rewrite lookup_insert_ne.
  - intros k Hne. by rewrite lookup_insert_ne.
  - intros Hv. rewrite lookup_insert_eq. simpl.
    assert (He : value / 100 == 0) by (rewrite Hv; reflexivity).
    apply Qeq_bool_iff in He. by rewrite He.
  - intros [Hlo Hhi]. rewrite lookup_insert_eq. cbn [mbind option_bind GridSimulator.opacity].
    destruct (Hset value Hlo) as [-> Hpos]. split; [done|].
    apply Qle_shift_div_r; lra.
  - intros value' [Hlo Hle]. rewrite !lookup_insert_eq.
    cbn [mbind option_bind GridSimulator.opacity].
    destruct (Hset value Hlo) as [-> _]. destruct (Hset value') as [-> _]; [lra|].
    apply Qdiv_le_compat; lra.
Qed.

(** ** The highlight *)

(** X17.  An element of the SVG simulator is drawn highlighted exactly when it
    is a grid node or a generator whose [id] is that of the selection.
    The comparison is on ids alone: with nothing selected, every node and
    generator that comes without an [id] is highlighted, and entities that
    share the selection's id are highlighted together. *)
Theorem highlight_follows_the_id (st : GridSimulator.state) :
  Forall (λ el,
    highlighted el = true
    ↔ layer_of el ∈ ["gridNodes"; "generators"]
      ∧ GridSimulator.selection st ≫= ent_id = ent_id (GridSimulator.drawn_from el))
    (GridSimulator.scene st).
Proof.
  assert (H : ∀ A k (items : list A) draw,
            (∀ o a, highlighted (draw o a) = true
                    ↔ layer_of (draw o a) ∈ ["gridNodes"; "generators"]
                      ∧ GridSimulator.selection st ≫= ent_id
                        = ent_id (GridSimulator.drawn_from (draw o a))) →
            Forall (λ el,
              highlighted el = true
              ↔ layer_of el ∈ ["gridNodes"; "generators"]
                ∧ GridSimulator.selection st ≫= ent_id
                  = ent_id (GridSimulator.drawn_from el))
              (GridSimulator.layer_elements (GridSimulator.layer_states st) k items draw)).
  { intros A k items draw Hdraw. unfold GridSimulator.layer_elements.
    destruct (GridSimulator.is_visible _ k); [|constructor].
    apply Forall_fmap, Forall_forall. intros a _. apply Hdraw. }
  unfold GridSimulator.scene. rewrite !Forall_app. repeat split; apply H.
  - intros o a. simpl. split; [done|]. intros [Hin _].
    rewrite !elem_of_cons, elem_of_nil in Hin. by destruct Hin as [?|[?|[]]].
  - intros o a. simpl. unfold GridSimulator.is_selected. rewrite bool_decide_eq_true.
    split; [|by intros [_ ?]]. intros Hsel. split; [|done].
    rewrite !elem_of_cons. auto.
  - intros o a. simpl. split; [done|]. intros [Hin _].
    rewrite !elem_of_cons, elem_of_nil in Hin. by destruct Hin as [?|[?|[]]].
  - intros o a. simpl. unfold GridSimulator.is_selected. rewrite bool_decide_eq_true.
    split; [|by intros [_ ?]]. intros Hsel. split; [|done].
    rewrite !elem_of_cons. auto.
Qed.

(** ** Colours across the renderers *)

Section Colours.

Lemma carbon_tables_agree :
  GridSimulator.level_color <$> GridSimulator.CARBON_LEVELS = GridMapOverlay.CarbonColors
  ∧ GridSimulatorMap.CARBON_COLORS = GridMapOverlay.CarbonColors.
Proof. split; reflexivity. Qed.

Lemma fuel_tables_agree :
  GridSimulator.color <$> GridSimulator.FUEL_CONFIG = GridSimulatorMap.FUEL_CONFIG
  ∧ delete "imports" (delete "coal" GridSimulatorMap.FUEL_CONFIG)
    = delete "coal" GridMapOverlay.FuelColors.
Proof. split; reflexivity. Qed.

End Colours.

(** X18.  For a region whose index, in lower case, is not the name of a
    member of [Object.prototype]: the Leaflet simulator and the overlay
    card colour the region alike.  The SVG simulator strokes it in the
    same colour when the lower-cased index is one of the five bands; for
    any other index, or none, it falls back to the moderate band (amber)
    where the other two fall back to grey. *)
Theorem carbon_colours_across_renderers (region : entity) :
  plain_index region →
  let stroke := GridSimulator.level_color
                  (GridSimulator.carbon_level (GridSimulator.CarbonRegion region)) in
  let fill := GridMapOverlay.dot_fill (GridMapOverlay.carbon_dot region) in
  (∀ m, GridSimulatorMap.CarbonRegionMarker region = Some m →
     GridSimulatorMap.fillColor m = fill ∧ GridSimulatorMap.circle_color m = fill)
  ∧ match ent_index region ≫= (λ i, GridMapOverlay.CarbonColors !! toLowerCase i) with
    | Some c => stroke = c ∧ fill = c
    | None => stroke = "#f59e0b" ∧ fill = "#6b7280"
    end.
Proof.
  intros _. destruct carbon_tables_agree as [Hsvg Hmap]. cbn zeta. split.
  - intros m. unfold GridSimulatorMap.CarbonRegionMarker. rewrite Hmap. cbn zeta.
    destruct (GridSimulatorMap.placed region); intros; by simplify_eq/=.
  - unfold GridSimulator.CarbonRegion, GridMapOverlay.carbon_dot. simpl.
    destruct (ent_index region) as [i|]; simpl; [|done].
    rewrite <- Hsvg, lookup_fmap.
    by destruct (GridSimulator.CARBON_LEVELS !! toLowerCase i).
Qed.

(** The colours of a region of high intensity. *)
Lemma carbon_colours_of_a_high_region :
  plain_index Samples.high_region
  ∧ GridSimulator.level_color
      (GridSimulator.carbon_level (GridSimulator.CarbonRegion Samples.high_region))
    = "#f97316"
  ∧ GridMapOverlay.dot_fill (GridMapOverlay.carbon_dot Samples.high_region) = "#f97316".
Proof.
  assert (H : plain_index Samples.high_region).
  { intros i [= <-]. apply (bool_decide_unpack _). by vm_compute. }
  destruct (carbon_colours_across_renderers Samples.high_region H) as [_ Hc].
  split; [exact H | exact Hc].
Defined.

(** X19.  For a generator whose fuel is not the name of a member of
    [Object.prototype]: the two simulators colour it alike, whatever the
    fuel.  The overlay card uses the same colour except for coal, which it
    draws darker, and imports, which it does not know and draws in the
    grey of an unknown fuel. *)
Theorem fuel_colours_across_renderers (g : entity) :
  plain_fuel g →
  let svg := GridSimulator.color (GridSimulator.fuel_config g) in
  svg = GridSimulatorMap.fuel_color g
  ∧ ∀ d, GridMapOverlay.generator_dot g = Some d →
      (fuel_type g ≠ Some "coal" → fuel_type g ≠ Some "imports" →
         GridMapOverlay.dot_fill d = svg)
      ∧ (fuel_type g = Some "coal" →
         GridMapOverlay.dot_fill d = "#1f2937" ∧ svg = "#374151")
      ∧ (fuel_type g = Some "imports" →
         GridMapOverlay.dot_fill d = "#6b7280" ∧ svg = "#06b6d4").
Proof.
  intros _. destruct fuel_tables_agree as [Hsvg Hcard]. cbn zeta.
  assert (Hmap : GridSimulator.color (GridSimulator.fuel_config g)
                 = GridSimulatorMap.fuel_color g).
  { unfold GridSimulator.fuel_config, GridSimulatorMap.fuel_color.
    destruct (fuel_type g) as [f|]; simpl; [|done].
    rewrite <- Hsvg, lookup_fmap.
    by destruct (GridSimulator.FUEL_CONFIG !! f). }
  split; [exact Hmap|].
  intros d. unfold GridMapOverlay.generator_dot.
  destruct (coords g) as [c|]; [|done].
  destruct (JS.is_zero _); [done|]. intros [= <-]. simpl. rewrite Hmap.
  unfold GridSimulatorMap.fuel_color.
  split; [|split].
  - destruct (fuel_type g) as [f|]; simpl; [|done]. intros Hcoal Himp.
    assert (Hc : f ≠ "coal") by congruence.
    assert (Hi : f ≠ "imports") by congruence.
    rewrite <- (lookup_delete_ne GridMapOverlay.FuelColors "coal" f) by done.
    rewrite <- Hcard. by rewrite !lookup_delete_ne by done.
  - by intros ->.
  - by intros ->.
Qed.

(** The colours of a wind farm. *)
Lemma fuel_colours_of_a_wind_farm :
  plain_fuel Samples.wind_farm
  ∧ GridSimulator.color (GridSimulator.fuel_config Samples.wind_farm)
    = GridSimulatorMap.fuel_color Samples.wind_farm
  ∧ GridMapOverlay.dot_fill <$> GridMapOverlay.generator_dot Samples.wind_farm
    = Some (GridSimulator.color (GridSimulator.fuel_config Samples.wind_farm)).
Proof.
  assert (H : plain_fuel Samples.wind_farm).
  { intros f [= <-]. apply (bool_decide_unpack _). by vm_compute. }
  destruct (fuel_colours_across_renderers Samples.wind_farm H) as [Hsvg Hcard].
  split; [exact H|]. split; [exact Hsvg|].
  destruct (GridMapOverlay.generator_dot Samples.wind_farm) as [d|] eqn:Hd;
    [|discriminate Hd].
  destruct (Hcard d eq_refl) as (Hsame & _). simpl. f_equal.
  apply Hsame; discriminate.
Defined.

(** ** Labels of an idle interconnector *)

(** X20.  The selection panels of the two simulators label an interconnector an
    import when its flow is zero or more, the map labels it an import only
    when its flow is above zero.  The two agree for every flow but zero: a
    link reported at 0 MW is an export on the map and an import in the
    panel.  A link without a flow is an export in both. *)
Theorem idle_link_is_labelled_both_ways (ic : entity) (country : string) :
  country_code ic = Some country →
  let tooltip := GridSimulator.cable_direction (GridSimulator.InterconnectorCable ic) in
  ∃ cap fl cls dir cap' fl' cls',
    GridSimulator.interconnector_rows ic
    = [GridSimulator.InterconnectorRows country cap fl cls dir]
    ∧ GridSimulatorMap.interconnector_rows ic
      = [GridSimulatorMap.InterconnectorRows country cap' fl' cls' dir]
    ∧ (∀ l, GridSimulatorMap.InterconnectorLine ic = Some l →
         GridSimulatorMap.direction l = tooltip)
    ∧ match flow_mw ic with
      | Some q =>
          if Qeq_bool q 0 then tooltip = "Export" ∧ dir = "(Import)"
          else dir = "(" +:+ tooltip +:+ ")"
      | None => tooltip = "Export" ∧ dir = "(Export)"
      end.
Proof.
  intros Hc. cbn zeta.
  unfold GridSimulator.interconnector_rows, GridSimulatorMap.interconnector_rows,
    GridSimulatorMap.InterconnectorLine, GridSimulator.InterconnectorCable.
  rewrite Hc. cbn zeta. do 7 eexists.
  split; [reflexivity|]. split; [reflexivity|]. split.
  - intros l. destruct (GridSimulatorMap.placed ic); intros; by simplify_eq/=.
  - cbn [GridSimulator.cable_direction].
    destruct (flow_mw ic) as [q|]; simpl; [|done].
    unfold JS.ge, JS.le, JS.gt, JS.lt.
    destruct (Qeq_bool q 0) eqn:E.
    + apply Qeq_bool_iff in E.
      assert (H1 : JS.Qltb 0 0 = false) by done.
      assert (H2 : JS.Qltb q 0 = false) by (apply Qltb_ge; lra).
      by rewrite H1, H2.
    + apply Qeqb_ne in E. js_compare; try done; lra.
Qed.

(** The link to France at 0 MW. *)
Lemma idle_link_is_labelled_both_ways_at_zero :
  ∃ cap fl cls dir cap' fl' cls',
    GridSimulator.interconnector_rows (Samples.link_with 0)
    = [GridSimulator.InterconnectorRows "FR" cap fl cls dir]
    ∧ GridSimulatorMap.interconnector_rows (Samples.link_with 0)
      = [GridSimulatorMap.InterconnectorRows "FR" cap' fl' cls' dir]
    ∧ (∀ l, GridSimulatorMap.InterconnectorLine (Samples.link_with 0) = Some l →
         GridSimulatorMap.direction l
         = GridSimulator.cable_direction
             (GridSimulator.InterconnectorCable (Samples.link_with 0)))
    ∧ GridSimulator.cable_direction (GridSimulator.InterconnectorCable (Samples.link_with 0))
      = "Export"
    ∧ dir = "(Import)".
Proof.
  destruct (idle_link_is_labelled_both_ways (Samples.link_with 0) "FR" eq_refl)
    as (cap & fl & cls & dir & cap' & fl' & cls' & H1 & H2 & H3 & H4).
  exists cap, fl, cls, dir, cap', fl', cls'.
  split; [exact H1|]. split; [exact H2|]. split; [exact H3|]. exact H4.
Defined.

(** ** Histories of polls *)

(** X21.  After any run of polls the overlay card holds, of each document, the
    latest one that arrived, however the other requests of that poll went.
    The simulators hold the documents of the latest poll in which no
    request was rejected, and show the time of that poll: a document that
    answered with an error status in that poll is gone, although an
    earlier poll brought it, and a poll with a rejected request leaves
    documents and time as they were. *)
Theorem poll_histories (polls : list poll) :
  let settled_polls := filter settled polls in
  let d := simulator_after polls in
  let st := card_after polls in
  GridSimulator.lastUpdate d = poll_time <$> last settled_polls
  ∧ GridSimulator.overlay d
    = last settled_polls ≫= (λ p, GridMapOverlay.fetchDocument (overlay_response p))
  ∧ GridSimulator.snapshot d
    = last settled_polls ≫= (λ p, GridMapOverlay.fetchDocument (snapshot_response p))
  ∧ GridMapOverlay.overlayState st
    = last (omap (λ p, GridMapOverlay.fetchDocument (overlay_response p)) polls)
  ∧ GridMapOverlay.snapshot st
    = last (omap (λ p, GridMapOverlay.fetchDocument (snapshot_response p)) polls).
Proof.
  cbn zeta. induction polls as [|p polls IH] using rev_ind; [done|].
  destruct IH as (IH1 & IH2 & IH3 & IH4 & IH5).
  unfold simulator_after, card_after in *.
  rewrite !foldl_snoc, filter_app, !omap_app, !last_app, filter_cons, filter_nil.
  destruct p as [now snap ov op].
  cbn [poll_time snapshot_response overlay_response opportunities_response].
  split; [|split; [|split; [|split]]].
  - destruct (decide (settled _)) as [(H1 & H2 & H3)|Hs].
    + unfold rejection in *. simpl in *.
      by destruct snap, ov, op; simpl in *.
    + simpl. rewrite <- IH1.
      destruct snap, ov, op; simpl; try done; by destruct Hs.
  - destruct (decide (settled _)) as [(H1 & H2 & H3)|Hs].
    + unfold rejection in *. simpl in *.
      by destruct snap, ov, op; simpl in *.
    + simpl. rewrite <- IH2.
      destruct snap, ov, op; simpl; try done; by destruct Hs.
  - destruct (decide (settled _)) as [(H1 & H2 & H3)|Hs].
    + unfold rejection in *. simpl in *.
      by destruct snap, ov, op; simpl in *.
    + simpl. rewrite <- IH3.
      destruct snap, ov, op; simpl; try done; by destruct Hs.
  - rewrite <- IH4. by destruct ov.
  - rewrite <- IH5. by destruct snap.
Qed.

(** ** The rotation of an animated icon *)

Section Rotation.

Lemma rem_360_in_range a :
  0 <= a →
  ∃ r, Animation.rem (JS.Fin a) (JS.Fin 360) = JS.Fin r ∧ 0 <= r < 360.
Proof.
  intros Ha. simpl. eexists. split; [reflexivity|].
  unfold Animation.Qtrunc.
  set (x := a / 360).
  assert (Hax : a == x * 360) by (unfold x; field).
  assert (Hx : 0 <= x) by (unfold x; apply Qle_shift_div_l; lra).
  assert (Hlt : JS.Qltb x 0 = false) by by apply Qltb_ge.
  rewrite Hlt.
  pose proof (Qfloor_le x) as H1. pose proof (Qlt_floor x) as H2.
  rewrite inject_Z_plus in H2. change (inject_Z 1) with 1 in H2.
  rewrite Hax. split; lra.
Qed.

Lemma speed_of_a_reported_output g out s :
  output_mw g = Some out → Animation.speed g = Some s →
  ∃ q, s = JS.Fin q ∧ 0.5 <= q.
Proof.
  intros Hout. unfold Animation.speed. rewrite Hout. cbn [JS.of_field].
  rewrite div_Fin by (apply or_default_nonzero; lra). cbn [JS.mul].
  destruct (max_Fin 0.5 (out / JS.or_default (capacity_mw g) 100 * 3)) as (q & -> & Hq).
  destruct (_ || _)%bool; [done|]. intros [= <-].
  exists q. split; [done|]. rewrite Hq. apply Q.le_max_l.
Qed.

End Rotation.

(** X22.  While every poll reports an output for the generator, the rotation of
    its icon is a finite angle from 0 up to, but not reaching, 360
    degrees, however long the animation runs and however output and
    capacity change. *)
Theorem rotation_stays_below_360 (history : list entity) :
  Forall (λ g, is_Some (output_mw g)) history →
  ∃ r, Animation.rotation_after history = JS.Fin r ∧ 0 <= r < 360.
Proof.
  unfold Animation.rotation_after.
  assert (H : ∀ r0, 0 <= r0 < 360 →
            Forall (λ g, is_Some (output_mw g)) history →
            ∃ r, foldl (λ rotation generator,
                          match Animation.speed generator with
                          | Some s => Animation.tick s rotation
                          | None => rotation
                          end) (JS.Fin r0) history = JS.Fin r ∧ 0 <= r < 360).
  { induction history as [|g history IH]; intros r0 Hr0 Hall.
    - by exists r0.
    - apply Forall_cons in Hall as [[out Hout] Hall]. cbn [foldl].
      destruct (Animation.speed g) as [s|] eqn:Hs; [|by apply IH].
      destruct (speed_of_a_reported_output g out s Hout Hs) as (q & -> & Hq).
      unfold Animation.tick. cbn [JS.add].
      destruct (rem_360_in_range (r0 + q)) as (r1 & -> & Hr1); [lra|].
      by apply IH. }
  apply H. lra.
Qed.

(** Three ticks of a wind farm at 120 of 300 MW. *)
Lemma rotation_stays_below_360_example :
  ∃ r, Animation.rotation_after [Samples.wind_farm; Samples.wind_farm; Samples.wind_farm]
       = JS.Fin r ∧ 0 <= r < 360.
Proof.
  apply rotation_stays_below_360.
  repeat constructor; by eexists.
Defined.

Section Remounts.

Lemma ticks_in_range (history : list entity) r0 :
  0 <= r0 < 360 →
  Forall (λ g, is_Some (output_mw g)) history →
  ∃ r, foldl (λ rotation e,
                match e with
                | Animation.Tick generator =>
                    match Animation.speed generator with
                    | Some s => Animation.tick s rotation
                    | None => rotation
                    end
                | Animation.Remount => JS.Fin 0
                end) (JS.Fin r0) (Animation.Tick <$> history) = JS.Fin r
       ∧ 0 <= r < 360.
Proof.
  revert r0. induction history as [|g history IH]; intros r0 Hr0 Hall.
  - by exists r0.
  - apply Forall_cons in Hall as [[out Hout] Hall]. rewrite fmap_cons. cbn [foldl].
    destruct (Animation.speed g) as [s|] eqn:Hs; [|by apply IH].
    destruct (speed_of_a_reported_output g out s Hout Hs) as (q & -> & Hq).
    unfold Animation.tick. cbn [JS.add].
    destruct (rem_360_in_range (r0 + q)) as (r1 & -> & Hr1); [lra|].
    by apply IH.
Qed.

Lemma ticks_of_NaN (history : list entity) :
  foldl (λ rotation e,
           match e with
           | Animation.Tick generator =>
               match Animation.speed generator with
               | Some s => Animation.tick s rotation
               | None => rotation
               end
           | Animation.Remount => JS.Fin 0
           end) JS.NaN (Animation.Tick <$> history) = JS.NaN.
Proof.
  induction history as [|h history IH]; [done|]. rewrite fmap_cons. cbn [foldl].
  destruct (Animation.speed h) as [s|]; [|exact IH].
  assert (H1 : Animation.tick s JS.NaN = JS.NaN) by done.
  by rewrite H1.
Qed.

End Remounts.

(** X23.  A wind farm that once comes without [output_mw] gets a rotation
    of [NaN]: the guard [output_mw <= 0] does not hold for a missing
    output, and the speed is [NaN].  The icon keeps that rotation through
    every later tick, whatever the polls report, for as long as it stays
    mounted: its turbine is drawn under [rotate(NaN)].  Only an icon
    mounted afresh at that index starts again from 0, and then stays
    below 360 degrees while the outputs are reported. *)
Theorem rotation_is_lost_until_remount
    (before : list Animation.event) (after later : list entity) (g : entity) :
  fuel_type g = Some "wind" →
  output_mw g = None →
  Animation.icon_rotation g
    (Animation.rotation_through
       (before ++ Animation.Tick g :: (Animation.Tick <$> after)))
  = Some JS.NaN
  ∧ (Forall (λ h, is_Some (output_mw h)) later →
     ∃ r, Animation.rotation_through
            (before ++ Animation.Tick g :: (Animation.Tick <$> after)
               ++ Animation.Remount :: (Animation.Tick <$> later))
          = JS.Fin r
          ∧ 0 <= r < 360).
Proof.
  intros Hwind Hout.
  assert (Hanim : GridSimulator.animate (GridSimulator.fuel_config g) = true).
  { unfold GridSimulator.fuel_config. by rewrite Hwind. }
  assert (Hs : Animation.speed g = Some JS.NaN).
  { unfold Animation.speed. by rewrite Hanim, Hout. }
  assert (H0 : ∀ r, Animation.tick JS.NaN r = JS.NaN).
  { intros r. unfold Animation.tick. by destruct r. }
  unfold Animation.rotation_through. split.
  - unfold Animation.icon_rotation. rewrite Hanim, Hwind. simpl. f_equal.
    rewrite foldl_app. cbn [foldl]. rewrite Hs, H0. apply ticks_of_NaN.
  - intros Hlater.
    rewrite foldl_app. cbn [foldl]. rewrite Hs, H0.
    rewrite foldl_app, ticks_of_NaN. cbn [foldl].
    apply ticks_in_range; [lra | done].
Qed.

(** One poll without an output between two polls with one, then a fresh
    mount and one more tick. *)
Lemma rotation_is_lost_until_remount_example :
  Animation.icon_rotation Samples.silent_turbine
    (Animation.rotation_through
       ([Animation.Tick Samples.wind_farm]
          ++ Animation.Tick Samples.silent_turbine
          :: (Animation.Tick <$> [Samples.wind_farm])))
  = Some JS.NaN
  ∧ ∃ r, Animation.rotation_through
           ([Animation.Tick Samples.wind_farm]
              ++ Animation.Tick Samples.silent_turbine
              :: (Animation.Tick <$> [Samples.wind_farm])
              ++ Animation.Remount :: (Animation.Tick <$> [Samples.wind_farm]))
         = JS.Fin r
         ∧ 0 <= r < 360.
Proof.
  destruct (rotation_is_lost_until_remount
              [Animation.Tick Samples.wind_farm] [Samples.wind_farm] [Samples.wind_farm]
              Samples.silent_turbine eq_refl eq_refl) as [Hnan Hback].
  split; [exact Hnan|]. apply Hback. repeat constructor. by eexists.
Defined.

(** ** The dashboard's pages *)

(** X24.  The home page treats the three ways a request can go
    differently.  A status that is not ok brings in the mock document,
    which is shown like data: its totals, its candidates, its queue.  A
    request that fails on the network or in parsing leaves the cards at a
    dash and the table empty, yet the candidates beneath the dash are the
    mock's.  A body is shown as it is: an empty list of candidates stays
    empty, a body without the list gets the mock's candidates under its
    own totals, and the table holds at most the first eight rows. *)
Theorem home_page_fallbacks (h : fetched Dashboard.headroomDoc)
    (q : fetched (list Dashboard.queueRow)) :
  let view := Dashboard.Home (Dashboard.Home_effect h q) in
  (h = HttpError →
     Dashboard.card_total view = Some (Some 420)
     ∧ Dashboard.card_hidden view = Some (Some 178)
     ∧ Dashboard.candidates view = Dashboard.mock_top_gsps)
  ∧ (q = HttpError → Dashboard.queue_rows view = Dashboard.mockQueue)
  ∧ (is_Some (rejection h) →
     Dashboard.card_total view = None
     ∧ Dashboard.card_hidden view = None
     ∧ Dashboard.candidates view = Dashboard.mock_top_gsps)
  ∧ (is_Some (rejection q) → Dashboard.queue_rows view = [])
  ∧ (∀ b, h = Body b →
     Dashboard.card_total view = Some (Dashboard.total_p95 b)
     ∧ Dashboard.card_hidden view = Some (Dashboard.hidden_mw b)
     ∧ Dashboard.candidates view
       = default Dashboard.mock_top_gsps (Dashboard.top_gsps b)
     ∧ (Dashboard.top_gsps b = Some [] → Dashboard.candidates view = []))
  ∧ (∀ rows, q = Body rows →
     Dashboard.queue_rows view = take 8 rows
     ∧ (length (Dashboard.queue_rows view) <= 8)%nat).
Proof.
  cbn zeta. unfold Dashboard.Home, Dashboard.Home_effect, rejection.
  split; [|split; [|split; [|split; [|split]]]].
  - by intros ->.
  - by intros ->.
  - intros [m Hm]. by destruct h.
  - intros [m Hm]. by destruct q.
  - intros b ->. simpl. split; [done|]. split; [done|]. split; [done|]. by intros ->.
  - intros rows ->. simpl. split; [done|]. rewrite length_take. lia.
Qed.

(** X25.  The stress chart is never empty.  Without scenarios, without a
    distribution or with an empty one it shows three bars of its own, P10,
    P50 and P90 at 10, 45 and 78; otherwise one bar per entry, in order.
    An entry without a label, or with an empty one, is named by its index,
    and an entry whose value is missing or zero is charted with the entry
    itself in place of a number. *)
Theorem stress_chart_is_never_empty (scenarios : option Dashboard.scenariosDoc) :
  let entries := default [] (scenarios ≫= Dashboard.distribution) in
  let bars := Dashboard.DeveloperPortal_chart scenarios in
  (entries = [] →
     bars = [Dashboard.mkChartBar (inl "P10") (inl 10);
             Dashboard.mkChartBar (inl "P50") (inl 45);
             Dashboard.mkChartBar (inl "P90") (inl 78)])
  ∧ (entries ≠ [] → length bars = length entries)
  ∧ bars ≠ []
  ∧ ∀ (i : nat) x, entries !! i = Some x →
      ∃ b, bars !! i = Some b
        ∧ (Dashboard.chart_name b = inr i
           ↔ Dashboard.bin_label x = None ∨ Dashboard.bin_label x = Some EmptyString)
        ∧ (Dashboard.chart_value b = inr x
           ↔ Dashboard.val x = None ∨ ∃ v, Dashboard.val x = Some v ∧ v == 0).
Proof.
  cbn zeta. unfold Dashboard.DeveloperPortal_chart, Dashboard.StressChart.
  destruct (default [] (scenarios ≫= Dashboard.distribution)) as [|e entries] eqn:E.
  - split; [done|]. split; [done|]. split; [done|]. intros i x Hx.
    by rewrite lookup_nil in Hx.
  - cbn zeta. change (0 <? length (e :: entries))%nat with true.
    cbn match. split; [done|]. split; [intros _; by rewrite length_imap|].
    split; [done|]. intros i x Hx.
    rewrite list_lookup_imap, Hx. simpl. eexists. split; [reflexivity|].
    simpl. split.
    + destruct (Dashboard.bin_label x) as [l|]; [|split; [intros _; by left | done]].
      case_bool_decide as Hl; [subst; split; [intros _; by right | done]|].
      split; [done|]. intros [?|[= ->]]; done.
    + destruct (Dashboard.val x) as [v|]; [|split; [intros _; by left | done]].
      destruct (Qeq_bool v 0) eqn:Ev.
      * apply Qeq_bool_iff in Ev. split; [|done]. intros _. right. by exists v.
      * apply Qeqb_ne in Ev. split; [done|].
        intros [?|(v' & [= <-] & Hv)]; done.
Qed.

(** X26.  The connection builder's estimate is the firm capacity plus a
    half of the flexible capacity and three tenths of the storage, rounded
    to the nearest megawatt with a half rounded up.  It never falls when a
    slider is moved up, it lies between the firm capacity and the sum of
    the three, and over the sliders' ranges it runs from 0 to 510; the
    page opens at 106. *)
Theorem connection_estimate (firm flex bess : Z) :
  Dashboard.est firm flex bess = (firm + (5 * flex + 3 * bess + 5) / 10)%Z
  ∧ (∀ firm' flex' bess',
       (firm <= firm')%Z → (flex <= flex')%Z → (bess <= bess')%Z →
       (Dashboard.est firm flex bess <= Dashboard.est firm' flex' bess')%Z)
  ∧ ((0 <= flex)%Z → (0 <= bess)%Z →
       (firm <= Dashboard.est firm flex bess <= firm + flex + bess)%Z)
  ∧ Dashboard.est 0 0 0 = 0%Z
  ∧ Dashboard.est 300 300 200 = 510%Z
  ∧ Dashboard.est 50 100 20 = 106%Z.
Proof.
  assert (Hform : ∀ a b c,
            Dashboard.est a b c = (a + (5 * b + 3 * c + 5) / 10)%Z).
  { intros a b c. unfold Dashboard.est, Dashboard.Math_round.
    assert (H : inject_Z a + inject_Z b * 0.5 + inject_Z c * 0.3 + (1 # 2)
                == (a * 10 + (5 * b + 3 * c + 5)) # 10).
    { unfold Qeq, inject_Z. simpl. lia. }
    rewrite H. unfold Qfloor.
    rewrite Z.div_add_l by lia. reflexivity. }
  split; [apply Hform|]. split; [|split].
  - intros firm' flex' bess' H1 H2 H3. rewrite !Hform.
    assert (H : ((5 * flex + 3 * bess + 5) / 10 <= (5 * flex' + 3 * bess' + 5) / 10)%Z)
      by (apply Z.div_le_mono; lia).
    lia.
  - intros Hf Hb. rewrite Hform.
    assert (H0 : (0 <= (5 * flex + 3 * bess + 5) / 10)%Z) by (apply Z.div_pos; lia).
    assert (H1 : ((5 * flex + 3 * bess + 5) / 10 <= flex + bess)%Z).
    { destruct (Z.eq_dec (flex + bess)%Z 0%Z) as [Hz|Hz].
      - assert (flex = 0%Z) by lia. assert (bess = 0%Z) by lia. by subst.
      - apply Z.div_le_upper_bound; lia. }
    lia.
  - by rewrite !Hform.
Qed.
